(** * Personal library manager: a shallow embedding of [library_manager.py]

    The program is one interactive console loop over a list of book records
    that is read from and written to a JSON file.  This development embeds

    - the pieces of Python's [str], [int] and [list] that the program calls
      (module [Py]);
    - the console, as a list of pending input lines and a log of what was
      written (module [Console]);
    - the program's own functions, under their own names;
    - the [json] encoder and decoder behind [save_library] and
      [load_library] (module [Json]) together with a small file system.

    The menu loop of [main] only dispatches to these functions; it is not
    embedded.

    Text is modelled by [string]: a character is read as the code point of
    the same number (U+0000 to U+00FF), and [lower], [strip] and the JSON
    escapes are Python's on that range.  A record of the catalog is the
    dictionary with the five keys that [add_book] builds; it is kept as a
    Rocq record, and [book_to_json] gives the dictionary back where the
    persistence needs it. *)

From Stdlib Require Import ZArith Ascii String DecimalString DecimalZ Lia.
From stdpp Require Import base option list strings gmap.

Local Open Scope Z_scope.

(** ** Python builtins used by the program *)

Module Py.

Definition code (c : ascii) : N := N_of_ascii c.

(** [str.lower] on one character up to U+00FF: A-Z and the Latin-1 capitals
    (U+00C0-U+00DE but the multiplication sign U+00D7) move up by 32.  A
    [string] holds such characters only, and on them [str.lower] lowers each
    character by itself ([lower_of_string] below compares with
    [Unicode.lower], which has [str.lower] on any text). *)
Definition lower_char (c : ascii) : ascii :=
  let n := code c in
  if ((65 <=? n) && (n <=? 90))%N
     || ((192 <=? n) && (n <=? 222) && negb (n =? 215))%N
  then ascii_of_N (n + 32)
  else c.

Fixpoint lower (s : string) : string :=
  match s with
  | EmptyString => EmptyString
  | String c s' => String (lower_char c) (lower s')
  end.

(** [str.isspace] on one character. *)
Definition is_space (c : ascii) : bool :=
  let n := code c in
  ((9 <=? n) && (n <=? 13) || (28 <=? n) && (n <=? 32)
   || (n =? 133) || (n =? 160))%N.

Fixpoint lstrip (s : string) : string :=
  match s with
  | EmptyString => EmptyString
  | String c s' => if is_space c then lstrip s' else s
  end.

(** Drops the trailing white space: a character is kept when it is not
    white space or when something is kept after it. *)
Fixpoint rstrip (s : string) : string :=
  match s with
  | EmptyString => EmptyString
  | String c s' =>
      match rstrip s' with
      | EmptyString => if is_space c then EmptyString else String c EmptyString
      | r => String c r
      end
  end.

Definition strip (s : string) : string := rstrip (lstrip s).

(** [s * n]. *)
Fixpoint repeat (s : string) (n : nat) : string :=
  match n with
  | O => EmptyString
  | S n' => s +:+ repeat s n'
  end.

(** [sub in s] on strings. *)
Fixpoint contains (sub s : string) : bool :=
  String.prefix sub s
  || match s with
     | EmptyString => false
     | String _ s' => contains sub s'
     end.

Definition is_digit (c : ascii) : bool :=
  let n := code c in ((48 <=? n) && (n <=? 57))%N.

(** Digits of an [int] literal: single underscores are allowed between
    digits and nowhere else.  [prev] tells whether the previous character
    was a digit. *)
Fixpoint int_digits (prev : bool) (s : string) : option string :=
  match s with
  | EmptyString => if prev then Some EmptyString else None
  | String c s' =>
      if is_digit c then String c <$> int_digits true s'
      else if (code c =? 95)%N && prev then int_digits false s'
      else None
  end.

Definition nat_literal (s : string) : option Z :=
  ds ← int_digits false s;
  Z.of_uint <$> NilZero.uint_of_string ds.

(** [int(s)] in base 10 on a stripped string; [None] is [ValueError].  The
    bound that recent interpreters put on the number of digits is not
    modelled. *)
Definition int (s : string) : option Z :=
  match s with
  | String "-" s' => Z.opp <$> nat_literal s'
  | String "+" s' => nat_literal s'
  | _ => nat_literal s
  end.

(** [str(z)] for an [int]. *)
Definition str_of_int (z : Z) : string := NilZero.string_of_int (Z.to_int z).

(** The values the validator hands out or is given as options. *)
Inductive value :=
| VStr (s : string)
| VInt (z : Z)
| VBool (b : bool).

(** [==] on those values: a [bool] is the integer 0 or 1. *)
Definition eq (a b : value) : bool :=
  match a, b with
  | VStr x, VStr y => bool_decide (x = y)
  | VInt x, VInt y => x =? y
  | VBool x, VBool y => bool_decide (x = y)
  | VBool x, VInt y | VInt y, VBool x => Z.b2z x =? y
  | _, _ => false
  end.

(** [x in xs] for a list or a range given by its elements. *)
Definition contained (x : value) (xs : list value) : bool :=
  existsb (eq x) xs.

(** [range(a, b)]. *)
Definition range (a b : Z) : list Z :=
  (λ i, a + Z.of_nat i) <$> seq 0 (Z.to_nat (b - a)).

(** [l[i]] with Python's negative indices; [None] is [IndexError]. *)
Definition index {A} (l : list A) (i : Z) : option A :=
  let n := Z.of_nat (length l) in
  if (0 <=? i) && (i <? n) then l !! Z.to_nat i
  else if (- n <=? i) && (i <? 0) then l !! Z.to_nat (n + i)
  else None.

(** [l.remove(x)]: deletes the first element equal to [x]; [None] is
    [ValueError]. *)
Fixpoint remove `{EqDecision A} (x : A) (l : list A) : option (list A) :=
  match l with
  | [] => None
  | y :: l' => if decide (y = x) then Some l' else (y ::.) <$> remove x l'
  end.

End Py.

(** ** [str.lower] on any text

    The strings of the embedding hold the characters up to U+00FF, one
    [ascii] each.  On such text [str.lower] acts on every character by
    itself and is [Py.lower].  Beyond U+00FF it does not: the capital sigma
    U+03A3 is lowered by what stands around it, and U+0130 gives two
    characters.  This module has [str.lower] on text of any code points as
    the interpreter computes it ([do_lower], [lower_ucs4] and
    [handle_capital_sigma] of CPython), over the case tables of Unicode 14.0,
    the version of CPython 3.11. *)

Module Unicode.

(** A text is the list of its code points. *)
Definition text : Type := list N.

(** The characters with a small letter of their own, in runs: the code
    points [first], [first + step], ... up to [last] go to [image],
    [image + step], ... *)
Definition lower_runs : list (N * N * N * N) :=
  ([
   (0x41, 0x5A, 1, 0x61); (0xC0, 0xD6, 1, 0xE0); (0xD8, 0xDE, 1, 0xF8);
   (0x100, 0x12E, 2, 0x101); (0x132, 0x136, 2, 0x133);
   (0x139, 0x147, 2, 0x13A); (0x14A, 0x176, 2, 0x14B);
   (0x178, 0x178, 1, 0xFF); (0x179, 0x17D, 2, 0x17A);
   (0x181, 0x181, 1, 0x253); (0x182, 0x184, 2, 0x183);
   (0x186, 0x186, 1, 0x254); (0x187, 0x187, 1, 0x188);
   (0x189, 0x18A, 1, 0x256); (0x18B, 0x18B, 1, 0x18C);
   (0x18E, 0x18E, 1, 0x1DD); (0x18F, 0x18F, 1, 0x259);
   (0x190, 0x190, 1, 0x25B); (0x191, 0x191, 1, 0x192);
   (0x193, 0x193, 1, 0x260); (0x194, 0x194, 1, 0x263);
   (0x196, 0x196, 1, 0x269); (0x197, 0x197, 1, 0x268);
   (0x198, 0x198, 1, 0x199); (0x19C, 0x19C, 1, 0x26F);
   (0x19D, 0x19D, 1, 0x272); (0x19F, 0x19F, 1, 0x275);
   (0x1A0, 0x1A4, 2, 0x1A1); (0x1A6, 0x1A6, 1, 0x280);
   (0x1A7, 0x1A7, 1, 0x1A8); (0x1A9, 0x1A9, 1, 0x283);
   (0x1AC, 0x1AC, 1, 0x1AD); (0x1AE, 0x1AE, 1, 0x288);
   (0x1AF, 0x1AF, 1, 0x1B0); (0x1B1, 0x1B2, 1, 0x28A);
   (0x1B3, 0x1B5, 2, 0x1B4); (0x1B7, 0x1B7, 1, 0x292);
   (0x1B8, 0x1B8, 1, 0x1B9); (0x1BC, 0x1BC, 1, 0x1BD);
   (0x1C4, 0x1C4, 1, 0x1C6); (0x1C5, 0x1C5, 1, 0x1C6);
   (0x1C7, 0x1C7, 1, 0x1C9); (0x1C8, 0x1C8, 1, 0x1C9);
   (0x1CA, 0x1CA, 1, 0x1CC); (0x1CB, 0x1DB, 2, 0x1CC);
   (0x1DE, 0x1EE, 2, 0x1DF); (0x1F1, 0x1F1, 1, 0x1F3);
   (0x1F2, 0x1F4, 2, 0x1F3); (0x1F6, 0x1F6, 1, 0x195);
   (0x1F7, 0x1F7, 1, 0x1BF); (0x1F8, 0x21E, 2, 0x1F9);
   (0x220, 0x220, 1, 0x19E); (0x222, 0x232, 2, 0x223);
   (0x23A, 0x23A, 1, 0x2C65); (0x23B, 0x23B, 1, 0x23C);
   (0x23D, 0x23D, 1, 0x19A); (0x23E, 0x23E, 1, 0x2C66);
   (0x241, 0x241, 1, 0x242); (0x243, 0x243, 1, 0x180);
   (0x244, 0x244, 1, 0x289); (0x245, 0x245, 1, 0x28C);
   (0x246, 0x24E, 2, 0x247); (0x370, 0x372, 2, 0x371);
   (0x376, 0x376, 1, 0x377); (0x37F, 0x37F, 1, 0x3F3);
   (0x386, 0x386, 1, 0x3AC); (0x388, 0x38A, 1, 0x3AD);
   (0x38C, 0x38C, 1, 0x3CC); (0x38E, 0x38F, 1, 0x3CD);
   (0x391, 0x3A1, 1, 0x3B1); (0x3A3, 0x3AB, 1, 0x3C3);
   (0x3CF, 0x3CF, 1, 0x3D7); (0x3D8, 0x3EE, 2, 0x3D9);
   (0x3F4, 0x3F4, 1, 0x3B8); (0x3F7, 0x3F7, 1, 0x3F8);
   (0x3F9, 0x3F9, 1, 0x3F2); (0x3FA, 0x3FA, 1, 0x3FB);
   (0x3FD, 0x3FF, 1, 0x37B); (0x400, 0x40F, 1, 0x450);
   (0x410, 0x42F, 1, 0x430); (0x460, 0x480, 2, 0x461);
   (0x48A, 0x4BE, 2, 0x48B); (0x4C0, 0x4C0, 1, 0x4CF);
   (0x4C1, 0x4CD, 2, 0x4C2); (0x4D0, 0x52E, 2, 0x4D1);
   (0x531, 0x556, 1, 0x561); (0x10A0, 0x10C5, 1, 0x2D00);
   (0x10C7, 0x10C7, 1, 0x2D27); (0x10CD, 0x10CD, 1, 0x2D2D);
   (0x13A0, 0x13EF, 1, 0xAB70); (0x13F0, 0x13F5, 1, 0x13F8);
   (0x1C90, 0x1CBA, 1, 0x10D0); (0x1CBD, 0x1CBF, 1, 0x10FD);
   (0x1E00, 0x1E94, 2, 0x1E01); (0x1E9E, 0x1E9E, 1, 0xDF);
   (0x1EA0, 0x1EFE, 2, 0x1EA1); (0x1F08, 0x1F0F, 1, 0x1F00);
   (0x1F18, 0x1F1D, 1, 0x1F10); (0x1F28, 0x1F2F, 1, 0x1F20);
   (0x1F38, 0x1F3F, 1, 0x1F30); (0x1F48, 0x1F4D, 1, 0x1F40);
   (0x1F59, 0x1F5F, 2, 0x1F51); (0x1F68, 0x1F6F, 1, 0x1F60);
   (0x1F88, 0x1F8F, 1, 0x1F80); (0x1F98, 0x1F9F, 1, 0x1F90);
   (0x1FA8, 0x1FAF, 1, 0x1FA0); (0x1FB8, 0x1FB9, 1, 0x1FB0);
   (0x1FBA, 0x1FBB, 1, 0x1F70); (0x1FBC, 0x1FBC, 1, 0x1FB3);
   (0x1FC8, 0x1FCB, 1, 0x1F72); (0x1FCC, 0x1FCC, 1, 0x1FC3);
   (0x1FD8, 0x1FD9, 1, 0x1FD0); (0x1FDA, 0x1FDB, 1, 0x1F76);
   (0x1FE8, 0x1FE9, 1, 0x1FE0); (0x1FEA, 0x1FEB, 1, 0x1F7A);
   (0x1FEC, 0x1FEC, 1, 0x1FE5); (0x1FF8, 0x1FF9, 1, 0x1F78);
   (0x1FFA, 0x1FFB, 1, 0x1F7C); (0x1FFC, 0x1FFC, 1, 0x1FF3);
   (0x2126, 0x2126, 1, 0x3C9); (0x212A, 0x212A, 1, 0x6B);
   (0x212B, 0x212B, 1, 0xE5); (0x2132, 0x2132, 1, 0x214E);
   (0x2160, 0x216F, 1, 0x2170); (0x2183, 0x2183, 1, 0x2184);
   (0x24B6, 0x24CF, 1, 0x24D0); (0x2C00, 0x2C2F, 1, 0x2C30);
   (0x2C60, 0x2C60, 1, 0x2C61); (0x2C62, 0x2C62, 1, 0x26B);
   (0x2C63, 0x2C63, 1, 0x1D7D); (0x2C64, 0x2C64, 1, 0x27D);
   (0x2C67, 0x2C6B, 2, 0x2C68); (0x2C6D, 0x2C6D, 1, 0x251);
   (0x2C6E, 0x2C6E, 1, 0x271); (0x2C6F, 0x2C6F, 1, 0x250);
   (0x2C70, 0x2C70, 1, 0x252); (0x2C72, 0x2C72, 1, 0x2C73);
   (0x2C75, 0x2C75, 1, 0x2C76); (0x2C7E, 0x2C7F, 1, 0x23F);
   (0x2C80, 0x2CE2, 2, 0x2C81); (0x2CEB, 0x2CED, 2, 0x2CEC);
   (0x2CF2, 0x2CF2, 1, 0x2CF3); (0xA640, 0xA66C, 2, 0xA641);
   (0xA680, 0xA69A, 2, 0xA681); (0xA722, 0xA72E, 2, 0xA723);
   (0xA732, 0xA76E, 2, 0xA733); (0xA779, 0xA77B, 2, 0xA77A);
   (0xA77D, 0xA77D, 1, 0x1D79); (0xA77E, 0xA786, 2, 0xA77F);
   (0xA78B, 0xA78B, 1, 0xA78C); (0xA78D, 0xA78D, 1, 0x265);
   (0xA790, 0xA792, 2, 0xA791); (0xA796, 0xA7A8, 2, 0xA797);
   (0xA7AA, 0xA7AA, 1, 0x266); (0xA7AB, 0xA7AB, 1, 0x25C);
   (0xA7AC, 0xA7AC, 1, 0x261); (0xA7AD, 0xA7AD, 1, 0x26C);
   (0xA7AE, 0xA7AE, 1, 0x26A); (0xA7B0, 0xA7B0, 1, 0x29E);
   (0xA7B1, 0xA7B1, 1, 0x287); (0xA7B2, 0xA7B2, 1, 0x29D);
   (0xA7B3, 0xA7B3, 1, 0xAB53); (0xA7B4, 0xA7C2, 2, 0xA7B5);
   (0xA7C4, 0xA7C4, 1, 0xA794); (0xA7C5, 0xA7C5, 1, 0x282);
   (0xA7C6, 0xA7C6, 1, 0x1D8E); (0xA7C7, 0xA7C9, 2, 0xA7C8);
   (0xA7D0, 0xA7D0, 1, 0xA7D1); (0xA7D6, 0xA7D8, 2, 0xA7D7);
   (0xA7F5, 0xA7F5, 1, 0xA7F6); (0xFF21, 0xFF3A, 1, 0xFF41);
   (0x10400, 0x10427, 1, 0x10428); (0x104B0, 0x104D3, 1, 0x104D8);
   (0x10570, 0x1057A, 1, 0x10597); (0x1057C, 0x1058A, 1, 0x105A3);
   (0x1058C, 0x10592, 1, 0x105B3); (0x10594, 0x10595, 1, 0x105BB);
   (0x10C80, 0x10CB2, 1, 0x10CC0); (0x118A0, 0x118BF, 1, 0x118C0);
   (0x16E40, 0x16E5F, 1, 0x16E60); (0x1E900, 0x1E921, 1, 0x1E922)
  ])%N.

(** The characters with the property Cased. *)
Definition cased_ranges : list (N * N) :=
  ([
   (0x41, 0x5A); (0x61, 0x7A); (0xAA, 0xAA); (0xB5, 0xB5); (0xBA, 0xBA);
   (0xC0, 0xD6); (0xD8, 0xF6); (0xF8, 0x1BA); (0x1BC, 0x1BF); (0x1C4, 0x293);
   (0x295, 0x2B8); (0x2C0, 0x2C1); (0x2E0, 0x2E4); (0x345, 0x345);
   (0x370, 0x373); (0x376, 0x377); (0x37A, 0x37D); (0x37F, 0x37F);
   (0x386, 0x386); (0x388, 0x38A); (0x38C, 0x38C); (0x38E, 0x3A1);
   (0x3A3, 0x3F5); (0x3F7, 0x481); (0x48A, 0x52F); (0x531, 0x556);
   (0x560, 0x588); (0x10A0, 0x10C5); (0x10C7, 0x10C7); (0x10CD, 0x10CD);
   (0x10D0, 0x10FA); (0x10FD, 0x10FF); (0x13A0, 0x13F5); (0x13F8, 0x13FD);
   (0x1C80, 0x1C88); (0x1C90, 0x1CBA); (0x1CBD, 0x1CBF); (0x1D00, 0x1DBF);
   (0x1E00, 0x1F15); (0x1F18, 0x1F1D); (0x1F20, 0x1F45); (0x1F48, 0x1F4D);
   (0x1F50, 0x1F57); (0x1F59, 0x1F59); (0x1F5B, 0x1F5B); (0x1F5D, 0x1F5D);
   (0x1F5F, 0x1F7D); (0x1F80, 0x1FB4); (0x1FB6, 0x1FBC); (0x1FBE, 0x1FBE);
   (0x1FC2, 0x1FC4); (0x1FC6, 0x1FCC); (0x1FD0, 0x1FD3); (0x1FD6, 0x1FDB);
   (0x1FE0, 0x1FEC); (0x1FF2, 0x1FF4); (0x1FF6, 0x1FFC); (0x2071, 0x2071);
   (0x207F, 0x207F); (0x2090, 0x209C); (0x2102, 0x2102); (0x2107, 0x2107);
   (0x210A, 0x2113); (0x2115, 0x2115); (0x2119, 0x211D); (0x2124, 0x2124);
   (0x2126, 0x2126); (0x2128, 0x2128); (0x212A, 0x212D); (0x212F, 0x2134);
   (0x2139, 0x2139); (0x213C, 0x213F); (0x2145, 0x2149); (0x214E, 0x214E);
   (0x2160, 0x217F); (0x2183, 0x2184); (0x24B6, 0x24E9); (0x2C00, 0x2CE4);
   (0x2CEB, 0x2CEE); (0x2CF2, 0x2CF3); (0x2D00, 0x2D25); (0x2D27, 0x2D27);
   (0x2D2D, 0x2D2D); (0xA640, 0xA66D); (0xA680, 0xA69D); (0xA722, 0xA787);
   (0xA78B, 0xA78E); (0xA790, 0xA7CA); (0xA7D0, 0xA7D1); (0xA7D3, 0xA7D3);
   (0xA7D5, 0xA7D9); (0xA7F5, 0xA7F6); (0xA7F8, 0xA7FA); (0xAB30, 0xAB5A);
   (0xAB5C, 0xAB68); (0xAB70, 0xABBF); (0xFB00, 0xFB06); (0xFB13, 0xFB17);
   (0xFF21, 0xFF3A); (0xFF41, 0xFF5A); (0x10400, 0x1044F);
   (0x104B0, 0x104D3); (0x104D8, 0x104FB); (0x10570, 0x1057A);
   (0x1057C, 0x1058A); (0x1058C, 0x10592); (0x10594, 0x10595);
   (0x10597, 0x105A1); (0x105A3, 0x105B1); (0x105B3, 0x105B9);
   (0x105BB, 0x105BC); (0x10780, 0x10780); (0x10783, 0x10785);
   (0x10787, 0x107B0); (0x107B2, 0x107BA); (0x10C80, 0x10CB2);
   (0x10CC0, 0x10CF2); (0x118A0, 0x118DF); (0x16E40, 0x16E7F);
   (0x1D400, 0x1D454); (0x1D456, 0x1D49C); (0x1D49E, 0x1D49F);
   (0x1D4A2, 0x1D4A2); (0x1D4A5, 0x1D4A6); (0x1D4A9, 0x1D4AC);
   (0x1D4AE, 0x1D4B9); (0x1D4BB, 0x1D4BB); (0x1D4BD, 0x1D4C3);
   (0x1D4C5, 0x1D505); (0x1D507, 0x1D50A); (0x1D50D, 0x1D514);
   (0x1D516, 0x1D51C); (0x1D51E, 0x1D539); (0x1D53B, 0x1D53E);
   (0x1D540, 0x1D544); (0x1D546, 0x1D546); (0x1D54A, 0x1D550);
   (0x1D552, 0x1D6A5); (0x1D6A8, 0x1D6C0); (0x1D6C2, 0x1D6DA);
   (0x1D6DC, 0x1D6FA); (0x1D6FC, 0x1D714); (0x1D716, 0x1D734);
   (0x1D736, 0x1D74E); (0x1D750, 0x1D76E); (0x1D770, 0x1D788);
   (0x1D78A, 0x1D7A8); (0x1D7AA, 0x1D7C2); (0x1D7C4, 0x1D7CB);
   (0x1DF00, 0x1DF09); (0x1DF0B, 0x1DF1E); (0x1E900, 0x1E943);
   (0x1F130, 0x1F149); (0x1F150, 0x1F169); (0x1F170, 0x1F189)
  ])%N.

(** The characters with the property Case_Ignorable. *)
Definition case_ignorable_ranges : list (N * N) :=
  ([
   (0x27, 0x27); (0x2E, 0x2E); (0x3A, 0x3A); (0x5E, 0x5E); (0x60, 0x60);
   (0xA8, 0xA8); (0xAD, 0xAD); (0xAF, 0xAF); (0xB4, 0xB4); (0xB7, 0xB8);
   (0x2B0, 0x36F); (0x374, 0x375); (0x37A, 0x37A); (0x384, 0x385);
   (0x387, 0x387); (0x483, 0x489); (0x559, 0x559); (0x55F, 0x55F);
   (0x591, 0x5BD); (0x5BF, 0x5BF); (0x5C1, 0x5C2); (0x5C4, 0x5C5);
   (0x5C7, 0x5C7); (0x5F4, 0x5F4); (0x600, 0x605); (0x610, 0x61A);
   (0x61C, 0x61C); (0x640, 0x640); (0x64B, 0x65F); (0x670, 0x670);
   (0x6D6, 0x6DD); (0x6DF, 0x6E8); (0x6EA, 0x6ED); (0x70F, 0x70F);
   (0x711, 0x711); (0x730, 0x74A); (0x7A6, 0x7B0); (0x7EB, 0x7F5);
   (0x7FA, 0x7FA); (0x7FD, 0x7FD); (0x816, 0x82D); (0x859, 0x85B);
   (0x888, 0x888); (0x890, 0x891); (0x898, 0x89F); (0x8C9, 0x902);
   (0x93A, 0x93A); (0x93C, 0x93C); (0x941, 0x948); (0x94D, 0x94D);
   (0x951, 0x957); (0x962, 0x963); (0x971, 0x971); (0x981, 0x981);
   (0x9BC, 0x9BC); (0x9C1, 0x9C4); (0x9CD, 0x9CD); (0x9E2, 0x9E3);
   (0x9FE, 0x9FE); (0xA01, 0xA02); (0xA3C, 0xA3C); (0xA41, 0xA42);
   (0xA47, 0xA48); (0xA4B, 0xA4D); (0xA51, 0xA51); (0xA70, 0xA71);
   (0xA75, 0xA75); (0xA81, 0xA82); (0xABC, 0xABC); (0xAC1, 0xAC5);
   (0xAC7, 0xAC8); (0xACD, 0xACD); (0xAE2, 0xAE3); (0xAFA, 0xAFF);
   (0xB01, 0xB01); (0xB3C, 0xB3C); (0xB3F, 0xB3F); (0xB41, 0xB44);
   (0xB4D, 0xB4D); (0xB55, 0xB56); (0xB62, 0xB63); (0xB82, 0xB82);
   (0xBC0, 0xBC0); (0xBCD, 0xBCD); (0xC00, 0xC00); (0xC04, 0xC04);
   (0xC3C, 0xC3C); (0xC3E, 0xC40); (0xC46, 0xC48); (0xC4A, 0xC4D);
   (0xC55, 0xC56); (0xC62, 0xC63); (0xC81, 0xC81); (0xCBC, 0xCBC);
   (0xCBF, 0xCBF); (0xCC6, 0xCC6); (0xCCC, 0xCCD); (0xCE2, 0xCE3);
   (0xD00, 0xD01); (0xD3B, 0xD3C); (0xD41, 0xD44); (0xD4D, 0xD4D);
   (0xD62, 0xD63); (0xD81, 0xD81); (0xDCA, 0xDCA); (0xDD2, 0xDD4);
   (0xDD6, 0xDD6); (0xE31, 0xE31); (0xE34, 0xE3A); (0xE46, 0xE4E);
   (0xEB1, 0xEB1); (0xEB4, 0xEBC); (0xEC6, 0xEC6); (0xEC8, 0xECD);
   (0xF18, 0xF19); (0xF35, 0xF35); (0xF37, 0xF37); (0xF39, 0xF39);
   (0xF71, 0xF7E); (0xF80, 0xF84); (0xF86, 0xF87); (0xF8D, 0xF97);
   (0xF99, 0xFBC); (0xFC6, 0xFC6); (0x102D, 0x1030); (0x1032, 0x1037);
   (0x1039, 0x103A); (0x103D, 0x103E); (0x1058, 0x1059); (0x105E, 0x1060);
   (0x1071, 0x1074); (0x1082, 0x1082); (0x1085, 0x1086); (0x108D, 0x108D);
   (0x109D, 0x109D); (0x10FC, 0x10FC); (0x135D, 0x135F); (0x1712, 0x1714);
   (0x1732, 0x1733); (0x1752, 0x1753); (0x1772, 0x1773); (0x17B4, 0x17B5);
   (0x17B7, 0x17BD); (0x17C6, 0x17C6); (0x17C9, 0x17D3); (0x17D7, 0x17D7);
   (0x17DD, 0x17DD); (0x180B, 0x180F); (0x1843, 0x1843); (0x1885, 0x1886);
   (0x18A9, 0x18A9); (0x1920, 0x1922); (0x1927, 0x1928); (0x1932, 0x1932);
   (0x1939, 0x193B); (0x1A17, 0x1A18); (0x1A1B, 0x1A1B); (0x1A56, 0x1A56);
   (0x1A58, 0x1A5E); (0x1A60, 0x1A60); (0x1A62, 0x1A62); (0x1A65, 0x1A6C);
   (0x1A73, 0x1A7C); (0x1A7F, 0x1A7F); (0x1AA7, 0x1AA7); (0x1AB0, 0x1ACE);
   (0x1B00, 0x1B03); (0x1B34, 0x1B34); (0x1B36, 0x1B3A); (0x1B3C, 0x1B3C);
   (0x1B42, 0x1B42); (0x1B6B, 0x1B73); (0x1B80, 0x1B81); (0x1BA2, 0x1BA5);
   (0x1BA8, 0x1BA9); (0x1BAB, 0x1BAD); (0x1BE6, 0x1BE6); (0x1BE8, 0x1BE9);
   (0x1BED, 0x1BED); (0x1BEF, 0x1BF1); (0x1C2C, 0x1C33); (0x1C36, 0x1C37);
   (0x1C78, 0x1C7D); (0x1CD0, 0x1CD2); (0x1CD4, 0x1CE0); (0x1CE2, 0x1CE8);
   (0x1CED, 0x1CED); (0x1CF4, 0x1CF4); (0x1CF8, 0x1CF9); (0x1D2C, 0x1D6A);
   (0x1D78, 0x1D78); (0x1D9B, 0x1DFF); (0x1FBD, 0x1FBD); (0x1FBF, 0x1FC1);
   (0x1FCD, 0x1FCF); (0x1FDD, 0x1FDF); (0x1FED, 0x1FEF); (0x1FFD, 0x1FFE);
   (0x200B, 0x200F); (0x2018, 0x2019); (0x2024, 0x2024); (0x2027, 0x2027);
   (0x202A, 0x202E); (0x2060, 0x2064); (0x2066, 0x206F); (0x2071, 0x2071);
   (0x207F, 0x207F); (0x2090, 0x209C); (0x20D0, 0x20F0); (0x2C7C, 0x2C7D);
   (0x2CEF, 0x2CF1); (0x2D6F, 0x2D6F); (0x2D7F, 0x2D7F); (0x2DE0, 0x2DFF);
   (0x2E2F, 0x2E2F); (0x3005, 0x3005); (0x302A, 0x302D); (0x3031, 0x3035);
   (0x303B, 0x303B); (0x3099, 0x309E); (0x30FC, 0x30FE); (0xA015, 0xA015);
   (0xA4F8, 0xA4FD); (0xA60C, 0xA60C); (0xA66F, 0xA672); (0xA674, 0xA67D);
   (0xA67F, 0xA67F); (0xA69C, 0xA69F); (0xA6F0, 0xA6F1); (0xA700, 0xA721);
   (0xA770, 0xA770); (0xA788, 0xA78A); (0xA7F2, 0xA7F4); (0xA7F8, 0xA7F9);
   (0xA802, 0xA802); (0xA806, 0xA806); (0xA80B, 0xA80B); (0xA825, 0xA826);
   (0xA82C, 0xA82C); (0xA8C4, 0xA8C5); (0xA8E0, 0xA8F1); (0xA8FF, 0xA8FF);
   (0xA926, 0xA92D); (0xA947, 0xA951); (0xA980, 0xA982); (0xA9B3, 0xA9B3);
   (0xA9B6, 0xA9B9); (0xA9BC, 0xA9BD); (0xA9CF, 0xA9CF); (0xA9E5, 0xA9E6);
   (0xAA29, 0xAA2E); (0xAA31, 0xAA32); (0xAA35, 0xAA36); (0xAA43, 0xAA43);
   (0xAA4C, 0xAA4C); (0xAA70, 0xAA70); (0xAA7C, 0xAA7C); (0xAAB0, 0xAAB0);
   (0xAAB2, 0xAAB4); (0xAAB7, 0xAAB8); (0xAABE, 0xAABF); (0xAAC1, 0xAAC1);
   (0xAADD, 0xAADD); (0xAAEC, 0xAAED); (0xAAF3, 0xAAF4); (0xAAF6, 0xAAF6);
   (0xAB5B, 0xAB5F); (0xAB69, 0xAB6B); (0xABE5, 0xABE5); (0xABE8, 0xABE8);
   (0xABED, 0xABED); (0xFB1E, 0xFB1E); (0xFBB2, 0xFBC2); (0xFE00, 0xFE0F);
   (0xFE13, 0xFE13); (0xFE20, 0xFE2F); (0xFE52, 0xFE52); (0xFE55, 0xFE55);
   (0xFEFF, 0xFEFF); (0xFF07, 0xFF07); (0xFF0E, 0xFF0E); (0xFF1A, 0xFF1A);
   (0xFF3E, 0xFF3E); (0xFF40, 0xFF40); (0xFF70, 0xFF70); (0xFF9E, 0xFF9F);
   (0xFFE3, 0xFFE3); (0xFFF9, 0xFFFB); (0x101FD, 0x101FD);
   (0x102E0, 0x102E0); (0x10376, 0x1037A); (0x10780, 0x10785);
   (0x10787, 0x107B0); (0x107B2, 0x107BA); (0x10A01, 0x10A03);
   (0x10A05, 0x10A06); (0x10A0C, 0x10A0F); (0x10A38, 0x10A3A);
   (0x10A3F, 0x10A3F); (0x10AE5, 0x10AE6); (0x10D24, 0x10D27);
   (0x10EAB, 0x10EAC); (0x10F46, 0x10F50); (0x10F82, 0x10F85);
   (0x11001, 0x11001); (0x11038, 0x11046); (0x11070, 0x11070);
   (0x11073, 0x11074); (0x1107F, 0x11081); (0x110B3, 0x110B6);
   (0x110B9, 0x110BA); (0x110BD, 0x110BD); (0x110C2, 0x110C2);
   (0x110CD, 0x110CD); (0x11100, 0x11102); (0x11127, 0x1112B);
   (0x1112D, 0x11134); (0x11173, 0x11173); (0x11180, 0x11181);
   (0x111B6, 0x111BE); (0x111C9, 0x111CC); (0x111CF, 0x111CF);
   (0x1122F, 0x11231); (0x11234, 0x11234); (0x11236, 0x11237);
   (0x1123E, 0x1123E); (0x112DF, 0x112DF); (0x112E3, 0x112EA);
   (0x11300, 0x11301); (0x1133B, 0x1133C); (0x11340, 0x11340);
   (0x11366, 0x1136C); (0x11370, 0x11374); (0x11438, 0x1143F);
   (0x11442, 0x11444); (0x11446, 0x11446); (0x1145E, 0x1145E);
   (0x114B3, 0x114B8); (0x114BA, 0x114BA); (0x114BF, 0x114C0);
   (0x114C2, 0x114C3); (0x115B2, 0x115B5); (0x115BC, 0x115BD);
   (0x115BF, 0x115C0); (0x115DC, 0x115DD); (0x11633, 0x1163A);
   (0x1163D, 0x1163D); (0x1163F, 0x11640); (0x116AB, 0x116AB);
   (0x116AD, 0x116AD); (0x116B0, 0x116B5); (0x116B7, 0x116B7);
   (0x1171D, 0x1171F); (0x11722, 0x11725); (0x11727, 0x1172B);
   (0x1182F, 0x11837); (0x11839, 0x1183A); (0x1193B, 0x1193C);
   (0x1193E, 0x1193E); (0x11943, 0x11943); (0x119D4, 0x119D7);
   (0x119DA, 0x119DB); (0x119E0, 0x119E0); (0x11A01, 0x11A0A);
   (0x11A33, 0x11A38); (0x11A3B, 0x11A3E); (0x11A47, 0x11A47);
   (0x11A51, 0x11A56); (0x11A59, 0x11A5B); (0x11A8A, 0x11A96);
   (0x11A98, 0x11A99); (0x11C30, 0x11C36); (0x11C38, 0x11C3D);
   (0x11C3F, 0x11C3F); (0x11C92, 0x11CA7); (0x11CAA, 0x11CB0);
   (0x11CB2, 0x11CB3); (0x11CB5, 0x11CB6); (0x11D31, 0x11D36);
   (0x11D3A, 0x11D3A); (0x11D3C, 0x11D3D); (0x11D3F, 0x11D45);
   (0x11D47, 0x11D47); (0x11D90, 0x11D91); (0x11D95, 0x11D95);
   (0x11D97, 0x11D97); (0x11EF3, 0x11EF4); (0x13430, 0x13438);
   (0x16AF0, 0x16AF4); (0x16B30, 0x16B36); (0x16B40, 0x16B43);
   (0x16F4F, 0x16F4F); (0x16F8F, 0x16F9F); (0x16FE0, 0x16FE1);
   (0x16FE3, 0x16FE4); (0x1AFF0, 0x1AFF3); (0x1AFF5, 0x1AFFB);
   (0x1AFFD, 0x1AFFE); (0x1BC9D, 0x1BC9E); (0x1BCA0, 0x1BCA3);
   (0x1CF00, 0x1CF2D); (0x1CF30, 0x1CF46); (0x1D167, 0x1D169);
   (0x1D173, 0x1D182); (0x1D185, 0x1D18B); (0x1D1AA, 0x1D1AD);
   (0x1D242, 0x1D244); (0x1DA00, 0x1DA36); (0x1DA3B, 0x1DA6C);
   (0x1DA75, 0x1DA75); (0x1DA84, 0x1DA84); (0x1DA9B, 0x1DA9F);
   (0x1DAA1, 0x1DAAF); (0x1E000, 0x1E006); (0x1E008, 0x1E018);
   (0x1E01B, 0x1E021); (0x1E023, 0x1E024); (0x1E026, 0x1E02A);
   (0x1E130, 0x1E13D); (0x1E2AE, 0x1E2AE); (0x1E2EC, 0x1E2EF);
   (0x1E8D0, 0x1E8D6); (0x1E944, 0x1E94B); (0x1F3FB, 0x1F3FF);
   (0xE0001, 0xE0001); (0xE0020, 0xE007F); (0xE0100, 0xE01EF)
  ])%N.

Definition in_ranges (c : N) (ranges : list (N * N)) : bool :=
  existsb (λ r, (r.1 <=? c) && (c <=? r.2))%N ranges.

Definition is_cased (c : N) : bool := in_ranges c cased_ranges.

Definition is_case_ignorable (c : N) : bool := in_ranges c case_ignorable_ranges.

Definition run_image (c : N) (run : N * N * N * N) : option N :=
  let '(first, last, step, image) := run in
  if ((first <=? c) && (c <=? last) && ((c - first) mod step =? 0))%N
  then Some (image + (c - first))%N
  else None.

(** The small letter of one character, the character itself when it has
    none. *)
Definition to_lower (c : N) : N :=
  default c (head (omap (run_image c) lower_runs)).

(** [_PyUnicode_ToLowerFull]. *)
Definition to_lower_full (c : N) : text :=
  if (c =? 0x130)%N then [0x69; 0x307]%N else [to_lower c].

(** The first character that is not case-ignorable. *)
Fixpoint skip_ignorable (s : text) : option N :=
  match s with
  | [] => None
  | c :: s' => if is_case_ignorable c then skip_ignorable s' else Some c
  end.

(** The small letter of a capital sigma: the final form U+03C2 when a cased
    letter stands before it and none after it, case-ignorable characters
    apart; U+03C3 otherwise.  [before] has the characters that precede it,
    the nearest first. *)
Definition handle_capital_sigma (before after : text) : N :=
  let final_sigma :=
    match skip_ignorable before with
    | Some c =>
        is_cased c
        && match skip_ignorable after with
           | Some c' => negb (is_cased c')
           | None => true
           end
    | None => false
    end in
  if final_sigma then 0x3C2%N else 0x3C3%N.

Fixpoint lower_from (before s : text) : text :=
  match s with
  | [] => []
  | c :: after =>
      (if (c =? 0x3A3)%N then [handle_capital_sigma before after]
       else to_lower_full c)
      ++ lower_from (c :: before) after
  end.

(** [str.lower]. *)
Definition lower (s : text) : text := lower_from [] s.

Fixpoint starts_with (sub s : text) : bool :=
  match sub, s with
  | [], _ => true
  | c :: sub', d :: s' => (c =? d)%N && starts_with sub' s'
  | _ :: _, [] => false
  end.

(** [sub in s]. *)
Fixpoint contains (sub s : text) : bool :=
  starts_with sub s
  || match s with
     | [] => false
     | _ :: s' => contains sub s'
     end.

(** The text of a string of the embedding. *)
Fixpoint of_string (s : string) : text :=
  match s with
  | EmptyString => []
  | String c s' => Py.code c :: of_string s'
  end.

(** A record with its texts in any script. *)
Record book := mkBook {
  title : text;
  author : text;
  year : Z;
  genre : text;
  read : bool
}.

End Unicode.

(** ** The console *)

Module Console.

(** What [get_valid_input] raises and catches. *)
Inductive value_error :=
| EmptyInput
| InvalidLiteral (s : string)
| NotYesNo
| NotAnOption (options : list Py.value).

(** What the two persistence functions catch. *)
Inductive failure :=
| OSError
| JSONDecodeError.

Inductive event :=
| Prompt (s : string)
| Print (s : string)
| PrintInvalid (e : value_error)
| PrintSaveError (e : failure)
| PrintLoadError (e : failure).

(** Exceptions that leave a function of the program. *)
Inductive exn :=
| EOFError
| IndexError
| ValueError.

Inductive outcome (A : Type) :=
| Done (a : A) (rest : list string) (out : list event)
| Raised (e : exn) (out : list event).
Arguments Done {A} a rest out.
Arguments Raised {A} e out.

(** A computation reads from the pending input lines. *)
Definition console (A : Type) : Type := list string → outcome A.

Definition emit {A} (evs : list event) (o : outcome A) : outcome A :=
  match o with
  | Done a rest out => Done a rest (evs ++ out)
  | Raised e out => Raised e (evs ++ out)
  end.

Definition ret {A} (a : A) : console A := λ stdin, Done a stdin [].

Definition bind {A B} (m : console A) (k : A → console B) : console B :=
  λ stdin,
    match m stdin with
    | Done a rest out => emit out (k a rest)
    | Raised e out => Raised e out
    end.

Definition print (s : string) : console unit := λ stdin, Done () stdin [Print s].

Definition raise {A} (e : exn) : console A := λ _, Raised e [].

Definition output {A} (o : outcome A) : list event :=
  match o with Done _ _ out | Raised _ out => out end.

End Console.

Import Console.

#[global] Instance console_ret : MRet console := @Console.ret.
#[global] Instance console_bind : MBind console := λ A B k m, Console.bind m k.

(** ** The program *)

Definition nl : string := String (ascii_of_N 10) EmptyString.

Definition rule : string := Py.repeat "=" 50.

(** The [input_type] argument of [get_valid_input]. *)
Inductive input_type := TStr | TInt | TBool.

Definition py_type (ty : input_type) : Type :=
  match ty with TStr => string | TInt => Z | TBool => bool end.

Definition to_value {ty : input_type} : py_type ty → Py.value :=
  match ty with TStr => Py.VStr | TInt => Py.VInt | TBool => Py.VBool end.

(** The conversion in the body of the [try]. *)
Definition convert (ty : input_type) (user_input : string)
  : value_error + py_type ty :=
  match ty return value_error + py_type ty with
  | TStr => inr user_input
  | TInt =>
      match Py.int user_input with
      | Some z => inr z
      | None => inl (InvalidLiteral user_input)
      end
  | TBool =>
      let user_input := Py.lower user_input in
      if bool_decide (user_input ∈ ["yes"; "no"; "y"; "n"])
      then inr (bool_decide (user_input ∈ ["yes"; "y"]))
      else inl NotYesNo
  end.

(** [valid_options and user_input not in valid_options]: [None] and the
    empty collection are both false. *)
Definition rejected_by (valid_options : option (list Py.value)) (v : Py.value)
  : option value_error :=
  match valid_options with
  | None | Some [] => None
  | Some options =>
      if Py.contained v options then None else Some (NotAnOption options)
  end.

(** One pass through the body of the [while True] on the line read. *)
Definition validate (ty : input_type) (valid_options : option (list Py.value))
    (line : string) : value_error + py_type ty :=
  let user_input := Py.strip line in
  if bool_decide (user_input = "") then inl EmptyInput
  else
    match convert ty user_input with
    | inl e => inl e
    | inr v =>
        match rejected_by valid_options (to_value v) with
        | Some e => inl e
        | None => inr v
        end
    end.

(** The loop runs once per line read; it ends when a line is accepted or when
    the input does. *)
Fixpoint get_valid_input (prompt : string) (ty : input_type)
    (valid_options : option (list Py.value)) (stdin : list string)
  : outcome (py_type ty) :=
  match stdin with
  | [] => Raised EOFError [Prompt prompt]
  | line :: rest =>
      match validate ty valid_options line with
      | inr v => Done v rest [Prompt prompt]
      | inl e =>
          emit [Prompt prompt; PrintInvalid e]
               (get_valid_input prompt ty valid_options rest)
      end
  end.

Record book := mkBook {
  title : string;
  author : string;
  year : Z;
  genre : string;
  read : bool
}.

#[global] Instance book_eq_dec : EqDecision book.
Proof. solve_decision. Defined.

Definition banner (heading : string) : console unit :=
  Console.print (nl +:+ rule);;
  Console.print heading;;
  Console.print rule.

Definition add_book (library : list book) : console (list book) :=
  banner "Add a New Book";;
  t ← get_valid_input "Enter the book title: " TStr None;
  a ← get_valid_input "Enter the author: " TStr None;
  y ← get_valid_input "Enter the publication year: " TInt None;
  g ← get_valid_input "Enter the genre: " TStr None;
  r ← get_valid_input "Have you read this book? (yes/no): " TBool None;
  let book := mkBook t a y g r in
  let library := library ++ [book] in
  Console.print (nl +:+ "Book added successfully!");;
  mret library.

Definition print_all (lines : list string) : console unit :=
  foldr (λ line k, Console.print line;; k) (mret ()) lines.

(** Turns [None] into the exception [e]. *)
Definition or_raise {A} (e : exn) (o : option A) : console A :=
  match o with
  | Some a => mret a
  | None => Console.raise e
  end.

(** [enumerate(xs, 1)] mapped through [f]. *)
Definition enumerate_from_1 {A B} (f : Z → A → B) (xs : list A) : list B :=
  imap (λ i, f (Z.of_nat i + 1)) xs.

Definition match_line (i : Z) (book : book) : string :=
  Py.str_of_int i +:+ ". " +:+ title book +:+ " by " +:+ author book
    +:+ " (" +:+ Py.str_of_int (year book) +:+ ")".

Definition remove_book (library : list book) : console (list book) :=
  if bool_decide (library = []) then
    Console.print (nl +:+ "Your library is empty!");;
    mret library
  else
    banner "Remove a Book";;
    title' ← get_valid_input "Enter the title of the book to remove: " TStr None;
    let found_books :=
      filter (λ book, Py.lower (title book) = Py.lower title') library in
    if bool_decide (found_books = []) then
      Console.print (nl +:+ "No book found with title '" +:+ title' +:+ "'");;
      mret library
    else
      book_to_remove ←
        (if bool_decide (1 < length found_books)%nat then
           Console.print (nl +:+ "Multiple books found with that title:");;
           print_all (enumerate_from_1 match_line found_books);;
           choice ← get_valid_input "Enter the number of the book to remove: "
                      TInt
                      (Some (Py.VInt <$>
                               Py.range 1 (Z.of_nat (length found_books) + 1)));
           or_raise IndexError (Py.index found_books (choice - 1))
         else
           or_raise IndexError (Py.index found_books 0));
      library ← or_raise ValueError (Py.remove book_to_remove library);
      Console.print (nl +:+ "Book removed successfully!");;
      mret library.

Definition summary_line (i : Z) (book : book) : string :=
  let status := if read book then "Read" else "Unread" in
  Py.str_of_int i +:+ ". " +:+ title book +:+ " by " +:+ author book
    +:+ " (" +:+ Py.str_of_int (year book) +:+ ") - " +:+ genre book
    +:+ " - " +:+ status.

(** The comprehension that [search_books] prints. *)
Definition search_results (choice : Z) (search_term : string)
    (library : list book) : list book :=
  if choice =? 1 then
    filter (λ book, Py.contains (Py.lower search_term) (Py.lower (title book)))
           library
  else
    filter (λ book, Py.contains (Py.lower search_term) (Py.lower (author book)))
           library.

(** The two comprehensions of [search_books], over any representation of the
    records and of their text. *)
Definition search_results_in {T B : Type} (lower : T → T)
    (contains : T → T → bool) (title author : B → T)
    (choice : Z) (search_term : T) (library : list B) : list B :=
  if choice =? 1 then
    filter (λ book, contains (lower search_term) (lower (title book))) library
  else
    filter (λ book, contains (lower search_term) (lower (author book))) library.

Definition report_results (results : list book) : console unit :=
  if bool_decide (results = []) then
    Console.print (nl +:+ "No matching books found.")
  else
    Console.print (nl +:+ "Found " +:+ Py.str_of_int (Z.of_nat (length results))
                      +:+ " matching book(s):");;
    print_all (enumerate_from_1 summary_line results).

Definition search_books (library : list book) : console unit :=
  if bool_decide (library = []) then
    Console.print (nl +:+ "Your library is empty!")
  else
    banner "Search for a Book";;
    Console.print "Search by:";;
    Console.print "1. Title";;
    Console.print "2. Author";;
    choice ← get_valid_input "Enter your choice: " TInt
               (Some [Py.VInt 1; Py.VInt 2]);
    search_term ← get_valid_input
                    (if choice =? 1 then "Enter the search term: "
                     else "Enter the author's name: ")
                    TStr None;
    report_results (search_results choice search_term library).

Definition display_all_books (library : list book) : console unit :=
  if bool_decide (library = []) then
    Console.print (nl +:+ "Your library is empty!")
  else
    banner "Your Library";;
    print_all (enumerate_from_1 summary_line library).

(** ** Binary64 arithmetic of the percentage

    The percentage is computed on Python floats.  A finite non-negative
    binary64 number is kept as an integer mantissa and an exponent; division
    and multiplication return the nearest such number with 53 bits, ties to
    the even mantissa, as IEEE 754 prescribes.  The exponent range is not
    modelled: the quotients met here lie far inside it. *)

Module Float.

Record t := mk { mant : Z; expo : Z }.

(** The value [mant * 2^expo] as a fraction [num / den]. *)
Definition num (x : t) : Z := mant x * 2 ^ Z.max 0 (expo x).
Definition den (x : t) : Z := 2 ^ Z.max 0 (- expo x).

(** The integer nearest to [n / d], ties to even, for [0 < d]. *)
Definition round_half_even (n d : Z) : Z :=
  let q := n / d in
  match 2 * (n mod d) ?= d with
  | Lt => q
  | Gt => q + 1
  | Eq => if Z.even q then q else q + 1
  end.

(** The binary64 number nearest to [n / d], for [0 <= n] and [0 < d]:
    the exponent [e] is the one that puts [n / (d * 2^e)] between
    [2^52] and [2^53]. *)
Definition of_ratio (n d : Z) : t :=
  if n =? 0 then mk 0 0
  else
    let e0 := Z.log2 n - Z.log2 d - 53 in
    let scaled e := (n * 2 ^ Z.max 0 (- e), d * 2 ^ Z.max 0 e) in
    let e := if 2 ^ 53 * snd (scaled e0) <=? fst (scaled e0)
             then e0 + 1 else e0 in
    mk (round_half_even (fst (scaled e)) (snd (scaled e))) e.

(** [a / b] on two [int]s. *)
Definition truediv (a b : Z) : t := of_ratio a b.

(** [x * k] for an [int] [k] that is a binary64 number itself. *)
Definition mul_int (x : t) (k : Z) : t := of_ratio (num x * k) (den x).

Definition zero : t := mk 0 0.

(** [f"{x:.1f}"]: the decimal with one digit after the point nearest to
    the exact value of [x], ties to even. *)
Definition format_1f (x : t) : string :=
  let tenths := round_half_even (10 * num x) (den x) in
  Py.str_of_int (tenths / 10) +:+ "." +:+ Py.str_of_int (tenths mod 10).

End Float.

(** ** Dictionaries that count

    A Python [dict] keeps its keys in the order of their first insertion;
    the two dictionaries of the statistics are association lists in that
    order. *)

Module Dict.

Definition t : Type := list (string * Z).

(** [d.get(k, default)]. *)
Fixpoint get (d : t) (k : string) (default : Z) : Z :=
  match d with
  | [] => default
  | (k', v) :: d' => if decide (k' = k) then v else get d' k default
  end.

(** [d[k] = v]: an existing key keeps its place, a new one goes last. *)
Fixpoint set (d : t) (k : string) (v : Z) : t :=
  match d with
  | [] => [(k, v)]
  | (k', v') :: d' =>
      if decide (k' = k) then (k, v) :: d' else (k', v') :: set d' k v
  end.

End Dict.

(** [d[k] = d.get(k, 0) + 1]. *)
Definition bump (d : Dict.t) (k : string) : Dict.t :=
  Dict.set d k (Dict.get d k 0 + 1).

(** The loop that fills [genres] and [authors]. *)
Definition count_groups (library : list book) : Dict.t * Dict.t :=
  foldl (λ '(genres, authors) book,
           (bump genres (genre book), bump authors (author book)))
        ([], []) library.

Definition count_line (entry : string * Z) : string :=
  "- " +:+ entry.1 +:+ ": " +:+ Py.str_of_int entry.2.

Definition percentage_read (read_books total_books : Z) : Float.t :=
  if 0 <? total_books
  then Float.mul_int (Float.truediv read_books total_books) 100
  else Float.zero.

Definition display_statistics (library : list book) : console unit :=
  if bool_decide (library = []) then
    Console.print (nl +:+ "Your library is empty!")
  else
    let total_books := Z.of_nat (length library) in
    let read_books := Z.of_nat (length (filter (λ book, read book = true) library)) in
    let percentage_read := percentage_read read_books total_books in
    banner "Library Statistics";;
    Console.print ("Total books: " +:+ Py.str_of_int total_books);;
    Console.print ("Percentage read: " +:+ Float.format_1f percentage_read +:+ "%");;
    let '(genres, authors) := count_groups library in
    Console.print (nl +:+ "Books by genre:");;
    print_all (count_line <$> genres);;
    Console.print (nl +:+ "Books by author:");;
    print_all (count_line <$> authors).

(** ** The [json] module

    [dumps] is [json.dump] with [indent=4] (and the default
    [ensure_ascii]); [loads] is [json.load].  A number with a fraction or an
    exponent is kept as its literal, no float is computed from it.  An escape
    above U+00FF names a character outside the modelled text and is
    refused. *)

Module Json.

#[warnings="-register-all"]
Inductive value :=
| Null
| Bool (b : bool)
| Int (z : Z)
| Float (literal : string)
| Str (s : string)
| Arr (items : list value)
| Obj (members : list (string * value)).

Definition quote : ascii := ascii_of_N 34.

(** *** Encoder *)

Definition hex_digit (n : N) : ascii :=
  if (n <? 10)%N then ascii_of_N (48 + n) else ascii_of_N (87 + n).

Definition escape_char (c : ascii) : string :=
  let n := Py.code c in
  if (n =? 34)%N then String "\" (String quote EmptyString)
  else if (n =? 92)%N then "\\"
  else if (n =? 10)%N then "\n"
  else if (n =? 13)%N then "\r"
  else if (n =? 9)%N then "\t"
  else if (n =? 8)%N then "\b"
  else if (n =? 12)%N then "\f"
  else if ((32 <=? n) && (n <=? 126))%N then String c EmptyString
  else "\u00" +:+ String (hex_digit (n / 16)) (String (hex_digit (n mod 16)) EmptyString).

Fixpoint escape (s : string) : string :=
  match s with
  | EmptyString => EmptyString
  | String c s' => escape_char c +:+ escape s'
  end.

Definition encode_string (s : string) : string :=
  String quote (escape s +:+ String quote EmptyString).

Definition newline_indent (level : nat) : string :=
  nl +:+ Py.repeat " " (4 * level).

(** The items of a container, one per line at the given level. *)
Definition block (opening closing : string) (level : nat)
    (items : list string) : string :=
  match items with
  | [] => opening +:+ closing
  | _ =>
      opening +:+ newline_indent (S level)
        +:+ String.concat ("," +:+ newline_indent (S level)) items
        +:+ newline_indent level +:+ closing
  end.

Fixpoint encode (level : nat) (v : value) : string :=
  match v with
  | Null => "null"
  | Bool true => "true"
  | Bool false => "false"
  | Int z => Py.str_of_int z
  | Float literal => literal
  | Str s => encode_string s
  | Arr items => block "[" "]" level (map (encode (S level)) items)
  | Obj members =>
      block "{" "}" level
        (map (λ kv, encode_string (fst kv) +:+ ": " +:+ encode (S level) (snd kv))
             members)
  end.

Definition dumps (v : value) : string := encode 0 v.

(** *** Decoder *)

Definition is_ws (c : ascii) : bool :=
  let n := Py.code c in ((n =? 32) || (n =? 9) || (n =? 10) || (n =? 13))%N.

Fixpoint skip_ws (s : string) : string :=
  match s with
  | EmptyString => EmptyString
  | String c s' => if is_ws c then skip_ws s' else s
  end.

Definition hex_value (c : ascii) : option N :=
  let n := Py.code c in
  if ((48 <=? n) && (n <=? 57))%N then Some (n - 48)%N
  else if ((97 <=? n) && (n <=? 102))%N then Some (n - 87)%N
  else if ((65 <=? n) && (n <=? 70))%N then Some (n - 55)%N
  else None.

(** The character named by the four hexadecimal digits of an escape. *)
Definition unicode_escape (h1 h2 h3 h4 : ascii) : option ascii :=
  a ← hex_value h1; b ← hex_value h2; c ← hex_value h3; d ← hex_value h4;
  let n := (((a * 16 + b) * 16 + c) * 16 + d)%N in
  if (n <? 256)%N then Some (ascii_of_N n) else None.

Definition simple_escape (c : ascii) : option ascii :=
  if Ascii.eqb c quote then Some quote
  else
    match c with
    | "\"%char => Some "\"%char
    | "/"%char => Some "/"%char
    | "b"%char => Some (ascii_of_N 8)
    | "f"%char => Some (ascii_of_N 12)
    | "n"%char => Some (ascii_of_N 10)
    | "r"%char => Some (ascii_of_N 13)
    | "t"%char => Some (ascii_of_N 9)
    | _ => None
    end.

(** Reads a string literal after its opening quote; gives the string and
    what follows the closing quote. *)
Fixpoint scan_string (s : string) : option (string * string) :=
  match s with
  | EmptyString => None
  | String c s' =>
      if Ascii.eqb c quote then Some (EmptyString, s')
      else if Ascii.eqb c "\" then
        match s' with
        | String "u" (String h1 (String h2 (String h3 (String h4 s'')))) =>
            d ← unicode_escape h1 h2 h3 h4;
            '(str, rest) ← scan_string s'';
            Some (String d str, rest)
        | String e s'' =>
            d ← simple_escape e;
            '(str, rest) ← scan_string s'';
            Some (String d str, rest)
        | EmptyString => None
        end
      else if (Py.code c <? 32)%N then None
      else
        '(str, rest) ← scan_string s';
        Some (String c str, rest)
  end.

(** The longest run of digits at the front, and the rest. *)
Fixpoint span_digits (s : string) : string * string :=
  match s with
  | String c s' =>
      if Py.is_digit c
      then let '(ds, rest) := span_digits s' in (String c ds, rest)
      else (EmptyString, s)
  | EmptyString => (EmptyString, EmptyString)
  end.

(** The integer part [0|[1-9]\d*]. *)
Definition scan_int_part (s : string) : option (string * string) :=
  match s with
  | String "0" s' => Some ("0", s')
  | String c _ => if Py.is_digit c then Some (span_digits s) else None
  | EmptyString => None
  end.

(** The optional fraction [\.\d+]. *)
Definition scan_frac (s : string) : string * string :=
  match s with
  | String "." s' =>
      match span_digits s' with
      | (EmptyString, _) => (EmptyString, s)
      | (ds, rest) => (String "." ds, rest)
      end
  | _ => (EmptyString, s)
  end.

(** The optional exponent [[eE][-+]?\d+]. *)
Definition scan_exp (s : string) : string * string :=
  match s with
  | String e s' =>
      if bool_decide (e = "e"%char ∨ e = "E"%char) then
        let '(sign, s'') :=
          match s' with
          | String "-" t => ("-", t)
          | String "+" t => ("+", t)
          | _ => (EmptyString, s')
          end in
        match span_digits s'' with
        | (EmptyString, _) => (EmptyString, s)
        | (ds, rest) => (String e (sign +:+ ds), rest)
        end
      else (EmptyString, s)
  | EmptyString => (EmptyString, s)
  end.

Definition scan_number (s : string) : option (value * string) :=
  let '(sign, s1) :=
    match s with String "-" t => ("-", t) | _ => (EmptyString, s) end in
  '(int_part, s2) ← scan_int_part s1;
  let '(frac, s3) := scan_frac s2 in
  let '(exp, s4) := scan_exp s3 in
  match frac, exp with
  | EmptyString, EmptyString =>
      z ← Py.int (sign +:+ int_part);
      Some (Int z, s4)
  | _, _ => Some (Float (sign +:+ int_part +:+ frac +:+ exp), s4)
  end.

(** [s] without the prefix [p], when it starts with it. *)
Fixpoint strip_prefix (p s : string) : option string :=
  match p, s with
  | EmptyString, _ => Some s
  | String a p', String b s' =>
      if Ascii.eqb a b then strip_prefix p' s' else None
  | _, _ => None
  end.

Definition scan_constant (s : string) : option (value * string) :=
  match strip_prefix "NaN" s with
  | Some rest => Some (Float "NaN", rest)
  | None =>
      match strip_prefix "Infinity" s with
      | Some rest => Some (Float "Infinity", rest)
      | None => (λ rest, (Float "-Infinity", rest)) <$> strip_prefix "-Infinity" s
      end
  end.

Definition scan_atom (s : string) : option (value * string) :=
  match strip_prefix "null" s with
  | Some rest => Some (Null, rest)
  | None =>
      match strip_prefix "true" s with
      | Some rest => Some (Bool true, rest)
      | None =>
          match strip_prefix "false" s with
          | Some rest => Some (Bool false, rest)
          | None =>
              match scan_number s with
              | Some r => Some r
              | None => scan_constant s
              end
          end
      end
  end.

(** [dict(pairs)]: a repeated key keeps its first place and its last
    value. *)
Fixpoint set_member (d : list (string * value)) (k : string) (v : value)
  : list (string * value) :=
  match d with
  | [] => [(k, v)]
  | (k', v') :: d' =>
      if decide (k' = k) then (k, v) :: d' else (k', v') :: set_member d' k v
  end.

Definition dict (pairs : list (string * value)) : list (string * value) :=
  foldl (λ d kv, set_member d (fst kv) (snd kv)) [] pairs.

(** The recursive descent of the scanner.  [fuel] bounds the depth of the
    calls; [parse_elements] and [parse_members] start after the white space
    that follows the opening bracket or a comma, with the items read so far
    in [acc]. *)
Fixpoint parse_value (fuel : nat) (s : string) : option (value * string) :=
  match fuel with
  | O => None
  | S fuel =>
      match s with
      | EmptyString => None
      | String c s' =>
          if Ascii.eqb c quote then
            '(str, rest) ← scan_string s';
            Some (Str str, rest)
          else if Ascii.eqb c "{" then
            match skip_ws s' with
            | String "}" rest => Some (Obj [], rest)
            | s'' => parse_members fuel s'' []
            end
          else if Ascii.eqb c "[" then
            match skip_ws s' with
            | String "]" rest => Some (Arr [], rest)
            | s'' => parse_elements fuel s'' []
            end
          else scan_atom s
      end
  end
with parse_elements (fuel : nat) (s : string) (acc : list value)
  : option (value * string) :=
  match fuel with
  | O => None
  | S fuel =>
      '(v, rest) ← parse_value fuel s;
      match skip_ws rest with
      | String "]" rest' => Some (Arr (acc ++ [v]), rest')
      | String "," rest' => parse_elements fuel (skip_ws rest') (acc ++ [v])
      | _ => None
      end
  end
with parse_members (fuel : nat) (s : string) (acc : list (string * value))
  : option (value * string) :=
  match fuel with
  | O => None
  | S fuel =>
      match s with
      | String c s' =>
          if Ascii.eqb c quote then
            '(key, rest) ← scan_string s';
            match skip_ws rest with
            | String ":" rest' =>
                '(v, rest'') ← parse_value fuel (skip_ws rest');
                match skip_ws rest'' with
                | String "}" rest3 => Some (Obj (dict (acc ++ [(key, v)])), rest3)
                | String "," rest3 =>
                    parse_members fuel (skip_ws rest3) (acc ++ [(key, v)])
                | _ => None
                end
            | _ => None
            end
          else None
      | EmptyString => None
      end
  end.

(** [json.loads]: one value between optional white space, nothing else. *)
Definition loads (s : string) : option value :=
  '(v, rest) ← parse_value (String.length s) (skip_ws s);
  match skip_ws rest with
  | EmptyString => Some v
  | _ => None
  end.

End Json.

(** ** Persistence *)

(** A file of the store: its text and whether it may be opened for reading
    and for writing.  A path that maps to nothing does not exist. *)
Record file := mkFile {
  content : string;
  readable : bool;
  writable : bool
}.

Abbreviation store := (gmap string file).

(** The dictionary that [add_book] builds for a book. *)
Definition book_to_json (b : book) : Json.value :=
  Json.Obj [("title", Json.Str (title b));
            ("author", Json.Str (author b));
            ("year", Json.Int (year b));
            ("genre", Json.Str (genre b));
            ("read", Json.Bool (read b))].

(** The catalog as the Python value that is handed to [json.dump]. *)
Definition library_to_json (library : list book) : Json.value :=
  Json.Arr (book_to_json <$> library).

(** [open(filename, 'w')] followed by the dump: a new file is created, an
    existing one is overwritten when it may be written. *)
Definition save_library (library : list book) (filename : string) (fs : store)
  : store * list event :=
  let text := Json.dumps (library_to_json library) in
  match fs !! filename with
  | None => (<[filename := mkFile text true true]> fs, [])
  | Some f =>
      if writable f
      then (<[filename := mkFile text (readable f) true]> fs, [])
      else (fs, [PrintSaveError OSError])
  end.

(** The result is whatever [json.load] returns; the empty list otherwise. *)
Definition load_library (filename : string) (fs : store)
  : Json.value * list event :=
  match fs !! filename with
  | Some f =>
      if readable f then
        match Json.loads (content f) with
        | Some v => (v, [])
        | None => (Json.Arr [], [PrintLoadError JSONDecodeError])
        end
      else (Json.Arr [], [PrintLoadError OSError])
  | None => (Json.Arr [], [])
  end.

(** *** Shape of a record *)

Definition lookup_member (k : string) (members : list (string * Json.value))
  : option Json.value :=
  snd <$> find (λ kv, bool_decide (fst kv = k)) members.

(** A dictionary with exactly the five fields, in any order, each of its
    type. *)
Definition book_of_json (v : Json.value) : option book :=
  match v with
  | Json.Obj members =>
      if bool_decide (length members = 5%nat) then
        match lookup_member "title" members, lookup_member "author" members,
              lookup_member "year" members, lookup_member "genre" members,
              lookup_member "read" members with
        | Some (Json.Str t), Some (Json.Str a), Some (Json.Int y),
          Some (Json.Str g), Some (Json.Bool r) => Some (mkBook t a y g r)
        | _, _, _, _, _ => None
        end
      else None
  | _ => None
  end.

Definition is_book_record (v : Json.value) : bool :=
  bool_decide (is_Some (book_of_json v)).

(** A list whose items are all five-field records. *)
Definition library_of_json (v : Json.value) : option (list book) :=
  match v with
  | Json.Arr items => mapM book_of_json items
  | _ => None
  end.

(** ** The menu loop *)

(** What the program does to the terminal: it runs a command, or it writes
    and prompts. *)
Inductive action :=
| System (command : string)
| Screen (e : event).

(** [os.system('cls' if os.name == 'nt' else 'clear')], for the value of
    [os.name]. *)
Definition clear_screen (os_name : string) : list action :=
  [System (if bool_decide (os_name = "nt") then "cls" else "clear")].

Definition display_menu : console unit :=
  Console.print (nl +:+ rule);;
  Console.print "Welcome to your Personal Library Manager!";;
  Console.print rule;;
  Console.print "1. Add a book";;
  Console.print "2. Remove a book";;
  Console.print "3. Search for a book";;
  Console.print "4. Display all books";;
  Console.print "5. Display statistics";;
  Console.print "6. Exit";;
  Console.print rule.

(** [input(prompt)]: writes the prompt, then reads one line. *)
Definition input (prompt : string) : console string :=
  λ stdin,
    match stdin with
    | [] => Raised EOFError [Prompt prompt]
    | line :: rest => Done line rest [Prompt prompt]
    end.

(** The branches of [main] for the choices 1 to 5; the functions change the
    list in place, the catalog that they leave is the result here. *)
Definition handle (choice : Z) (library : list book) : console (list book) :=
  if choice =? 1 then add_book library
  else if choice =? 2 then remove_book library
  else if choice =? 3 then search_books library;; mret library
  else if choice =? 4 then display_all_books library;; mret library
  else if choice =? 5 then display_statistics library;; mret library
  else mret library.

(** How [main] ends: the loop is left by choice 6, with the store as the
    save left it and the lines not read; or an exception leaves [main].
    [Unshaped] is no end of the program: it stands for the choice of an
    operation on a document that is not a list of records as [save_library]
    writes them, and what the functions do with such a value is not
    modelled. *)
Inductive ending :=
| Exit (fs : store) (rest : list string)
| Uncaught (e : exn)
| Unshaped (v : Json.value).

Definition add_trace (t : list action) (r : ending * list action)
  : ending * list action :=
  (r.1, t ++ r.2).

(** The [while True] of [main].  [fuel] bounds the number of rounds; every
    round reads a line at least, so that one more than the number of pending
    lines is enough. *)
Fixpoint session (fuel : nat) (os_name : string) (fs : store)
    (library : list book) (stdin : list string)
  : option (ending * list action) :=
  match fuel with
  | O => None
  | S fuel =>
      let shown :=
        clear_screen os_name ++ (Screen <$> output (display_menu stdin)) in
      match get_valid_input (nl +:+ "Enter your choice: ") TInt
              (Some (Py.VInt <$> Py.range 1 7)) stdin with
      | Raised e out => Some (Uncaught e, shown ++ (Screen <$> out))
      | Done choice rest out =>
          if choice =? 6 then
            let saved := save_library library "library.json" fs in
            Some (Exit saved.1 rest,
                  shown
                  ++ (Screen <$> out ++ saved.2
                        ++ [Print (nl +:+ "Library saved to file. Goodbye!")]))
          else
            match (library ← handle choice library;
                   input (nl +:+ "Press Enter to continue...");;
                   mret library) rest with
            | Raised e out' => Some (Uncaught e, shown ++ (Screen <$> out ++ out'))
            | Done library rest out' =>
                add_trace (shown ++ (Screen <$> out ++ out'))
                  <$> session fuel os_name fs library rest
            end
      end
  end.

(** A record as [save_library] writes it: the five keys in the order in
    which [add_book] puts them. *)
Definition saved_book (v : Json.value) : option book :=
  match v with
  | Json.Obj [(k1, Json.Str t); (k2, Json.Str a); (k3, Json.Int y);
              (k4, Json.Str g); (k5, Json.Bool r)] =>
      if bool_decide (k1 = "title" ∧ k2 = "author" ∧ k3 = "year"
                      ∧ k4 = "genre" ∧ k5 = "read")
      then Some (mkBook t a y g r)
      else None
  | _ => None
  end.

Definition saved_library (v : Json.value) : option (list book) :=
  match v with
  | Json.Arr items => mapM saved_book items
  | _ => None
  end.

(** [main]: the catalog is loaded, then the loop runs.  The menu comes up on
    whatever [load_library] returned.  The operations are modelled on the
    catalogs that the program itself saves ([saved_library]); on any other
    document the run is followed through the menu and the prompt, up to the
    choice of an operation, and ends there as [Unshaped]. *)
Definition main (os_name : string) (fs : store) (stdin : list string)
  : option (ending * list action) :=
  let loaded := load_library "library.json" fs in
  match saved_library loaded.1 with
  | Some library =>
      add_trace (Screen <$> loaded.2)
        <$> session (S (length stdin)) os_name fs library stdin
  | None =>
      let shown :=
        (Screen <$> loaded.2) ++ clear_screen os_name
        ++ (Screen <$> output (display_menu stdin)) in
      match get_valid_input (nl +:+ "Enter your choice: ") TInt
              (Some (Py.VInt <$> Py.range 1 7)) stdin with
      | Raised e out => Some (Uncaught e, shown ++ (Screen <$> out))
      | Done _ _ out => Some (Unshaped loaded.1, shown ++ (Screen <$> out))
      end
  end.

(** * Vocabulary of the statements *)

(** The lines that [get_valid_input] reads before it returns: rejected ones,
    then the accepted one. *)
Inductive reads (ty : input_type) (valid_options : option (list Py.value))
  : list string → py_type ty → list string → list value_error → Prop :=
| reads_accept line rest v :
    validate ty valid_options line = inr v →
    reads ty valid_options (line :: rest) v rest []
| reads_reject line stdin v rest e es :
    validate ty valid_options line = inl e →
    reads ty valid_options stdin v rest es →
    reads ty valid_options (line :: stdin) v rest (e :: es).

(** What is written for a list of rejected lines and the accepted one. *)
Definition transcript (prompt : string) (es : list value_error) : list event :=
  (es ≫= λ e, [Prompt prompt; PrintInvalid e]) ++ [Prompt prompt].

(** The entries of the catalog whose title is the entered one up to case. *)
Definition matches (title' : string) (library : list book) : list book :=
  filter (λ book, Py.lower (title book) = Py.lower title') library.

(** The prompt of [remove_book] for the title. *)
Definition title_prompt : string := "Enter the title of the book to remove: ".

(** The position in the catalog of match number [k], counted from 0 in
    catalog order. *)
Fixpoint match_position (title' : string) (library : list book) (k : nat)
  : option nat :=
  match library with
  | [] => None
  | book :: library' =>
      if decide (Py.lower (title book) = Py.lower title') then
        match k with
        | O => Some O
        | S k' => S <$> match_position title' library' k'
        end
      else S <$> match_position title' library' k
  end.

(** The value of each category that a stripped line stands for. *)
Inductive converts : ∀ ty : input_type, string → py_type ty → Prop :=
| converts_text s : converts TStr s s
| converts_int s z : Py.int s = Some z → converts TInt s z
| converts_yes s : Py.lower s ∈ ["yes"; "y"] → converts TBool s true
| converts_no s : Py.lower s ∈ ["no"; "n"] → converts TBool s false.

(** [term] occurs in [s] up to case: some substring of [s] equals [term]
    once both are lowered. *)
Definition ci_substring (term s : string) : Prop :=
  ∃ pre mid suf, s = pre +:+ mid +:+ suf ∧ Py.lower mid = Py.lower term.

(** [l'] holds exactly the items of [l] that satisfy [P], as often and in
    the order in which [l] has them. *)
Inductive selected {A} (P : A → Prop) : list A → list A → Prop :=
| selected_nil : selected P [] []
| selected_keep x l l' : P x → selected P l l' → selected P (x :: l) (x :: l')
| selected_skip x l l' : ¬ P x → selected P l l' → selected P (x :: l) l'.

(** The field that a search mode looks at, and the prompt for its term. *)
Definition search_field (choice : Z) : book → string :=
  if choice =? 1 then title else author.

Definition term_prompt (choice : Z) : string :=
  if choice =? 1 then "Enter the search term: " else "Enter the author's name: ".

(** The distinct strings of a list, each at the place of its first
    occurrence. *)
Fixpoint first_occurrences (keys : list string) : list string :=
  match keys with
  | [] => []
  | k :: keys' => k :: filter (λ k', k' ≠ k) (first_occurrences keys')
  end.

(** How many records have exactly the string [k] in the field [key]. *)
Definition count_of (key : book → string) (k : string) (library : list book) : Z :=
  Z.of_nat (length (filter (λ book, key book = k) library)).

(** One entry per distinct string of the field, in the order of first
    occurrence, with the number of records that carry it. *)
Definition groups (key : book → string) (library : list book) : Dict.t :=
  (λ k, (k, count_of key k library)) <$> first_occurrences (key <$> library).

(** The number of records whose [read] flag is set. *)
Definition read_count (library : list book) : Z :=
  Z.of_nat (length (filter (λ book, read book = true) library)).

Definition total_count (library : list book) : Z := Z.of_nat (length library).

(** The line of the statistics that carries the percentage. *)
Definition percentage_line (library : list book) : string :=
  "Percentage read: "
    +:+ Float.format_1f (percentage_read (read_count library) (total_count library))
    +:+ "%".

(** A character that ends a number: the comma or the line break that
    [dumps] puts after a value. *)
Definition ends_value (c : ascii) : Prop := c = ","%char ∨ c = ascii_of_N 10.

(** A decimal numeral that starts with a digit other than 0. *)
Definition nonzero_head (d : Decimal.uint) : Prop :=
  match d with
  | Decimal.Nil | Decimal.D0 _ => False
  | _ => True
  end.

(** What [dumps] writes between two members of a record and between two
    records of the list, and the texts of the records. *)
Definition member_sep : string := "," +:+ Json.newline_indent 2.

Definition item_sep : string := "," +:+ Json.newline_indent 1.

Definition encode_books (books : list book) : list string :=
  map (Json.encode 1) (book_to_json <$> books).

(** A character of plain ASCII text: printable, or the line break. *)
Definition plain (c : ascii) : bool :=
  let n := Py.code c in ((n =? 10) || (32 <=? n) && (n <=? 126))%N.

Fixpoint all_plain (s : string) : bool :=
  match s with
  | EmptyString => true
  | String c s' => plain c && all_plain s'
  end.

(** The sum of the counts of a dictionary. *)
Definition dict_total (d : Dict.t) : Z := foldr (λ entry acc, entry.2 + acc) 0 d.

(** The stores on which a run of [main] is modelled to its end: no
    [library.json]; or one that cannot be read or does not decode, which the
    program takes for the empty catalog; or one that holds a catalog as the
    program saves it. *)
Definition known_store (fs : store) : Prop :=
  match fs !! "library.json" with
  | None => True
  | Some f =>
      readable f = false ∨ Json.loads (content f) = None
      ∨ ∃ library, content f = Json.dumps (library_to_json library)
  end.

(** A computation that only moves forward in the input, and one that no
    exception leaves but the end of the input. *)
Definition forward {A} (m : console A) : Prop :=
  ∀ stdin a rest out,
    m stdin = Done a rest out → (length rest ≤ length stdin)%nat.

Definition eof_only {A} (m : console A) : Prop :=
  ∀ stdin e out, m stdin = Raised e out → e = EOFError.

(** * Properties *)

(** ** The console monad *)

Lemma bind_run {A B} (m : console A) (k : A → console B) stdin :
  (m ≫= k) stdin
  = match m stdin with
    | Done a rest out => emit out (k a rest)
    | Raised e out => Raised e out
    end.
Proof. reflexivity. Qed.

Lemma print_all_run lines stdin :
  print_all lines stdin = Done () stdin (Print <$> lines).
Proof.
  induction lines as [|line lines IH]; [done|].
  simpl. rewrite bind_run. simpl. by rewrite IH.
Qed.

Lemma banner_run heading stdin :
  banner heading stdin
  = Done () stdin [Print (nl +:+ rule); Print heading; Print rule].
Proof. reflexivity. Qed.

(** ** The input validator *)

Lemma get_valid_input_Done prompt ty valid_options stdin v rest out :
  get_valid_input prompt ty valid_options stdin = Done v rest out ↔
  ∃ es, reads ty valid_options stdin v rest es ∧ out = transcript prompt es.
Proof.
  split.
  - revert out. induction stdin as [|line stdin IH]; intros out; [done|].
    simpl. destruct (validate ty valid_options line) as [e|w] eqn:Hv.
    + destruct (get_valid_input prompt ty valid_options stdin) as [w r o|]
        eqn:Hrec; [|done].
      simpl. intros [= -> -> <-].
      destruct (IH o eq_refl) as (es & Hreads & ->).
      exists (e :: es). split; [by eapply reads_reject|done].
    + intros [= -> -> <-]. exists []. split; [by constructor|done].
  - intros (es & Hreads & ->).
    induction Hreads as [line rest v Hv|line stdin v rest e es Hv _ IH]; simpl.
    + by rewrite Hv.
    + by rewrite Hv, IH.
Qed.

Lemma get_valid_input_Raised prompt ty valid_options stdin e out :
  get_valid_input prompt ty valid_options stdin = Raised e out → e = EOFError.
Proof.
  revert out. induction stdin as [|line stdin IH]; intros out; simpl.
  - by intros [= <- _].
  - destruct (validate ty valid_options line); [|done].
    destruct (get_valid_input prompt ty valid_options stdin); [done|].
    simpl. intros [= <- _]. by eapply IH.
Qed.

Lemma reads_accepted ty valid_options stdin v rest es :
  reads ty valid_options stdin v rest es →
  ∃ line, line ∈ stdin ∧ validate ty valid_options line = inr v.
Proof.
  induction 1 as [line rest v Hv|line stdin v rest e es _ _ (l & Hl & Hv)].
  - exists line. split; [left|done].
  - exists l. split; [by right|done].
Qed.

Lemma validate_inr ty valid_options line v :
  validate ty valid_options line = inr v ↔
  Py.strip line ≠ "" ∧ convert ty (Py.strip line) = inr v
  ∧ rejected_by valid_options (to_value v) = None.
Proof.
  unfold validate. case_bool_decide as Hempty.
  - split; [done|]. by intros (? & _).
  - destruct (convert ty (Py.strip line)) as [e|w]; [split; [done|by intros (_ & ? & _)]|].
    destruct (rejected_by valid_options (to_value w)) as [e|] eqn:Hr.
    + split; [done|]. intros (_ & [= ->] & ?). congruence.
    + split; [by intros [= ->]|]. by intros (_ & [= ->] & _).
Qed.

Lemma rejected_by_None valid_options v :
  rejected_by valid_options v = None ↔
  ∀ options, valid_options = Some options → options ≠ [] →
             Py.contained v options = true.
Proof.
  destruct valid_options as [[|o options]|]; unfold rejected_by.
  - split; [by intros _ ? [= <-]|done].
  - destruct (Py.contained v (o :: options)) eqn:Hin.
    + split; [by intros _ ? [= <-]|done].
    + split; [done|]. intros H. specialize (H _ eq_refl).
      rewrite Hin in H. by discriminate H.
  - split; [by intros _ ? [=]|done].
Qed.

(** ** List primitives *)

Lemma remove_list_find `{EqDecision A} (x : A) (l : list A) :
  Py.remove x l = (λ p, delete p.1 l) <$> list_find (λ y, y = x) l.
Proof.
  induction l as [|y l IH]; [done|].
  simpl. case_decide; [done|].
  rewrite IH. by destruct (list_find _ l) as [[i z]|].
Qed.

Lemma remove_Some `{EqDecision A} (x : A) (l l' : list A) :
  Py.remove x l = Some l' ↔
  ∃ i, l !! i = Some x ∧ (∀ j, (j < i)%nat → l !! j ≠ Some x) ∧ l' = delete i l.
Proof.
  rewrite remove_list_find. split.
  - destruct (list_find _ l) as [[i y]|] eqn:Hf; [|done].
    intros [= <-]. apply list_find_Some in Hf as (Hi & -> & Hfirst).
    exists i. split_and!; [done| |done].
    intros j Hj Hlook. by eapply Hfirst.
  - intros (i & Hi & Hfirst & ->).
    assert (list_find (λ y, y = x) l = Some (i, x)) as ->; [|done].
    apply list_find_Some. split_and!; [done..|].
    intros j y Hy Hj ->. by eapply Hfirst.
Qed.

Lemma remove_elem_of `{EqDecision A} (x : A) (l : list A) :
  x ∈ l → is_Some (Py.remove x l).
Proof.
  induction 1 as [|y z l ? IH]; simpl.
  - rewrite decide_True by done. by eexists.
  - case_decide; [by eexists|]. destruct IH as [l' ->]. by eexists.
Qed.

Lemma index_in_range {A} (l : list A) (i : Z) :
  0 ≤ i < Z.of_nat (length l) → Py.index l i = l !! Z.to_nat i.
Proof.
  intros Hi. unfold Py.index.
  assert ((0 <=? i) && (i <? Z.of_nat (length l)) = true) as ->; [|done].
  apply andb_true_iff. split; [apply Z.leb_le|apply Z.ltb_lt]; lia.
Qed.

Lemma elem_of_range (a b i : Z) : i ∈ Py.range a b ↔ a ≤ i < b.
Proof.
  unfold Py.range. rewrite list_elem_of_fmap. split.
  - intros (k & -> & Hk). apply elem_of_seq in Hk. lia.
  - intros Hi. exists (Z.to_nat (i - a)). split; [lia|].
    apply elem_of_seq. lia.
Qed.

Lemma contained_range (i a b : Z) :
  Py.contained (Py.VInt i) (Py.VInt <$> Py.range a b) = true ↔ a ≤ i < b.
Proof.
  unfold Py.contained. rewrite existsb_exists. split.
  - intros (v & Hv & Heq). apply list_elem_of_In, list_elem_of_fmap in Hv.
    destruct Hv as (j & -> & Hj). simpl in Heq. apply Z.eqb_eq in Heq.
    subst. by apply elem_of_range.
  - intros Hi. exists (Py.VInt i). split.
    + apply list_elem_of_In, list_elem_of_fmap. exists i. by rewrite elem_of_range.
    + simpl. apply Z.eqb_refl.
Qed.

(** ** Removing a book *)

(** The choice among several matches is one of their numbers. *)
Lemma reads_choice (n : nat) stdin choice rest es :
  (0 < n)%nat →
  reads TInt (Some (Py.VInt <$> Py.range 1 (Z.of_nat n + 1))) stdin choice rest es →
  1 ≤ choice ≤ Z.of_nat n.
Proof.
  intros Hn Hreads. apply reads_accepted in Hreads as (line & _ & Hv).
  apply validate_inr in Hv as (_ & _ & Hopt).
  eapply rejected_by_None in Hopt; [|done|].
  - apply contained_range in Hopt. lia.
  - intros Hnil. apply (f_equal length) in Hnil.
    rewrite length_fmap in Hnil. unfold Py.range in Hnil.
    rewrite length_fmap, length_seq in Hnil. simpl in Hnil. lia.
Qed.

(** The run of [remove_book] once the title has been read and has matches:
    [k] is the position of the book removed among the matches. *)
Lemma remove_book_found library stdin title' rest es :
  library ≠ [] →
  reads TStr None stdin title' rest es →
  matches title' library ≠ [] →
  match remove_book library stdin with
  | Done library' rest' _ =>
      ∃ (k : nat) book_to_remove,
        matches title' library !! k = Some book_to_remove
        ∧ Py.remove book_to_remove library = Some library'
        ∧ (length (matches title' library) = 1%nat → k = 0%nat ∧ rest' = rest)
        ∧ ((1 < length (matches title' library))%nat →
           ∃ es', reads TInt
                    (Some (Py.VInt <$>
                       Py.range 1 (Z.of_nat (length (matches title' library)) + 1)))
                    rest (Z.of_nat k + 1) rest' es')
  | Raised e _ => e = EOFError
  end.
Proof.
  intros Hne Hreads Hfound.
  assert (get_valid_input title_prompt TStr None stdin
          = Done title' rest (transcript title_prompt es)) as Htitle.
  { apply get_valid_input_Done. by exists es. }
  unfold remove_book. rewrite bool_decide_false by done.
  rewrite bind_run, banner_run. cbv beta iota.
  unfold title_prompt in Htitle. rewrite bind_run, Htitle. cbv beta iota.
  fold (matches title' library).
  rewrite bool_decide_false by done.
  rewrite bind_run.
  case_bool_decide as Hmany.
  - rewrite bind_run. unfold Console.print at 1. cbv beta iota.
    rewrite bind_run, print_all_run. cbv beta iota. rewrite bind_run.
    destruct (get_valid_input _ TInt _ rest) as [choice rest' out|e out] eqn:Hchoice.
    + apply get_valid_input_Done in Hchoice as (es' & Hreads' & ->).
      assert (1 ≤ choice ≤ Z.of_nat (length (matches title' library))) as Hrange
        by (eapply reads_choice; [|done]; lia).
      rewrite index_in_range by lia.
      destruct (lookup_lt_is_Some_2 (matches title' library)
                  (Z.to_nat (choice - 1)) ltac:(lia)) as [b Hb].
      rewrite Hb. simpl.
      assert (b ∈ library) as Hin.
      { apply list_elem_of_lookup_2 in Hb.
        unfold matches in Hb. by apply list_elem_of_filter in Hb as [_ ?]. }
      destruct (remove_elem_of _ _ Hin) as [library' Hrem].
      rewrite Hrem. simpl.
      exists (Z.to_nat (choice - 1)), b. split_and!; [done..|lia|].
      intros _. exists es'. by replace (Z.of_nat (Z.to_nat (choice - 1)) + 1) with choice by lia.
    + simpl. by eapply get_valid_input_Raised.
  - destruct (matches title' library) as [|b [|??]] eqn:Hm; [done| |simpl in Hmany; lia].
    simpl.
    assert (b ∈ library) as Hin.
    { assert (b ∈ matches title' library) as Hb by (rewrite Hm; left).
      unfold matches in Hb. by apply list_elem_of_filter in Hb as [_ ?]. }
    destruct (remove_elem_of _ _ Hin) as [library' Hrem].
    rewrite Hrem. simpl.
    exists 0%nat, b. split_and!; [done..| |simpl; lia].
    done.
Qed.

Lemma print_run s stdin : Console.print s stdin = Done () stdin [Print s].
Proof. reflexivity. Qed.

Lemma filter_nil_iff {A} (P : A → Prop) `{∀ x, Decision (P x)} (l : list A) :
  filter P l = [] ↔ Forall (λ x, ¬ P x) l.
Proof.
  induction l as [|x l IH]; [by split|].
  rewrite filter_cons, Forall_cons. case_decide; [|tauto].
  split; [done|]. by intros [? _].
Qed.

(** [remove_book] returns the catalog as it was or with one position
    deleted; it is left by an exception only when the input ends. *)
Lemma remove_book_deletes (library : list book) (stdin : list string) :
  match remove_book library stdin with
  | Done library' _ _ =>
      library' = library
      ∨ ∃ i book, library !! i = Some book ∧ library' = delete i library
  | Raised e _ => e = EOFError
  end.
Proof.
  destruct (decide (library = [])) as [->|Hne].
  { unfold remove_book. rewrite bool_decide_true by done.
    rewrite bind_run, print_run. simpl. by left. }
  destruct (get_valid_input title_prompt TStr None stdin)
    as [title' rest out|e out] eqn:Htitle.
  - destruct (decide (matches title' library = [])) as [Hnone|Hsome].
    + unfold remove_book. rewrite bool_decide_false by done.
      rewrite bind_run, banner_run. cbv beta iota.
      unfold title_prompt in Htitle. rewrite bind_run, Htitle. cbv beta iota.
      fold (matches title' library). rewrite bool_decide_true by done.
      rewrite bind_run, print_run. simpl. by left.
    + apply get_valid_input_Done in Htitle as (es & Hreads & _).
      pose proof (remove_book_found library stdin title' rest es Hne Hreads Hsome)
        as Hrun.
      destruct (remove_book library stdin) as [library' rest' out'|]; [|done].
      destruct Hrun as (k & b & _ & Hrem & _).
      apply remove_Some in Hrem as (i & Hi & _ & ->).
      right. by exists i, b.
  - unfold remove_book. rewrite bool_decide_false by done.
    rewrite bind_run, banner_run. cbv beta iota.
    unfold title_prompt in Htitle. rewrite bind_run, Htitle. simpl.
    by eapply get_valid_input_Raised.
Qed.

(** C10: whatever is typed, [remove_book] leaves a subsequence of the
    catalog that misses at most one record: nothing is added, changed or
    reordered.  When the input ends at a prompt the function is left by
    [EOFError], which comes before the only statement that changes the
    list. *)
Theorem remove_book_subsequence (library : list book) (stdin : list string) :
  match remove_book library stdin with
  | Done library' _ _ =>
      library' `sublist_of` library
      ∧ (length library ≤ length library' + 1)%nat
  | Raised e _ => e = EOFError
  end.
Proof.
  pose proof (remove_book_deletes library stdin) as Hrun.
  destruct (remove_book library stdin) as [library' rest out|e out]; [|done].
  destruct Hrun as [->|(i & book & Hi & ->)].
  - split; [done|lia].
  - split; [apply sublist_delete|].
    rewrite length_delete by by eexists.
    apply lookup_lt_Some in Hi. lia.
Qed.

(** C5: when the title that was entered matches no record up to case,
    [remove_book] prints that no book was found and returns the catalog as
    it was.  (A title is asked for only when the catalog is not empty.) *)
Theorem remove_book_not_found (library : list book) (stdin rest : list string)
    (title' : string) (out : list event) :
  library ≠ [] →
  get_valid_input "Enter the title of the book to remove: " TStr None stdin
    = Done title' rest out →
  (∀ book, book ∈ library → Py.lower (title book) ≠ Py.lower title') →
  remove_book library stdin
  = Done library rest
      ([Print (nl +:+ rule); Print "Remove a Book"; Print rule] ++ out
       ++ [Print (nl +:+ "No book found with title '" +:+ title' +:+ "'")]).
Proof.
  intros Hne Htitle Hnone.
  assert (matches title' library = []) as Hm.
  { apply filter_nil_iff, Forall_forall. intros book Hin. by apply Hnone. }
  unfold remove_book. rewrite bool_decide_false by done.
  rewrite bind_run, banner_run. cbv beta iota.
  rewrite bind_run, Htitle. cbv beta iota.
  fold (matches title' library). rewrite bool_decide_true by done.
  rewrite bind_run, print_run. reflexivity.
Qed.

Lemma remove_book_not_found_witness :
  remove_book [mkBook "Dune" "Frank Herbert" 1965 "SF" true] ["Emma"]
  = Done [mkBook "Dune" "Frank Herbert" 1965 "SF" true] []
      ([Print (nl +:+ rule); Print "Remove a Book"; Print rule]
       ++ [Prompt "Enter the title of the book to remove: "]
       ++ [Print (nl +:+ "No book found with title 'Emma'")]).
Proof.
  apply (remove_book_not_found
           [mkBook "Dune" "Frank Herbert" 1965 "SF" true] ["Emma"] [] "Emma").
  - discriminate.
  - reflexivity.
  - intros book Hin. apply list_elem_of_singleton in Hin as ->.
    vm_compute. discriminate.
Defined.

Lemma matches_lookup title' library k b :
  matches title' library !! k = Some b ↔
  ∃ i, match_position title' library k = Some i ∧ library !! i = Some b.
Proof.
  revert k. induction library as [|x library IH]; intros k.
  { split; [done|]. by intros (i & [=] & _). }
  unfold matches in *. rewrite filter_cons. simpl. case_decide as Hx.
  - destruct k as [|k]; simpl.
    + split; [intros [= ->]; by exists 0%nat|]. by intros (i & [= <-] & ?).
    + rewrite IH. split.
      * intros (i & -> & Hi). by exists (S i).
      * intros (i & Hpos & Hi).
        destruct (match_position title' library k) as [j|]; [|done].
        injection Hpos as <-. by exists j.
  - rewrite IH. split.
    + intros (i & -> & Hi). by exists (S i).
    + intros (i & Hpos & Hi).
      destruct (match_position title' library k) as [j|]; [|done].
      injection Hpos as <-. by exists j.
Qed.

(** In a catalog without two equal records, the record deleted is the one
    at the position of the chosen match. *)
Lemma remove_book_chosen library stdin title' rest es :
  NoDup library →
  library ≠ [] →
  reads TStr None stdin title' rest es →
  matches title' library ≠ [] →
  match remove_book library stdin with
  | Done library' rest' _ =>
      ∃ k i, match_position title' library k = Some i
             ∧ library' = delete i library
             ∧ ((1 < length (matches title' library))%nat →
                ∃ es', reads TInt
                         (Some (Py.VInt <$>
                            Py.range 1 (Z.of_nat (length (matches title' library)) + 1)))
                         rest (Z.of_nat k + 1) rest' es')
  | Raised e _ => e = EOFError
  end.
Proof.
  intros Hnodup Hne Hreads Hsome.
  pose proof (remove_book_found library stdin title' rest es Hne Hreads Hsome)
    as Hrun.
  destruct (remove_book library stdin) as [library' rest' out'|]; [|done].
  destruct Hrun as (k & b & Hk & Hrem & _ & Hmany).
  apply matches_lookup in Hk as (i & Hpos & Hi).
  apply remove_Some in Hrem as (j & Hj & _ & ->).
  assert (j = i) as -> by (by eapply NoDup_lookup).
  by exists k, i.
Qed.

(** C1 on a catalog that holds the same record twice: the entered title
    matches the first and the third record, the second match is chosen, and
    the first record is the one deleted.  The catalog that is left has the
    other record in front, while deleting the chosen match (position 2)
    would leave it behind. *)
Theorem remove_book_identical_records :
  let a := mkBook "Dune" "Frank Herbert" 1965 "SF" true in
  let b := mkBook "Emma" "Jane Austen" 1815 "Novel" false in
  matches "dune" [a; b; a] = [a; a]
  ∧ match_position "dune" [a; b; a] 1 = Some 2%nat
  ∧ delete 2%nat [a; b; a] = [a; b]
  ∧ ∃ out, remove_book [a; b; a] ["dune"; "2"] = Done [b; a] [] out.
Proof. vm_compute. split_and!; try reflexivity. by eexists. Qed.

(** ** What the validator returns *)

Lemma yes_no_cases (x : string) :
  x ∈ ["yes"; "no"; "y"; "n"] ↔ x ∈ ["yes"; "y"] ∨ x ∈ ["no"; "n"].
Proof. rewrite !elem_of_cons, !elem_of_nil. tauto. Qed.

Lemma yes_not_no (x : string) : x ∈ ["yes"; "y"] → x ∈ ["no"; "n"] → False.
Proof.
  rewrite !elem_of_cons, !elem_of_nil.
  intros [->|[->|[]]] [?|[?|[]]]; discriminate.
Qed.

Lemma convert_inr ty s v : convert ty s = inr v ↔ converts ty s v.
Proof.
  split.
  - destruct ty; simpl.
    + intros [= <-]. constructor.
    + destruct (Py.int s) as [z|] eqn:Hz; [|done]. intros [= <-]. by constructor.
    + case_bool_decide as Hany; [|done]. intros [= <-].
      case_bool_decide as Hyes; [by constructor|].
      constructor. apply yes_no_cases in Hany. tauto.
  - destruct 1 as [s|s z Hz|s Hyes|s Hno]; simpl.
    + done.
    + by rewrite Hz.
    + rewrite bool_decide_true by (apply yes_no_cases; tauto).
      by rewrite bool_decide_true.
    + rewrite bool_decide_true by (apply yes_no_cases; tauto).
      rewrite bool_decide_false; [done|].
      intros Hyes. by eapply yes_not_no.
Qed.

Lemma reads_split ty valid_options stdin v rest es :
  reads ty valid_options stdin v rest es →
  ∃ rejected line,
    stdin = rejected ++ line :: rest
    ∧ validate ty valid_options line = inr v
    ∧ Forall2 (λ l e, validate ty valid_options l = inl e) rejected es.
Proof.
  induction 1 as [line rest v Hv
                 |line stdin v rest e es He _ (rejected & l & -> & Hv & Hrej)].
  - by exists [], line.
  - exists (line :: rejected), l. split_and!; [done..|]. by constructor.
Qed.

(** C9, amended: a value that [get_valid_input] returns comes from a line
    that is not empty once stripped, is that line converted to the requested
    category (for yes/no: true for "yes" and "y", false for "no" and "n", in
    any case), and belongs to the restricted set when one was supplied and is
    not empty.  Every line before it was rejected, and a rejected line costs
    one message and one more prompt: the loop goes on with the next line. *)
Theorem get_valid_input_valid (prompt : string) (ty : input_type)
    (valid_options : option (list Py.value)) (stdin : list string) :
  (∀ v rest out,
     get_valid_input prompt ty valid_options stdin = Done v rest out →
     ∃ rejected line es,
       stdin = rejected ++ line :: rest
       ∧ Py.strip line ≠ ""
       ∧ converts ty (Py.strip line) v
       ∧ (∀ options, valid_options = Some options → options ≠ [] →
                     Py.contained (to_value v) options = true)
       ∧ Forall2 (λ l e, validate ty valid_options l = inl e) rejected es
       ∧ out = transcript prompt es)
  ∧ (∀ line e,
       validate ty valid_options line = inl e →
       get_valid_input prompt ty valid_options (line :: stdin)
       = emit [Prompt prompt; PrintInvalid e]
              (get_valid_input prompt ty valid_options stdin)).
Proof.
  split.
  - intros v rest out Hrun.
    apply get_valid_input_Done in Hrun as (es & Hreads & ->).
    apply reads_split in Hreads as (rejected & line & -> & Hv & Hrej).
    apply validate_inr in Hv as (Hne & Hconv & Hopt).
    exists rejected, line, es. split_and!; [done..| | |done|done].
    + by apply convert_inr.
    + by apply rejected_by_None.
  - intros line e He. simpl. by rewrite He.
Qed.

Lemma get_valid_input_valid_witness :
  (∃ rejected line es,
     ["abc"; "9"; " 3 "; "4"] = rejected ++ line :: ["4"]
     ∧ Py.strip line ≠ ""
     ∧ converts TInt (Py.strip line) 3
     ∧ (∀ options, Some (Py.VInt <$> Py.range 1 7) = Some options →
                   options ≠ [] → Py.contained (Py.VInt 3) options = true)
     ∧ Forall2 (λ l e, validate TInt (Some (Py.VInt <$> Py.range 1 7)) l = inl e)
               rejected es
     ∧ transcript "> " [InvalidLiteral "abc";
                        NotAnOption (Py.VInt <$> Py.range 1 7)]
       = transcript "> " es)
  ∧ get_valid_input "> " TInt (Some (Py.VInt <$> Py.range 1 7)) ["abc"; "9"]
    = emit [Prompt "> "; PrintInvalid (InvalidLiteral "abc")]
           (get_valid_input "> " TInt (Some (Py.VInt <$> Py.range 1 7)) ["9"]).
Proof.
  split.
  - apply (proj1 (get_valid_input_valid "> " TInt
                    (Some (Py.VInt <$> Py.range 1 7))
                    ["abc"; "9"; " 3 "; "4"]) 3 ["4"]).
    reflexivity.
  - apply (proj2 (get_valid_input_valid "> " TInt
                    (Some (Py.VInt <$> Py.range 1 7)) ["9"])).
    reflexivity.
Defined.

(** C9 as stated fails for a restricted set that is empty: the test
    [valid_options and ...] is then false, and the value is returned although
    the set has no member. *)
Lemma get_valid_input_empty_options :
  get_valid_input "> " TInt (Some []) ["5"] = Done 5 [] [Prompt "> "]
  ∧ Py.contained (Py.VInt 5) [] = false.
Proof. split; reflexivity. Qed.

(** ** Searching *)

Lemma string_app_cons (c : ascii) (a b : string) :
  String c a +:+ b = String c (a +:+ b).
Proof. reflexivity. Qed.

Lemma string_app_assoc (a b c : string) : (a +:+ b) +:+ c = a +:+ b +:+ c.
Proof. induction a as [|x a IH]; [done|]. by rewrite !string_app_cons, IH. Qed.

Lemma prefix_spec (p s : string) :
  String.prefix p s = true ↔ ∃ suf, s = p +:+ suf.
Proof.
  revert s. induction p as [|a p IH]; intros s.
  - split; [by exists s|]. by destruct s.
  - destruct s as [|b s]; simpl.
    + split; [done|]. by intros (suf & ?).
    + destruct (ascii_dec a b) as [->|Hab].
      * rewrite IH. split.
        -- intros (suf & ->). by exists suf.
        -- intros (suf & [= ->]). by exists suf.
      * split; [done|]. intros (suf & [= -> _]). done.
Qed.

Lemma contains_spec (sub s : string) :
  Py.contains sub s = true ↔ ∃ pre suf, s = pre +:+ sub +:+ suf.
Proof.
  induction s as [|c s IH].
  - cbn [Py.contains]. rewrite orb_false_r, prefix_spec. split.
    + intros (suf & ->). by exists "", suf.
    + intros ([|??] & suf & Heq); [by exists suf|done].
  - cbn [Py.contains]. rewrite orb_true_iff, prefix_spec, IH. split.
    + intros [(suf & ->)|(pre & suf & ->)].
      * by exists "", suf.
      * by exists (String c pre), suf.
    + intros ([|x pre] & suf & Heq).
      * left. by exists suf.
      * right. injection Heq as -> ->. by exists pre, suf.
Qed.

Lemma lower_app (a b : string) : Py.lower (a +:+ b) = Py.lower a +:+ Py.lower b.
Proof.
  induction a as [|x a IH]; [done|].
  rewrite string_app_cons. simpl. by rewrite IH.
Qed.

Lemma lower_split (s x y : string) :
  Py.lower s = x +:+ y → ∃ a b, s = a +:+ b ∧ Py.lower a = x ∧ Py.lower b = y.
Proof.
  revert s. induction x as [|c x IH]; intros s Heq.
  - by exists "", s.
  - destruct s as [|d s]; [done|]. injection Heq as <- Heq.
    destruct (IH _ Heq) as (a & b & -> & <- & <-). by exists (String d a), b.
Qed.

Lemma contains_lower (term s : string) :
  Py.contains (Py.lower term) (Py.lower s) = true ↔ ci_substring term s.
Proof.
  rewrite contains_spec. split.
  - intros (pre & suf & Heq).
    apply lower_split in Heq as (a & rest & -> & _ & Heq).
    apply lower_split in Heq as (mid & b & -> & Hmid & _).
    by exists a, mid, b.
  - intros (pre & mid & suf & -> & Hmid).
    exists (Py.lower pre), (Py.lower suf). by rewrite !lower_app, Hmid.
Qed.

Lemma selected_filter {A} (P Q : A → Prop) `{∀ x, Decision (Q x)} (l : list A) :
  (∀ x, Q x ↔ P x) → selected P l (filter Q l).
Proof.
  intros HPQ. induction l as [|x l IH]; [constructor|].
  rewrite filter_cons. case_decide as Hx.
  - apply selected_keep; [by apply HPQ|done].
  - apply selected_skip; [by rewrite <- HPQ|done].
Qed.

Lemma selected_unique {A} (P : A → Prop) (l l1 l2 : list A) :
  selected P l l1 → selected P l l2 → l1 = l2.
Proof.
  intros H1. revert l2.
  induction H1 as [|x l l1 Hx _ IH|x l l1 Hx _ IH]; inversion 1; subst;
    try done; try f_equal; auto.
Qed.

Lemma search_results_selected choice search_term library :
  selected (λ book, ci_substring search_term (search_field choice book))
           library (search_results choice search_term library).
Proof.
  unfold search_results, search_field. destruct (choice =? 1).
  - apply selected_filter. intros book.
    rewrite <- contains_lower. apply Is_true_true.
  - apply selected_filter. intros book.
    rewrite <- contains_lower. apply Is_true_true.
Qed.

(** On text of characters up to U+00FF, which is all that a [string] holds
    and where [str.lower] acts on each character by itself: on a catalog
    that is not empty, with the mode and the term that the two prompts
    returned, [search_books] lists exactly the records whose title (mode 1)
    or author (mode 2) contains the term up to case, in catalog order, one
    numbered line each under the line with their number; or the line that
    says that nothing matches. *)
Lemma search_books_latin1 (library : list book) (stdin rest1 rest2 : list string)
    (choice : Z) (search_term : string) (out1 out2 : list event) :
  library ≠ [] →
  get_valid_input "Enter your choice: " TInt (Some [Py.VInt 1; Py.VInt 2]) stdin
    = Done choice rest1 out1 →
  get_valid_input (term_prompt choice) TStr None rest1
    = Done search_term rest2 out2 →
  (choice = 1 ∨ choice = 2) ∧ search_term ≠ ""
  ∧ ∃ results,
      selected (λ book, ci_substring search_term (search_field choice book))
               library results
      ∧ search_books library stdin
        = Done () rest2
            ([Print (nl +:+ rule); Print "Search for a Book"; Print rule;
              Print "Search by:"; Print "1. Title"; Print "2. Author"]
             ++ out1 ++ out2
             ++ (if bool_decide (results = [])
                 then [Print (nl +:+ "No matching books found.")]
                 else
                   Print (nl +:+ "Found "
                             +:+ Py.str_of_int (Z.of_nat (length results))
                             +:+ " matching book(s):")
                   :: imap (λ i book,
                              Print (Py.str_of_int (Z.of_nat i + 1) +:+ ". "
                                       +:+ title book +:+ " by " +:+ author book
                                       +:+ " (" +:+ Py.str_of_int (year book)
                                       +:+ ") - " +:+ genre book +:+ " - "
                                       +:+ (if read book then "Read" else "Unread")))
                           results)).
Proof.
  intros Hne Hchoice Hterm.
  pose proof Hchoice as Hc. pose proof Hterm as Ht.
  apply get_valid_input_Done in Hc as (es1 & Hr1 & _).
  apply reads_accepted in Hr1 as (l1 & _ & Hv1).
  apply validate_inr in Hv1 as (_ & _ & Hopt).
  eapply rejected_by_None in Hopt; [|done..].
  apply get_valid_input_Done in Ht as (es2 & Hr2 & _).
  apply reads_accepted in Hr2 as (l2 & _ & Hv2).
  apply validate_inr in Hv2 as (Hnonempty & Hconv & _).
  injection Hconv as Hconv. rewrite Hconv in Hnonempty.
  split_and!; [|done|].
  { unfold Py.contained in Hopt. simpl in Hopt.
    apply orb_true_iff in Hopt as [H1|H2].
    - left. by apply Z.eqb_eq in H1.
    - right. rewrite orb_false_r in H2. by apply Z.eqb_eq in H2. }
  exists (search_results choice search_term library). split.
  - apply search_results_selected.
  - unfold search_books. rewrite bool_decide_false by done.
    rewrite bind_run, banner_run. cbv beta iota.
    do 3 (rewrite bind_run, print_run; cbv beta iota).
    rewrite bind_run, Hchoice. cbv beta iota.
    unfold term_prompt in Hterm. rewrite bind_run, Hterm. cbv beta iota.
    unfold report_results. case_bool_decide.
    + rewrite print_run. reflexivity.
    + rewrite bind_run, print_run. cbv beta iota.
      rewrite print_all_run. unfold enumerate_from_1, summary_line.
      cbn [emit]. rewrite fmap_imap. reflexivity.
Qed.

(** "har" finds "Harry Potter" and not "The Hobbit". *)
Lemma search_books_latin1_example :
  let potter := mkBook "Harry Potter" "J. K. Rowling" 1997 "Fantasy" true in
  let hobbit := mkBook "The Hobbit" "J. R. R. Tolkien" 1937 "Fantasy" false in
  search_books [potter; hobbit] ["1"; "har"]
  = Done () []
      [Print (nl +:+ rule); Print "Search for a Book"; Print rule;
       Print "Search by:"; Print "1. Title"; Print "2. Author";
       Prompt "Enter your choice: "; Prompt "Enter the search term: ";
       Print (nl +:+ "Found 1 matching book(s):");
       Print "1. Harry Potter by J. K. Rowling (1997) - Fantasy - Read"].
Proof. reflexivity. Qed.

(** ** The two models of [str.lower]

    On the strings of the embedding the per-character [Py.lower] is
    [str.lower] as [Unicode.lower] has it. *)

Lemma to_lower_full_code (c : ascii) :
  Unicode.to_lower_full (Py.code c) = [Py.code (Py.lower_char c)].
Proof. destruct c as [[] [] [] [] [] [] [] []]; vm_compute; reflexivity. Qed.

Lemma code_not_sigma (c : ascii) : (Py.code c =? 0x3A3)%N = false.
Proof.
  apply N.eqb_neq. pose proof (N_ascii_bounded c). unfold Py.code. lia.
Qed.

Lemma lower_from_of_string (before : Unicode.text) (s : string) :
  Unicode.lower_from before (Unicode.of_string s)
  = Unicode.of_string (Py.lower s).
Proof.
  revert before. induction s as [|c s IH]; intros before; [done|].
  cbn [Unicode.of_string Unicode.lower_from Py.lower].
  by rewrite code_not_sigma, to_lower_full_code, IH.
Qed.

Lemma lower_of_string (s : string) :
  Unicode.lower (Unicode.of_string s) = Unicode.of_string (Py.lower s).
Proof. apply lower_from_of_string. Qed.

Lemma code_inj (c d : ascii) : Py.code c = Py.code d → c = d.
Proof.
  intros H. rewrite <- (ascii_N_embedding c), <- (ascii_N_embedding d).
  unfold Py.code in H. by rewrite H.
Qed.

Lemma starts_with_of_string (a b : string) :
  Unicode.starts_with (Unicode.of_string a) (Unicode.of_string b)
  = String.prefix a b.
Proof.
  revert b. induction a as [|c a IH]; intros [|d b]; try done.
  cbn [Unicode.of_string Unicode.starts_with String.prefix].
  destruct (ascii_dec c d) as [->|Hne].
  - by rewrite N.eqb_refl, IH.
  - destruct (N.eqb_spec (Py.code c) (Py.code d)) as [Heq|]; [|done].
    by apply code_inj in Heq.
Qed.

Lemma contains_of_string (a b : string) :
  Unicode.contains (Unicode.of_string a) (Unicode.of_string b)
  = Py.contains a b.
Proof.
  induction b as [|d b IH].
  - cbn [Unicode.of_string Unicode.contains Py.contains].
    by rewrite <- starts_with_of_string.
  - cbn [Unicode.of_string Unicode.contains Py.contains].
    by rewrite <- starts_with_of_string, IH.
Qed.

(** On the strings of the embedding the test of [search_books] is the same in
    both models. *)
Lemma search_test_of_string (term field : string) :
  Unicode.contains (Unicode.lower (Unicode.of_string term))
                   (Unicode.lower (Unicode.of_string field))
  = Py.contains (Py.lower term) (Py.lower field).
Proof. by rewrite !lower_of_string, contains_of_string. Qed.

(** C4: the search does not ignore case on every text.  The catalog holds
    the title U+039F U+0394 U+03A5 U+03A3 U+03A3 U+0395 U+0399 U+0391 (the
    Odyssey, in Greek capitals), and the term is its first four letters.
    The title contains the term as it is written; [str.lower] ends the
    lowered term in the final sigma U+03C2 and writes the sigmas inside the
    lowered title as U+03C3, so that the comprehension of [search_books]
    finds nothing and the line that nothing matches is printed.  The same
    four letters in small letters find the record.  The comprehension is the
    one of [search_results], taken over text of any code points. *)
Theorem search_books_final_sigma :
  let odyssey :=
    Unicode.mkBook [0x39F; 0x394; 0x3A5; 0x3A3; 0x3A3; 0x395; 0x399; 0x391]%N
                   [0x39F; 0x39C; 0x397; 0x3A1; 0x39F; 0x3A3]%N
                   (-700)
                   [0x395; 0x3A0; 0x39F; 0x3A3]%N
                   true in
  let capitals := [0x39F; 0x394; 0x3A5; 0x3A3]%N in
  let small := [0x3BF; 0x3B4; 0x3C5; 0x3C3]%N in
  search_results = search_results_in Py.lower Py.contains title author
  ∧ Unicode.contains capitals (Unicode.title odyssey) = true
  ∧ Unicode.lower capitals = [0x3BF; 0x3B4; 0x3C5; 0x3C2]%N
  ∧ Unicode.lower (Unicode.title odyssey)
    = [0x3BF; 0x3B4; 0x3C5; 0x3C3; 0x3C3; 0x3B5; 0x3B9; 0x3B1]%N
  ∧ search_results_in Unicode.lower Unicode.contains
      Unicode.title Unicode.author 1 capitals [odyssey] = []
  ∧ report_results [] [] = Done () [] [Print (nl +:+ "No matching books found.")]
  ∧ search_results_in Unicode.lower Unicode.contains
      Unicode.title Unicode.author 1 small [odyssey] = [odyssey].
Proof. intros odyssey capitals small. split_and!; reflexivity. Qed.

(** ** Statistics *)

Lemma elem_of_first_occurrences k keys : k ∈ first_occurrences keys ↔ k ∈ keys.
Proof.
  induction keys as [|k0 keys IH]; [done|]. simpl.
  rewrite !elem_of_cons, list_elem_of_filter, IH.
  destruct (decide (k = k0)); tauto.
Qed.

Lemma NoDup_first_occurrences keys : NoDup (first_occurrences keys).
Proof.
  induction keys as [|k0 keys IH]; simpl; [constructor|].
  constructor.
  - rewrite list_elem_of_filter. tauto.
  - by apply NoDup_filter.
Qed.

Lemma first_occurrences_snoc keys k :
  first_occurrences (keys ++ [k])
  = first_occurrences keys ++ (if decide (k ∈ keys) then [] else [k]).
Proof.
  induction keys as [|k0 keys IH]; [done|].
  simpl. rewrite IH, filter_app. do 2 f_equal.
  destruct (decide (k ∈ keys)) as [Hin|Hnin].
  - rewrite (decide_True (P := k ∈ k0 :: keys)) by (by right). done.
  - rewrite filter_cons. destruct (decide (k = k0)) as [->|Hne].
    + rewrite (decide_True (P := k0 ∈ k0 :: keys)) by left.
      by rewrite decide_False by tauto.
    + rewrite (decide_False (P := k ∈ k0 :: keys))
        by (rewrite elem_of_cons; tauto).
      by rewrite decide_True by done.
Qed.

Lemma dict_get_tabulate (f : string → Z) (ks : list string) k default :
  Dict.get ((λ k', (k', f k')) <$> ks) k default
  = if decide (k ∈ ks) then f k else default.
Proof.
  induction ks as [|k0 ks IH]; [done|].
  rewrite fmap_cons. cbn [Dict.get]. destruct (decide (k0 = k)) as [->|Hne].
  - by rewrite decide_True by left.
  - rewrite IH. destruct (decide (k ∈ ks)).
    + by rewrite decide_True by (by right).
    + rewrite decide_False; [done|]. rewrite elem_of_cons. intros [->|?]; done.
Qed.

Lemma dict_set_tabulate (f : string → Z) (ks : list string) k v :
  NoDup ks →
  Dict.set ((λ k', (k', f k')) <$> ks) k v
  = (λ k', (k', if decide (k' = k) then v else f k'))
      <$> (ks ++ if decide (k ∈ ks) then [] else [k]).
Proof.
  induction 1 as [|k0 ks Hnin Hnodup IH].
  { cbn. rewrite (decide_False (P := k ∈ [])) by apply not_elem_of_nil.
    cbn. by rewrite decide_True. }
  rewrite fmap_cons. cbn [Dict.set]. destruct (decide (k0 = k)) as [->|Hne].
  - rewrite (decide_True (P := k ∈ k :: ks)) by left.
    rewrite app_nil_r, fmap_cons, decide_True by done. f_equal.
    apply list_fmap_ext. intros i k' Hk'.
    rewrite decide_False; [done|]. intros ->.
    by apply list_elem_of_lookup_2 in Hk'.
  - rewrite IH. rewrite <- app_comm_cons, fmap_cons.
    rewrite (decide_False (P := k0 = k)) by done.
    do 3 f_equal.
    destruct (decide (k ∈ ks)).
    + by rewrite decide_True by (by right).
    + rewrite decide_False; [done|]. rewrite elem_of_cons. intros [->|?]; done.
Qed.

Lemma count_of_snoc key k library book :
  count_of key k (library ++ [book])
  = count_of key k library + (if decide (key book = k) then 1 else 0).
Proof.
  unfold count_of. rewrite filter_app, length_app, filter_cons.
  case_decide; simpl; lia.
Qed.

Lemma count_of_absent key k library :
  k ∉ key <$> library → count_of key k library = 0.
Proof.
  intros Hnin. unfold count_of.
  assert (filter (λ book, key book = k) library = []) as ->; [|done].
  apply filter_nil_iff, Forall_forall. intros book Hin <-.
  apply Hnin, list_elem_of_fmap. by exists book.
Qed.

Lemma groups_snoc key library book :
  groups key (library ++ [book]) = bump (groups key library) (key book).
Proof.
  unfold groups, bump. rewrite fmap_app. simpl.
  rewrite first_occurrences_snoc.
  rewrite dict_get_tabulate, dict_set_tabulate by apply NoDup_first_occurrences.
  pose proof (elem_of_first_occurrences (key book) (key <$> library)) as Hfo.
  assert ((if decide (key book ∈ first_occurrences (key <$> library))
           then [] else [key book])
          = (if decide (key book ∈ key <$> library) then [] else [key book]))
    as -> by (repeat case_decide; tauto).
  apply list_fmap_ext. intros i k Hk. f_equal.
  rewrite count_of_snoc.
  destruct (decide (k = key book)) as [->|Hne].
  - rewrite decide_True by done.
    destruct (decide (key book ∈ first_occurrences (key <$> library))) as [|Hnin];
      [done|].
    rewrite Hfo in Hnin. by rewrite count_of_absent.
  - rewrite decide_False by done. lia.
Qed.

Lemma count_groups_snoc library book :
  count_groups (library ++ [book])
  = (bump (count_groups library).1 (genre book),
     bump (count_groups library).2 (author book)).
Proof.
  unfold count_groups. rewrite foldl_app. simpl.
  by destruct (foldl _ _ library).
Qed.

Lemma count_groups_groups library :
  count_groups library = (groups genre library, groups author library).
Proof.
  induction library as [|book library IH] using rev_ind; [done|].
  by rewrite count_groups_snoc, IH, !groups_snoc.
Qed.

(** ** Rounding *)

Lemma round_half_even_spec (n d : Z) :
  0 < d → 2 * Z.abs (Float.round_half_even n d * d - n) ≤ d.
Proof.
  intros Hd. unfold Float.round_half_even.
  pose proof (Z.div_mod n d ltac:(lia)) as Hdiv.
  pose proof (Z.mod_pos_bound n d Hd) as Hmod.
  destruct (Z.compare_spec (2 * (n mod d)) d) as [Heq|Hlt|Hgt];
    [destruct (Z.even (n / d))|..]; nia.
Qed.

Lemma round_half_even_nonneg (n d : Z) :
  0 ≤ n → 0 < d → 0 ≤ Float.round_half_even n d.
Proof.
  intros Hn Hd. unfold Float.round_half_even.
  pose proof (Z.div_pos n d Hn Hd).
  destruct (_ ?= _); [destruct (Z.even _)|..]; lia.
Qed.

Lemma den_pos (x : Float.t) : 0 < Float.den x.
Proof. unfold Float.den. apply Z.pow_pos_nonneg; lia. Qed.

(** The scaled quotient that [of_ratio] rounds is at least [2^52]. *)
Lemma of_ratio_scaled (n d : Z) :
  0 < n → 0 < d →
  let x := Float.of_ratio n d in
  let N := n * 2 ^ Z.max 0 (- Float.expo x) in
  let D := d * 2 ^ Z.max 0 (Float.expo x) in
  2 ^ 52 * D ≤ N ∧ Float.mant x = Float.round_half_even N D.
Proof.
  intros Hn Hd. unfold Float.of_ratio.
  destruct (Z.eqb_spec n 0) as [->|_]; [lia|].
  cbv zeta. cbn [fst snd].
  set (e0 := Z.log2 n - Z.log2 d - 53).
  destruct (Z.leb_spec (2 ^ 53 * (d * 2 ^ Z.max 0 e0)) (n * 2 ^ Z.max 0 (- e0)))
    as [Hbig|Hsmall]; cbn [Float.expo Float.mant]; (split; [|done]).
  - destruct (Z.le_gt_cases 0 e0) as [Hpos|Hneg].
    + rewrite (Z.max_r 0 (e0 + 1)), (Z.max_l 0 (- (e0 + 1))) by lia.
      rewrite (Z.max_r 0 e0), (Z.max_l 0 (- e0)) in Hbig by lia.
      rewrite Z.pow_add_r by lia.
      change (2 ^ 53) with (2 ^ 52 * 2) in Hbig. change (2 ^ 1) with 2. lia.
    + rewrite (Z.max_l 0 (e0 + 1)), (Z.max_r 0 (- (e0 + 1))) by lia.
      rewrite (Z.max_l 0 e0), (Z.max_r 0 (- e0)) in Hbig by lia.
      replace (- e0) with (- (e0 + 1) + 1) in Hbig by lia.
      rewrite Z.pow_add_r in Hbig by lia.
      change (2 ^ 53) with (2 ^ 52 * 2) in Hbig. change (2 ^ 1) with 2 in Hbig.
      change (2 ^ 0) with 1 in *. lia.
  - clear Hsmall.
    pose proof (Z.log2_spec n Hn) as [Hn1 Hn2].
    pose proof (Z.log2_spec d Hd) as [Hd1 Hd2].
    pose proof (Z.log2_nonneg n) as Hln. pose proof (Z.log2_nonneg d) as Hld.
    destruct (Z.le_gt_cases 0 e0) as [Hpos|Hneg].
    + rewrite (Z.max_r 0 e0), (Z.max_l 0 (- e0)) by lia.
      change (2 ^ 0) with 1. rewrite Z.mul_1_r.
      assert (2 ^ 52 * (2 ^ Z.succ (Z.log2 d) * 2 ^ e0) = 2 ^ Z.log2 n) as Hpow.
      { rewrite <- !Z.pow_add_r by lia. f_equal. lia. }
      pose proof (Z.pow_pos_nonneg 2 e0 ltac:(lia) Hpos). nia.
    + rewrite (Z.max_l 0 e0), (Z.max_r 0 (- e0)) by lia.
      change (2 ^ 0) with 1. rewrite Z.mul_1_r.
      assert (2 ^ Z.log2 n * 2 ^ (- e0) = 2 ^ 52 * 2 ^ Z.succ (Z.log2 d)) as Hpow.
      { rewrite <- !Z.pow_add_r by lia. f_equal. lia. }
      pose proof (Z.pow_pos_nonneg 2 (- e0) ltac:(lia) ltac:(lia)). nia.
Qed.

(** The relative error of [of_ratio] is at most [2^-53]. *)
Lemma of_ratio_error (n d : Z) :
  0 < n → 0 < d →
  let x := Float.of_ratio n d in
  0 ≤ Float.num x
  ∧ 2 ^ 53 * Z.abs (Float.num x * d - n * Float.den x) ≤ n * Float.den x.
Proof.
  intros Hn Hd x.
  destruct (of_ratio_scaled n d Hn Hd) as [Hscaled Hmant]. fold x in Hscaled, Hmant.
  unfold Float.num, Float.den.
  set (P := 2 ^ Z.max 0 (Float.expo x)) in *.
  set (Q := 2 ^ Z.max 0 (- Float.expo x)) in *.
  assert (0 < P) by (apply Z.pow_pos_nonneg; lia).
  assert (0 < Q) by (apply Z.pow_pos_nonneg; lia).
  pose proof (round_half_even_spec (n * Q) (d * P) ltac:(nia)) as Hround.
  pose proof (round_half_even_nonneg (n * Q) (d * P) ltac:(nia) ltac:(nia)).
  rewrite <- Hmant in *.
  split; [nia|].
  change (2 ^ 53) with (2 ^ 52 * 2). change (2 ^ 52) with 4503599627370496 in *.
  lia.
Qed.
Lemma mul_abs_le (k x y : Z) : 0 ≤ k → Z.abs x ≤ y → Z.abs (k * x) ≤ k * y.
Proof.
  intros Hk Hx. rewrite Z.abs_mul, (Z.abs_eq k) by lia.
  by apply Z.mul_le_mono_nonneg_l.
Qed.

(** Three roundings in a row: [A / B] is the quotient, [C / D] its product
    by 100, [T] the tenths.  The two relative errors of [2^-53] are too small
    to move the tenths away from a nearest integer to [1000 * r / t]. *)
Lemma tenth_gap (A B C D T r t : Z) :
  0 < B → 0 < D → 0 < t → 0 ≤ r ≤ t → t < 2 ^ 40 → 0 ≤ A →
  2 ^ 53 * Z.abs (A * t - r * B) ≤ r * B →
  2 ^ 53 * Z.abs (C * B - 100 * A * D) ≤ 100 * A * D →
  2 * Z.abs (T * D - 10 * C) ≤ D →
  2 * Z.abs (T * t - 1000 * r) ≤ t.
Proof.
  intros HB HD Ht Hr Htmax HA H1 H2 H3.
  change (2 ^ 53) with 9007199254740992 in *.
  change (2 ^ 40) with 1099511627776 in *.
  set (U := 9007199254740992) in *.
  set (e1 := A * t - r * B) in *.
  set (e2 := C * B - 100 * A * D) in *.
  set (e3 := T * D - 10 * C) in *.
  assert (D * B * (T * t - 1000 * r) = t * B * e3 + 10 * t * e2 + 1000 * D * e1)
    as Hid by (unfold e1, e2, e3; ring).
  assert (0 < D * B) as HDB by (by apply Z.mul_pos_pos).
  assert (0 ≤ r * B) as HrB by (apply Z.mul_nonneg_nonneg; lia).
  assert (U * (A * t) ≤ (U + 1) * (r * B)) as HAt.
  { assert (A * t = r * B + e1) as -> by (unfold e1; ring). lia. }
  assert (U * U * Z.abs (2 * (t * B * e3)) ≤ U * U * (t * B * D)) as G3.
  { apply Z.mul_le_mono_nonneg_l; [lia|].
    replace (2 * (t * B * e3)) with ((t * B) * (2 * e3)) by ring.
    apply mul_abs_le; [apply Z.mul_nonneg_nonneg; lia|].
    rewrite Z.abs_mul. simpl Z.abs. lia. }
  assert (U * U * Z.abs (2 * (10 * t * e2)) ≤ 2000 * (U + 1) * (D * (r * B))) as G2.
  { replace (U * U * Z.abs (2 * (10 * t * e2)))
      with (20 * U * t * (U * Z.abs e2))
      by (rewrite !Z.abs_mul, (Z.abs_eq t), (Z.abs_eq 2), (Z.abs_eq 10) by lia;
          ring).
    transitivity (20 * U * t * (100 * A * D)).
    - apply Z.mul_le_mono_nonneg_l; [lia|done].
    - replace (20 * U * t * (100 * A * D)) with (2000 * D * (U * (A * t))) by ring.
      replace (2000 * (U + 1) * (D * (r * B)))
        with (2000 * D * ((U + 1) * (r * B))) by ring.
      apply Z.mul_le_mono_nonneg_l; [lia|done]. }
  assert (U * U * Z.abs (2 * (1000 * D * e1)) ≤ 2000 * U * (D * (r * B))) as G1.
  { replace (U * U * Z.abs (2 * (1000 * D * e1)))
      with (2000 * U * D * (U * Z.abs e1))
      by (rewrite !Z.abs_mul, (Z.abs_eq D), (Z.abs_eq 2), (Z.abs_eq 1000) by lia;
          ring).
    replace (2000 * U * (D * (r * B))) with (2000 * U * D * (r * B)) by ring.
    apply Z.mul_le_mono_nonneg_l; [lia|done]. }
  assert (U * U * Z.abs (2 * (D * B * (T * t - 1000 * r)))
          ≤ (D * B) * (U * U * t + 2000 * (2 * U + 1) * r)) as Hsum.
  { rewrite Hid.
    replace (2 * (t * B * e3 + 10 * t * e2 + 1000 * D * e1))
      with (2 * (t * B * e3) + 2 * (10 * t * e2) + 2 * (1000 * D * e1)) by ring.
    pose proof (Z.abs_triangle (2 * (t * B * e3) + 2 * (10 * t * e2))
                               (2 * (1000 * D * e1))) as T1.
    pose proof (Z.abs_triangle (2 * (t * B * e3)) (2 * (10 * t * e2))) as T2.
    lia. }
  assert (U * U * Z.abs (2 * (D * B * (T * t - 1000 * r)))
          = (D * B) * (U * U * (2 * Z.abs (T * t - 1000 * r)))) as Hl.
  { rewrite !Z.abs_mul, (Z.abs_eq D), (Z.abs_eq B), (Z.abs_eq 2) by lia. ring. }
  rewrite Hl in Hsum.
  apply Z.mul_le_mono_pos_l in Hsum; [|done].
  unfold U in Hsum. lia.
Qed.

(** For a catalog of fewer than [2^40] records, the tenths that are printed
    are a nearest integer to the exact [1000 * read / total]. *)
Lemma percentage_nearest_tenth (read_books total_books : Z) :
  0 ≤ read_books ≤ total_books → 0 < total_books < 2 ^ 40 →
  let p := percentage_read read_books total_books in
  let tenths := Float.round_half_even (10 * Float.num p) (Float.den p) in
  2 * Z.abs (tenths * total_books - 1000 * read_books) ≤ total_books.
Proof.
  intros Hr Ht. unfold percentage_read.
  destruct (Z.ltb_spec 0 total_books) as [_|]; [|lia].
  destruct (Z.eq_dec read_books 0) as [->|Hr0].
  { change (Float.truediv 0 total_books) with Float.zero.
    change (Float.mul_int Float.zero 100) with Float.zero.
    change (Float.round_half_even (10 * Float.num Float.zero)
              (Float.den Float.zero)) with 0.
    lia. }
  unfold Float.truediv, Float.mul_int.
  set (x := Float.of_ratio read_books total_books).
  destruct (of_ratio_error read_books total_books ltac:(lia) ltac:(lia))
    as [Hx0 Hx]. fold x in Hx0, Hx.
  pose proof (den_pos x) as HB.
  assert (0 < Float.num x) as HA.
  { destruct (Z.eq_dec (Float.num x) 0) as [Hz|]; [|lia].
    rewrite Hz in Hx. change (2 ^ 53) with 9007199254740992 in Hx. nia. }
  set (p := Float.of_ratio (Float.num x * 100) (Float.den x)).
  destruct (of_ratio_error (Float.num x * 100) (Float.den x) ltac:(lia) HB)
    as [Hp0 Hp]. fold p in Hp0, Hp.
  pose proof (den_pos p) as HD.
  cbv zeta.
  set (tenths := Float.round_half_even (10 * Float.num p) (Float.den p)).
  pose proof (round_half_even_spec (10 * Float.num p) (Float.den p) HD) as HT.
  fold tenths in HT.
  apply (tenth_gap (Float.num x) (Float.den x) (Float.num p) (Float.den p));
    [done|done|lia|done|lia|lia|done| |done].
  replace (100 * Float.num x * Float.den p)
    with (Float.num x * 100 * Float.den p) by ring.
  done.
Qed.

Lemma display_statistics_run (library : list book) (stdin : list string) :
  library ≠ [] →
  display_statistics library stdin
  = Done () stdin
      ([Print (nl +:+ rule); Print "Library Statistics"; Print rule;
        Print ("Total books: " +:+ Py.str_of_int (total_count library));
        Print (percentage_line library);
        Print (nl +:+ "Books by genre:")]
       ++ (Print <$> (count_line <$> groups genre library))
       ++ [Print (nl +:+ "Books by author:")]
       ++ (Print <$> (count_line <$> groups author library))).
Proof.
  intros Hne. unfold display_statistics. rewrite bool_decide_false by done.
  rewrite count_groups_groups.
  rewrite bind_run, banner_run. cbv beta iota.
  do 3 (rewrite bind_run, print_run; cbv beta iota).
  rewrite bind_run, print_all_run. cbv beta iota.
  rewrite bind_run, print_run. cbv beta iota.
  rewrite print_all_run. reflexivity.
Qed.

(** C6: on a catalog that is not empty, [display_statistics] counts the
    records of each distinct genre string and of each distinct author
    string, compared as they are, and prints, under each of the two
    headings, one line per string in the order of first occurrence: a dash,
    the string, a colon and its count.  Strings that differ by case or by a
    blank are different groups. *)
Theorem display_statistics_groups (library : list book) (stdin : list string) :
  library ≠ [] →
  count_groups library = (groups genre library, groups author library)
  ∧ display_statistics library stdin
    = Done () stdin
        ([Print (nl +:+ rule); Print "Library Statistics"; Print rule;
          Print ("Total books: " +:+ Py.str_of_int (total_count library));
          Print (percentage_line library);
          Print (nl +:+ "Books by genre:")]
         ++ ((λ entry, Print ("- " +:+ entry.1 +:+ ": " +:+ Py.str_of_int entry.2))
               <$> groups genre library)
         ++ [Print (nl +:+ "Books by author:")]
         ++ ((λ entry, Print ("- " +:+ entry.1 +:+ ": " +:+ Py.str_of_int entry.2))
               <$> groups author library))
  ∧ (∀ key k n, (k, n) ∈ groups key library →
                n = count_of key k library ∧ 0 < n)
  ∧ (∀ key, (groups key library).*1 = first_occurrences (key <$> library))
  ∧ first_occurrences ["Fantasy"; "fantasy"; "Fantasy "; "Fantasy"]
    = ["Fantasy"; "fantasy"; "Fantasy "].
Proof.
  intros Hne. split_and!.
  - apply count_groups_groups.
  - rewrite display_statistics_run by done.
    by rewrite <- !list_fmap_compose.
  - intros key k n Hin. unfold groups in Hin.
    apply list_elem_of_fmap in Hin as (k' & [= -> ->] & Hk').
    split; [done|].
    apply elem_of_first_occurrences, list_elem_of_fmap in Hk' as (book & -> & Hbook).
    unfold count_of.
    assert (book ∈ filter (λ b, key b = key book) library) as Hf
      by (by apply list_elem_of_filter).
    destruct (filter _ library); [by apply elem_of_nil in Hf|simpl; lia].
  - intros key. unfold groups. rewrite <- list_fmap_compose.
    apply list_fmap_id.
  - reflexivity.
Qed.

Lemma display_statistics_groups_witness :
  let library := [mkBook "Dune" "Frank Herbert" 1965 "SF" true;
                  mkBook "Emma" "Jane Austen" 1815 "Novel" false;
                  mkBook "Children of Dune" "Frank Herbert" 1976 "sf" false;
                  mkBook "Solaris" "Stanislaw Lem" 1961 "SF" true] in
  count_groups library
  = ([("SF", 2); ("Novel", 1); ("sf", 1)],
     [("Frank Herbert", 2); ("Jane Austen", 1); ("Stanislaw Lem", 1)])
  ∧ display_statistics library ["unread"]
    = Done () ["unread"]
        [Print (nl +:+ rule); Print "Library Statistics"; Print rule;
         Print "Total books: 4"; Print "Percentage read: 50.0%";
         Print (nl +:+ "Books by genre:");
         Print "- SF: 2"; Print "- Novel: 1"; Print "- sf: 1";
         Print (nl +:+ "Books by author:");
         Print "- Frank Herbert: 2"; Print "- Jane Austen: 1";
         Print "- Stanislaw Lem: 1"].
Proof.
  intros library.
  destruct (display_statistics_groups library ["unread"]) as (Hgroups & Hrun & _).
  - discriminate.
  - split; [exact Hgroups|]. rewrite Hrun. reflexivity.
Defined.

(** C7: on an empty catalog [display_statistics] only says that the library
    is empty.  Otherwise it prints the percentage of the records that are
    read, [read / total * 100] computed in binary64 and written with one
    digit after the point: for a catalog of fewer than [2^40] records the
    number printed is a decimal nearest to the exact percentage, between 0.0
    and 100.0.  One read record out of four prints 25.0%. *)
Theorem display_statistics_percentage (library : list book) (stdin : list string) :
  display_statistics [] stdin = Done () stdin [Print (nl +:+ "Your library is empty!")]
  ∧ (library ≠ [] →
     (∃ tail,
        display_statistics library stdin
        = Done () stdin
            ([Print (nl +:+ rule); Print "Library Statistics"; Print rule;
              Print ("Total books: " +:+ Py.str_of_int (total_count library));
              Print ("Percentage read: "
                       +:+ Float.format_1f
                             (percentage_read (read_count library)
                                              (total_count library))
                       +:+ "%")]
             ++ tail))
     ∧ (total_count library < 2 ^ 40 →
        ∃ tenths,
          0 ≤ tenths ≤ 1000
          ∧ 2 * Z.abs (tenths * total_count library - 1000 * read_count library)
            ≤ total_count library
          ∧ Float.format_1f (percentage_read (read_count library)
                                             (total_count library))
            = Py.str_of_int (tenths / 10) +:+ "." +:+ Py.str_of_int (tenths mod 10))
     ∧ (total_count library = 4 → read_count library = 1 →
        percentage_line library = "Percentage read: 25.0%")).
Proof.
  split; [done|]. intros Hne.
  assert (0 < total_count library) as Htotal.
  { unfold total_count. destruct library; [done|simpl; lia]. }
  assert (0 ≤ read_count library ≤ total_count library) as Hread.
  { unfold read_count, total_count.
    pose proof (length_filter (λ book, read book = true) library). lia. }
  split_and!.
  - rewrite display_statistics_run by done. by eexists.
  - intros Hsmall.
    pose proof (percentage_nearest_tenth _ _ Hread (conj Htotal Hsmall)) as Hnear.
    cbv zeta in Hnear.
    eexists. split_and!; [| |exact Hnear|reflexivity]; nia.
  - intros Ht Hr. unfold percentage_line. by rewrite Ht, Hr.
Qed.

Lemma display_statistics_percentage_witness :
  let library := [mkBook "Dune" "Frank Herbert" 1965 "SF" true;
                  mkBook "Emma" "Jane Austen" 1815 "Novel" false;
                  mkBook "Children of Dune" "Frank Herbert" 1976 "SF" false;
                  mkBook "Solaris" "Stanislaw Lem" 1961 "SF" false] in
  percentage_line library = "Percentage read: 25.0%"
  ∧ ∃ tenths,
      0 ≤ tenths ≤ 1000
      ∧ 2 * Z.abs (tenths * 4 - 1000 * 1) ≤ 4
      ∧ "25.0" = Py.str_of_int (tenths / 10) +:+ "." +:+ Py.str_of_int (tenths mod 10).
Proof.
  intros library.
  destruct (display_statistics_percentage library []) as (_ & Hrun).
  destruct Hrun as (_ & Hnear & Hexample); [discriminate|].
  split.
  - apply Hexample; reflexivity.
  - apply Hnear. reflexivity.
Defined.

(** ** The JSON codec on a catalog *)

Lemma skip_ws_spaces (n : nat) (s : string) :
  Json.skip_ws (Py.repeat " " n +:+ s) = Json.skip_ws s.
Proof. induction n as [|n IH]; [done|]. exact IH. Qed.

Lemma skip_ws_newline_indent (level : nat) (s : string) :
  Json.skip_ws (Json.newline_indent level +:+ s) = Json.skip_ws s.
Proof.
  unfold Json.newline_indent. rewrite string_app_assoc.
  unfold nl. rewrite string_app_cons. cbn [Json.skip_ws].
  change (Json.is_ws (ascii_of_N 10)) with true. cbv iota.
  apply skip_ws_spaces.
Qed.

(** Reading back one escaped character. *)
Lemma scan_string_escape_char (c : ascii) (s : string) :
  Json.scan_string (Json.escape_char c +:+ s)
  = '(str, rest) ← Json.scan_string s; Some (String c str, rest).
Proof. destruct c as [[] [] [] [] [] [] [] []]; reflexivity. Qed.

Lemma scan_string_escape (s rest : string) :
  Json.scan_string (Json.escape s +:+ String Json.quote rest) = Some (s, rest).
Proof.
  induction s as [|c s IH]; [done|].
  cbn [Json.escape]. by rewrite string_app_assoc, scan_string_escape_char, IH.
Qed.

Lemma parse_value_string (fuel : nat) (s rest : string) :
  Json.parse_value (S fuel) (Json.encode_string s +:+ rest)
  = Some (Json.Str s, rest).
Proof.
  unfold Json.encode_string. rewrite string_app_cons, string_app_assoc.
  cbn [Json.parse_value]. change (Ascii.eqb Json.quote Json.quote) with true.
  cbv iota. rewrite string_app_cons. by rewrite scan_string_escape.
Qed.

Lemma to_uint_head (p : positive) : nonzero_head (Pos.to_uint p).
Proof.
  pose proof (DecimalPos.Unsigned.to_of (Pos.to_uint p)) as Hnorm.
  rewrite DecimalPos.Unsigned.of_to in Hnorm. simpl in Hnorm.
  pose proof (DecimalPos.Unsigned.to_uint_nonzero p) as Hnz.
  pose proof (DecimalPos.Unsigned.to_uint_nonnil p) as Hnn.
  destruct (Pos.to_uint p) as [|d|d|d|d|d|d|d|d|d|d]; try done.
  rewrite DecimalFacts.unorm_D0 in Hnorm. unfold Decimal.unorm in Hnorm.
  pose proof (DecimalFacts.nzhead_nonzero d d) as Hhead.
  destruct (Decimal.nzhead d) eqn:Hd; try done.
Qed.

Lemma is_digit_ends_value c : ends_value c → Py.is_digit c = false.
Proof. by intros [->| ->]. Qed.

Lemma span_digits_uint (d : Decimal.uint) (c : ascii) (rest : string) :
  Py.is_digit c = false →
  Json.span_digits (NilEmpty.string_of_uint d +:+ String c rest)
  = (NilEmpty.string_of_uint d, String c rest).
Proof.
  intros Hc. induction d as [|d IH|d IH|d IH|d IH|d IH|d IH|d IH|d IH|d IH|d IH];
    cbn [NilEmpty.string_of_uint];
    rewrite ?string_app_cons; [change ("" +:+ ?x) with x|..];
    cbn [Json.span_digits];
    [by rewrite Hc|..];
    match goal with
    | |- context [Py.is_digit ?x] => change (Py.is_digit x) with true
    end; cbv iota; by rewrite IH.
Qed.

Lemma int_digits_uint (d : Decimal.uint) :
  Py.int_digits true (NilEmpty.string_of_uint d) = Some (NilEmpty.string_of_uint d).
Proof.
  induction d as [|d IH|d IH|d IH|d IH|d IH|d IH|d IH|d IH|d IH|d IH];
    [done|..]; cbn [NilEmpty.string_of_uint Py.int_digits];
    match goal with
    | |- context [Py.is_digit ?x] => change (Py.is_digit x) with true
    end; cbv iota; by rewrite IH.
Qed.

Lemma nat_literal_uint (d : Decimal.uint) :
  nonzero_head d →
  Py.nat_literal (NilEmpty.string_of_uint d) = Some (Z.of_uint d).
Proof.
  intros Hd. unfold Py.nat_literal.
  assert (Py.int_digits false (NilEmpty.string_of_uint d)
          = Some (NilEmpty.string_of_uint d)) as ->.
  { destruct d; try done; cbn [NilEmpty.string_of_uint Py.int_digits];
      match goal with
      | |- context [Py.is_digit ?x] => change (Py.is_digit x) with true
      end; cbv iota; by rewrite int_digits_uint. }
  cbn [mbind option_bind].
  assert (NilZero.uint_of_string (NilEmpty.string_of_uint d) = Some d) as ->; [|done].
  assert (d ≠ Decimal.Nil) as Hnil by (by destruct d).
  replace (NilEmpty.string_of_uint d) with (NilZero.string_of_uint d)
    by (by destruct d).
  by apply NilZero.usu.
Qed.

Lemma scan_frac_ends c rest :
  ends_value c → Json.scan_frac (String c rest) = ("", String c rest).
Proof. by intros [->| ->]. Qed.

Lemma scan_exp_ends c rest :
  ends_value c → Json.scan_exp (String c rest) = ("", String c rest).
Proof. by intros [->| ->]. Qed.

Lemma scan_number_uint (d : Decimal.uint) (c : ascii) (rest : string) :
  nonzero_head d → ends_value c →
  Json.scan_number (NilEmpty.string_of_uint d +:+ String c rest)
  = Some (Json.Int (Z.of_uint d), String c rest).
Proof.
  intros Hd Hc. unfold Json.scan_number.
  pose proof (span_digits_uint d c rest (is_digit_ends_value c Hc)) as Hspan.
  pose proof (nat_literal_uint d Hd) as Hlit.
  destruct d; try done; cbn [NilEmpty.string_of_uint] in *;
    rewrite string_app_cons in *; cbn [Json.scan_int_part];
    match goal with
    | |- context [Py.is_digit ?x] => change (Py.is_digit x) with true
    end; cbv iota; rewrite Hspan; cbn [mbind option_bind]; cbv beta iota;
    rewrite (scan_frac_ends c rest Hc), (scan_exp_ends c rest Hc);
    change ("" +:+ ?x) with x; cbn [Py.int]; rewrite Hlit; reflexivity.
Qed.

Lemma scan_number_negative (d : Decimal.uint) (c : ascii) (rest : string) :
  nonzero_head d → ends_value c →
  Json.scan_number (String "-" (NilEmpty.string_of_uint d) +:+ String c rest)
  = Some (Json.Int (- Z.of_uint d), String c rest).
Proof.
  intros Hd Hc. unfold Json.scan_number. rewrite string_app_cons. cbv beta iota.
  pose proof (span_digits_uint d c rest (is_digit_ends_value c Hc)) as Hspan.
  pose proof (nat_literal_uint d Hd) as Hlit.
  destruct d; try done; cbn [NilEmpty.string_of_uint] in *;
    rewrite string_app_cons in *; cbn [Json.scan_int_part];
    match goal with
    | |- context [Py.is_digit ?x] => change (Py.is_digit x) with true
    end; cbv iota; rewrite Hspan; cbn [mbind option_bind]; cbv beta iota;
    rewrite (scan_frac_ends c rest Hc), (scan_exp_ends c rest Hc);
    rewrite string_app_cons; change ("" +:+ ?x) with x;
    cbn [Py.int]; rewrite Hlit; reflexivity.
Qed.

Lemma parse_value_int (fuel : nat) (z : Z) (c : ascii) (rest : string) :
  ends_value c →
  Json.parse_value (S fuel) (Py.str_of_int z +:+ String c rest)
  = Some (Json.Int z, String c rest).
Proof.
  intros Hc. unfold Py.str_of_int. destruct z as [|p|p]; simpl Z.to_int.
  - by destruct Hc as [->| ->].
  - pose proof (to_uint_head p) as Hhead.
    pose proof (scan_number_uint _ c rest Hhead Hc) as Hscan.
    assert (Z.of_uint (Pos.to_uint p) = Z.pos p) as Hval.
    { unfold Z.of_uint. by rewrite DecimalPos.Unsigned.of_to. }
    rewrite Hval in Hscan. unfold NilZero.string_of_int.
    destruct (Pos.to_uint p); try done;
      cbn [NilZero.string_of_uint NilEmpty.string_of_uint] in *;
      rewrite string_app_cons in *; cbn [Json.parse_value];
      cbv beta iota; unfold Json.scan_atom; cbn [Json.strip_prefix];
      cbv beta iota; by rewrite Hscan.
  - pose proof (to_uint_head p) as Hhead.
    pose proof (scan_number_negative _ c rest Hhead Hc) as Hscan.
    assert (Z.of_uint (Pos.to_uint p) = Z.pos p) as Hval.
    { unfold Z.of_uint. by rewrite DecimalPos.Unsigned.of_to. }
    rewrite Hval in Hscan. unfold NilZero.string_of_int.
    assert (NilZero.string_of_uint (Pos.to_uint p)
            = NilEmpty.string_of_uint (Pos.to_uint p)) as ->
      by (by destruct (Pos.to_uint p)).
    rewrite string_app_cons in *. cbn [Json.parse_value].
    cbv beta iota. unfold Json.scan_atom. cbn [Json.strip_prefix].
    cbv beta iota. by rewrite Hscan.
Qed.

Lemma parse_value_bool (fuel : nat) (b : bool) (rest : string) :
  Json.parse_value (S fuel) (Json.encode 2 (Json.Bool b) +:+ rest)
  = Some (Json.Bool b, rest).
Proof. by destruct b. Qed.

Lemma skip_ws_string (s rest : string) :
  Json.skip_ws (Json.encode_string s +:+ rest) = Json.encode_string s +:+ rest.
Proof. reflexivity. Qed.

Lemma skip_ws_int (z : Z) (rest : string) :
  Json.skip_ws (Py.str_of_int z +:+ rest) = Py.str_of_int z +:+ rest.
Proof.
  unfold Py.str_of_int. destruct z as [|p|p]; simpl Z.to_int; [done| |done].
  pose proof (to_uint_head p) as Hhead. unfold NilZero.string_of_int.
  by destruct (Pos.to_uint p).
Qed.

Lemma skip_ws_bool (b : bool) (rest : string) :
  Json.skip_ws (Json.encode 2 (Json.Bool b) +:+ rest)
  = Json.encode 2 (Json.Bool b) +:+ rest.
Proof. by destruct b. Qed.

(** One member of an object: key, colon, value. *)
Lemma parse_members_step fuel key enc v tail acc :
  Json.parse_value fuel (enc +:+ tail) = Some (v, tail) →
  Json.skip_ws (enc +:+ tail) = enc +:+ tail →
  Json.parse_members (S fuel)
    (Json.encode_string key +:+ ": " +:+ enc +:+ tail) acc
  = match Json.skip_ws tail with
    | String "}" rest => Some (Json.Obj (Json.dict (acc ++ [(key, v)])), rest)
    | String "," rest =>
        Json.parse_members fuel (Json.skip_ws rest) (acc ++ [(key, v)])
    | _ => None
    end.
Proof.
  intros Hv Hstart. unfold Json.encode_string.
  rewrite string_app_cons, string_app_assoc. cbn [Json.parse_members].
  change (Ascii.eqb Json.quote Json.quote) with true. cbv iota.
  rewrite string_app_cons, scan_string_escape. cbn [mbind option_bind]. cbv beta iota.
  change (Json.skip_ws ("" +:+ ": " +:+ enc +:+ tail))
    with (String ":" (String " " (enc +:+ tail))).
  cbv iota.
  change (Json.skip_ws (String " " (enc +:+ tail)))
    with (Json.skip_ws (enc +:+ tail)).
  rewrite Hstart, Hv. reflexivity.
Qed.

(** The text of a record inside the array. *)
Lemma encode_book (b : book) :
  Json.encode 1 (book_to_json b)
  = "{" +:+ Json.newline_indent 2
    +:+ Json.encode_string "title" +:+ ": " +:+ Json.encode_string (title b)
    +:+ member_sep
    +:+ Json.encode_string "author" +:+ ": " +:+ Json.encode_string (author b)
    +:+ member_sep
    +:+ Json.encode_string "year" +:+ ": " +:+ Py.str_of_int (year b)
    +:+ member_sep
    +:+ Json.encode_string "genre" +:+ ": " +:+ Json.encode_string (genre b)
    +:+ member_sep
    +:+ Json.encode_string "read" +:+ ": " +:+ Json.encode 2 (Json.Bool (read b))
    +:+ Json.newline_indent 1 +:+ "}".
Proof.
  unfold book_to_json. cbn [Json.encode map fst snd]. unfold Json.block.
  cbn [String.concat]. fold member_sep.
  by rewrite !string_app_assoc.
Qed.

Lemma skip_ws_member_sep (s : string) :
  Json.skip_ws (member_sep +:+ s) = member_sep +:+ s.
Proof. reflexivity. Qed.

Lemma parse_value_book (fuel : nat) (b : book) (rest : string) :
  Json.parse_value (7 + fuel) (Json.encode 1 (book_to_json b) +:+ rest)
  = Some (book_to_json b, rest).
Proof.
  rewrite encode_book, !string_app_assoc.
  change (7 + fuel)%nat with (S (S (S (S (S (S (S fuel))))))).
  rewrite (string_app_cons "{"). cbn [Json.parse_value].
  change (Ascii.eqb "{" Json.quote) with false.
  change (Ascii.eqb "{" "{") with true. cbv iota.
  change ("" +:+ ?x) with x.
  rewrite skip_ws_newline_indent, skip_ws_string.
  unfold Json.encode_string at 1. rewrite string_app_cons.
  change Json.quote with (Ascii false true false false false true false false) at 1.
  cbv iota.
  change (Ascii false true false false false true false false) with Json.quote.
  rewrite <- string_app_cons. fold (Json.encode_string "title").
  (* title *)
  rewrite parse_members_step
    with (v := Json.Str (title b)); [|apply parse_value_string|apply skip_ws_string].
  rewrite skip_ws_member_sep. unfold member_sep at 1.
  rewrite string_app_assoc, (string_app_cons ","). cbv iota.
  change ("" +:+ ?x) with x. rewrite skip_ws_newline_indent, skip_ws_string.
  (* author *)
  rewrite parse_members_step
    with (v := Json.Str (author b)); [|apply parse_value_string|apply skip_ws_string].
  rewrite skip_ws_member_sep. unfold member_sep at 1.
  rewrite string_app_assoc, (string_app_cons ","). cbv iota.
  change ("" +:+ ?x) with x. rewrite skip_ws_newline_indent, skip_ws_string.
  (* year *)
  rewrite parse_members_step with (v := Json.Int (year b));
    [|apply parse_value_int; by left|apply skip_ws_int].
  rewrite skip_ws_member_sep. unfold member_sep at 1.
  rewrite string_app_assoc, (string_app_cons ","). cbv iota.
  change ("" +:+ ?x) with x. rewrite skip_ws_newline_indent, skip_ws_string.
  (* genre *)
  rewrite parse_members_step
    with (v := Json.Str (genre b)); [|apply parse_value_string|apply skip_ws_string].
  rewrite skip_ws_member_sep. unfold member_sep at 1.
  rewrite string_app_assoc, (string_app_cons ","). cbv iota.
  change ("" +:+ ?x) with x. rewrite skip_ws_newline_indent, skip_ws_string.
  (* read *)
  rewrite parse_members_step with (v := Json.Bool (read b));
    [|apply parse_value_bool|apply skip_ws_bool].
  rewrite skip_ws_newline_indent. reflexivity.
Qed.

Lemma skip_ws_book (b : book) (rest : string) :
  Json.skip_ws (Json.encode 1 (book_to_json b) +:+ rest)
  = Json.encode 1 (book_to_json b) +:+ rest.
Proof. rewrite encode_book. reflexivity. Qed.

Lemma concat_cons_cons (sep x y : string) (l : list string) :
  String.concat sep (x :: y :: l) = x +:+ sep +:+ String.concat sep (y :: l).
Proof. reflexivity. Qed.

(** The items of the array, up to the closing bracket. *)
Lemma parse_elements_books (fuel : nat) (b : book) (books : list book)
    (acc : list Json.value) (rest : string) :
  Json.parse_elements (length (b :: books) + 7 + fuel)
    (String.concat item_sep (encode_books (b :: books))
     +:+ Json.newline_indent 0 +:+ "]" +:+ rest) acc
  = Some (Json.Arr (acc ++ (book_to_json <$> b :: books)), rest).
Proof.
  revert b acc. induction books as [|b' books IH]; intros b acc.
  - cbn [length encode_books fmap list_fmap map String.concat].
    change (1 + 7 + fuel)%nat with (S (7 + fuel)). cbn [Json.parse_elements].
    rewrite parse_value_book. cbn [mbind option_bind]. cbv beta iota.
    rewrite skip_ws_newline_indent. reflexivity.
  - change (encode_books (b :: b' :: books))
      with (Json.encode 1 (book_to_json b) :: encode_books (b' :: books)).
    change (encode_books (b' :: books))
      with (Json.encode 1 (book_to_json b') :: encode_books books) at 1.
    rewrite concat_cons_cons, !string_app_assoc.
    change (length (b :: b' :: books) + 7 + fuel)%nat
      with (S (length (b' :: books) + 7 + fuel)).
    cbn [Json.parse_elements].
    replace (length (b' :: books) + 7 + fuel)%nat
      with (7 + (length (b' :: books) + fuel))%nat at 1 by lia.
    rewrite parse_value_book. cbn [mbind option_bind]. cbv beta iota.
    unfold item_sep at 1. rewrite string_app_assoc, (string_app_cons ",").
    change (Json.skip_ws (String "," ?x)) with (String "," x). cbv iota.
    change ("" +:+ ?x) with x. rewrite skip_ws_newline_indent.
    change (Json.encode 1 (book_to_json b') :: encode_books books)
      with (encode_books (b' :: books)).
    assert (Json.skip_ws (String.concat item_sep (encode_books (b' :: books))
                          +:+ Json.newline_indent 0 +:+ "]" +:+ rest)
            = String.concat item_sep (encode_books (b' :: books))
              +:+ Json.newline_indent 0 +:+ "]" +:+ rest) as ->.
    { destruct books as [|b'' books].
      - cbn [encode_books fmap list_fmap map String.concat]. apply skip_ws_book.
      - change (encode_books (b' :: b'' :: books))
          with (Json.encode 1 (book_to_json b') :: Json.encode 1 (book_to_json b'')
                  :: encode_books books).
        rewrite concat_cons_cons, !string_app_assoc. apply skip_ws_book. }
    rewrite IH. by rewrite <- app_assoc.
Qed.

Lemma string_length_app (a b : string) :
  String.length (a +:+ b) = (String.length a + String.length b)%nat.
Proof.
  induction a as [|c a IH]; [done|].
  rewrite string_app_cons. simpl. by rewrite IH.
Qed.

Lemma length_concat_books (books : list book) :
  (length books ≤ String.length (String.concat item_sep (encode_books books)))%nat.
Proof.
  induction books as [|b [|b' books] IH]; [done|..].
  - cbn [encode_books fmap list_fmap map String.concat length].
    rewrite encode_book, string_app_cons. simpl. lia.
  - change (encode_books (b :: b' :: books))
      with (Json.encode 1 (book_to_json b) :: Json.encode 1 (book_to_json b')
              :: encode_books books).
    rewrite concat_cons_cons, !string_length_app.
    change (Json.encode 1 (book_to_json b') :: encode_books books)
      with (encode_books (b' :: books)).
    rewrite encode_book, string_app_cons. simpl in *. lia.
Qed.

(** Decoding what [dumps] wrote for a catalog gives the catalog back. *)
Lemma loads_dumps_library (library : list book) :
  Json.loads (Json.dumps (library_to_json library))
  = Some (library_to_json library).
Proof.
  destruct library as [|b books]; [done|].
  unfold Json.dumps, library_to_json. cbn [Json.encode].
  fold (encode_books (b :: books)).
  unfold Json.block.
  change (encode_books (b :: books))
    with (Json.encode 1 (book_to_json b) :: encode_books books) at 1.
  cbv iota. fold item_sep.
  change (Json.encode 1 (book_to_json b) :: encode_books books)
    with (encode_books (b :: books)).
  set (body := String.concat item_sep (encode_books (b :: books))).
  unfold Json.loads. rewrite (string_app_cons "[").
  change (Json.skip_ws (String "[" ?x)) with (String "[" x).
  cbn [String.length].
  pose proof (length_concat_books (b :: books)) as Hlen. fold body in Hlen.
  rewrite !string_length_app.
  replace (S (String.length ("" : string)
              + (String.length (Json.newline_indent 1)
                 + (String.length body
                    + (String.length (Json.newline_indent 0)
                       + String.length "]")))))%nat
    with (S (length (b :: books) + 7 + (String.length body - length (b :: books))))
    by (change (String.length (Json.newline_indent 1)) with 5%nat;
        change (String.length (Json.newline_indent 0)) with 1%nat;
        simpl String.length; lia).
  cbn [Json.parse_value].
  change (Ascii.eqb "[" Json.quote) with false.
  change (Ascii.eqb "[" "{") with false.
  change (Ascii.eqb "[" "[") with true. cbv iota.
  change ("" +:+ ?x) with x. rewrite skip_ws_newline_indent.
  assert (Json.skip_ws (body +:+ Json.newline_indent 0 +:+ "]")
          = body +:+ Json.newline_indent 0 +:+ "]") as Hskip.
  { subst body. destruct books as [|b' books].
    - cbn [encode_books fmap list_fmap map String.concat]. apply skip_ws_book.
    - change (encode_books (b :: b' :: books))
        with (Json.encode 1 (book_to_json b) :: Json.encode 1 (book_to_json b')
                :: encode_books books).
      rewrite concat_cons_cons, !string_app_assoc. apply skip_ws_book. }
  rewrite Hskip.
  assert (∃ x, body = String "{" x) as [x Hx].
  { subst body. destruct books as [|b' books].
    - cbn [encode_books fmap list_fmap map String.concat].
      rewrite encode_book. by eexists.
    - change (encode_books (b :: b' :: books))
        with (Json.encode 1 (book_to_json b) :: Json.encode 1 (book_to_json b')
                :: encode_books books).
      rewrite concat_cons_cons, encode_book. by eexists. }
  rewrite Hx at 1. rewrite string_app_cons. cbv iota.
  rewrite <- string_app_cons, <- Hx.
  pose proof (parse_elements_books (String.length body - length (b :: books))
                b books [] "") as Hparse.
  fold body in Hparse. change ("]" +:+ "") with "]" in Hparse.
  rewrite Hparse. reflexivity.
Qed.

(** ** Persistence *)

Lemma book_of_json_to_json (b : book) : book_of_json (book_to_json b) = Some b.
Proof. by destruct b. Qed.

Lemma is_book_record_to_json (b : book) : is_book_record (book_to_json b) = true.
Proof. unfold is_book_record. by rewrite book_of_json_to_json. Qed.

Lemma library_of_json_to_json (library : list book) :
  library_of_json (library_to_json library) = Some library.
Proof.
  unfold library_of_json, library_to_json.
  apply mapM_Some. induction library as [|b library IH]; [constructor|].
  rewrite fmap_cons. constructor; [apply book_of_json_to_json|done].
Qed.

(** C3: saving a catalog to a store that may be written and read, and then
    loading from it, reports no error and returns the list of the same
    records in the same order, field by field. *)
Theorem save_load_round_trip (library : list book) (filename : string) (fs : store) :
  (∀ f, fs !! filename = Some f → writable f = true ∧ readable f = true) →
  (save_library library filename fs).2 = []
  ∧ load_library filename (save_library library filename fs).1
    = (library_to_json library, [])
  ∧ library_of_json (load_library filename (save_library library filename fs).1).1
    = Some library.
Proof.
  intros Haccess.
  assert (∃ fs', save_library library filename fs = (fs', [])
                 ∧ ∃ w, fs' !! filename
                        = Some (mkFile (Json.dumps (library_to_json library)) true w))
    as (fs' & -> & w & Hfile).
  { unfold save_library. destruct (fs !! filename) as [f|] eqn:Hf.
    - destruct (Haccess f eq_refl) as [-> ->].
      eexists. split; [done|]. eexists. apply lookup_insert_eq.
    - eexists. split; [done|]. eexists. apply lookup_insert_eq. }
  cbn [fst snd].
  assert (load_library filename fs' = (library_to_json library, [])) as Hload.
  { unfold load_library. rewrite Hfile. cbn [readable content].
    by rewrite loads_dumps_library. }
  rewrite Hload. split_and!; [done..|]. apply library_of_json_to_json.
Qed.

Lemma save_load_round_trip_witness :
  let library := [mkBook "Dune" "Frank Herbert" 1965 "SF" true;
                  mkBook "Emma" "Jane Austen" (-1815) "Novel" false] in
  let fs : store := {[ "library.json" := mkFile "[]" true true ]} in
  load_library "library.json" (save_library library "library.json" fs).1
  = (library_to_json library, []).
Proof.
  intros library fs.
  destruct (save_load_round_trip library "library.json" fs) as (_ & Hload & _).
  - intros f Hf. unfold fs in Hf. rewrite lookup_singleton_eq in Hf.
    injection Hf as <-. split; reflexivity.
  - exact Hload.
Defined.

(** C8: [load_library] returns the empty list and prints nothing when the
    store does not exist; when the store exists but cannot be read or does
    not decode, it prints the error and returns the empty list. *)
Theorem load_library_failures (filename : string) (fs : store) :
  (fs !! filename = None → load_library filename fs = (Json.Arr [], []))
  ∧ (∀ f, fs !! filename = Some f →
          readable f = false ∨ Json.loads (content f) = None →
          ∃ e, load_library filename fs = (Json.Arr [], [PrintLoadError e])).
Proof.
  unfold load_library. split.
  - by intros ->.
  - intros f -> [Hr|Hparse].
    + rewrite Hr. by eexists.
    + destruct (readable f); [rewrite Hparse|]; by eexists.
Qed.

Lemma load_library_failures_witness :
  load_library "library.json" ∅ = (Json.Arr [], [])
  ∧ (∃ e, load_library "library.json"
            {[ "library.json" := mkFile "[{" true true ]}
          = (Json.Arr [], [PrintLoadError e]))
  ∧ (∃ e, load_library "library.json"
            {[ "library.json" := mkFile "[]" false true ]}
          = (Json.Arr [], [PrintLoadError e])).
Proof.
  split_and!.
  - apply (proj1 (load_library_failures "library.json" ∅)). reflexivity.
  - apply (proj2 (load_library_failures "library.json"
                    {[ "library.json" := mkFile "[{" true true ]})
                 (mkFile "[{" true true)).
    + reflexivity.
    + right. reflexivity.
  - apply (proj2 (load_library_failures "library.json"
                    {[ "library.json" := mkFile "[]" false true ]})
                 (mkFile "[]" false true)).
    + reflexivity.
    + left. reflexivity.
Defined.

(** ** Shape of the records *)

Lemma reads_text_nonempty valid_options stdin (v : string) rest es :
  reads TStr valid_options stdin v rest es → v ≠ "".
Proof.
  intros Hreads. apply reads_accepted in Hreads as (line & _ & Hv).
  apply validate_inr in Hv as (Hne & Hconv & _).
  injection Hconv as <-. done.
Qed.

Lemma add_book_Done library stdin library' rest out :
  add_book library stdin = Done library' rest out →
  ∃ book, library' = library ++ [book]
          ∧ title book ≠ "" ∧ author book ≠ "" ∧ genre book ≠ "".
Proof.
  unfold add_book. rewrite bind_run, banner_run. cbv beta iota.
  rewrite bind_run.
  destruct (get_valid_input _ TStr None stdin) as [t r1 o1|] eqn:Ht; [|done].
  cbv beta iota. rewrite bind_run.
  destruct (get_valid_input _ TStr None r1) as [a r2 o2|] eqn:Ha; [|done].
  cbv beta iota. rewrite bind_run.
  destruct (get_valid_input _ TInt None r2) as [y r3 o3|] eqn:Hy; [|done].
  cbv beta iota. rewrite bind_run.
  destruct (get_valid_input _ TStr None r3) as [g r4 o4|] eqn:Hg; [|done].
  cbv beta iota. rewrite bind_run.
  destruct (get_valid_input _ TBool None r4) as [r r5 o5|] eqn:Hr; [|done].
  cbv beta iota. rewrite bind_run, print_run. simpl.
  intros [= <- <- <-].
  apply get_valid_input_Done in Ht as (? & Ht & _).
  apply get_valid_input_Done in Ha as (? & Ha & _).
  apply get_valid_input_Done in Hg as (? & Hg & _).
  exists (mkBook t a y g r). split_and!; [done|..]; simpl;
    by eapply reads_text_nonempty.
Qed.

(** C2, amended: the record that [add_book] appends is a dictionary with
    the five fields, each of its type, the three texts not empty, and the
    records before it stay; [remove_book] only takes records away.
    [load_library] does not look at what it decodes: its result is the
    decoded document, or the empty list, whatever the shape; it is a list of
    five-field records whenever the document was written by [save_library]. *)
Theorem catalog_records_shape (library : list book) (stdin : list string)
    (filename : string) (fs : store) :
  (∀ library' rest out,
     add_book library stdin = Done library' rest out →
     ∃ book, library' = library ++ [book]
             ∧ is_book_record (book_to_json book) = true
             ∧ title book ≠ "" ∧ author book ≠ "" ∧ genre book ≠ "")
  ∧ (∀ library' rest out,
       remove_book library stdin = Done library' rest out →
       library' `sublist_of` library)
  ∧ (∀ f v,
       fs !! filename = Some f → readable f = true →
       Json.loads (content f) = Some v →
       load_library filename fs = (v, []))
  ∧ (∀ f,
       fs !! filename = Some f → readable f = true →
       content f = Json.dumps (library_to_json library) →
       ∃ items, (load_library filename fs).1 = Json.Arr items
                ∧ Forall (λ v, is_book_record v = true) items).
Proof.
  split_and!.
  - intros library' rest out Hrun.
    apply add_book_Done in Hrun as (book & -> & ? & ? & ?).
    exists book. split_and!; [done| |done..]. apply is_book_record_to_json.
  - intros library' rest out Hrun.
    pose proof (remove_book_deletes library stdin) as Hdel.
    rewrite Hrun in Hdel. destruct Hdel as [->|(i & book & _ & ->)]; [done|].
    apply sublist_delete.
  - intros f v Hf Hr Hv. unfold load_library. by rewrite Hf, Hr, Hv.
  - intros f Hf Hr Hc. unfold load_library.
    rewrite Hf, Hr, Hc, loads_dumps_library. cbn [fst].
    exists (book_to_json <$> library). split; [done|].
    apply Forall_fmap, Forall_forall. intros b _. apply is_book_record_to_json.
Qed.

Lemma catalog_records_shape_witness :
  (∃ book, [mkBook "Dune" "Frank Herbert" 1965 "SF" true] = [] ++ [book]
           ∧ is_book_record (book_to_json book) = true
           ∧ title book ≠ "" ∧ author book ≠ "" ∧ genre book ≠ "")
  ∧ load_library "library.json" {[ "library.json" := mkFile "[1]" true true ]}
    = (Json.Arr [Json.Int 1], []).
Proof.
  split.
  - apply (proj1 (catalog_records_shape [] ["Dune"; "Frank Herbert"; "1965"; "SF"; "yes"]
                    "library.json" ∅)
                 [mkBook "Dune" "Frank Herbert" 1965 "SF" true] []
                 (output (add_book [] ["Dune"; "Frank Herbert"; "1965"; "SF"; "yes"]))).
    reflexivity.
  - apply (proj1 (proj2 (proj2 (catalog_records_shape [] [] "library.json"
                    {[ "library.json" := mkFile "[1]" true true ]})))
                 (mkFile "[1]" true true)); reflexivity.
Defined.

(** C2 as stated fails at the startup load: a store that holds a list with
    an empty object decodes, and the catalog then has a record with none of
    the five fields. *)
Lemma load_library_partial_record :
  load_library "library.json" {[ "library.json" := mkFile "[{}]" true true ]}
  = (Json.Arr [Json.Obj []], [])
  ∧ is_book_record (Json.Obj []) = false
  ∧ library_of_json (Json.Arr [Json.Obj []]) = None.
Proof. split_and!; reflexivity. Qed.

(** * Further properties *)

(** ** The validator on a given input *)

(** X1: [get_valid_input] stops at the first line that passes: the lines
    before it each cost one prompt and one message, the lines after it are
    left unread. *)
Theorem get_valid_input_first_valid (prompt : string) (ty : input_type)
    (valid_options : option (list Py.value)) (rejected : list string)
    (es : list value_error) (line : string) (v : py_type ty)
    (rest : list string) :
  Forall2 (λ l e, validate ty valid_options l = inl e) rejected es →
  validate ty valid_options line = inr v →
  get_valid_input prompt ty valid_options (rejected ++ line :: rest)
  = Done v rest (transcript prompt es).
Proof.
  intros Hrej Hv. induction Hrej as [|l e rejected es Hl _ IH]; simpl.
  - by rewrite Hv.
  - by rewrite Hl, IH.
Qed.

Lemma get_valid_input_first_valid_witness :
  get_valid_input "> " TBool None (["maybe"; ""] ++ " YES " :: ["n"])
  = Done true ["n"] (transcript "> " [NotYesNo; EmptyInput]).
Proof.
  apply (get_valid_input_first_valid "> " TBool None ["maybe"; ""]
           [NotYesNo; EmptyInput] " YES " true ["n"]).
  - repeat constructor.
  - reflexivity.
Defined.

(** X2: when no pending line passes, [get_valid_input] does not return: it
    asks once per line and once more, and the end of the input raises
    [EOFError]. *)
Theorem get_valid_input_exhausted (prompt : string) (ty : input_type)
    (valid_options : option (list Py.value)) (stdin : list string)
    (es : list value_error) :
  Forall2 (λ l e, validate ty valid_options l = inl e) stdin es →
  get_valid_input prompt ty valid_options stdin
  = Raised EOFError (transcript prompt es).
Proof.
  intros Hrej. induction Hrej as [|l e stdin es Hl _ IH]; simpl; [done|].
  by rewrite Hl, IH.
Qed.

Lemma get_valid_input_exhausted_witness :
  get_valid_input "> " TInt (Some (Py.VInt <$> Py.range 1 7)) ["abc"; "9"; "  "]
  = Raised EOFError
      (transcript "> " [InvalidLiteral "abc";
                        NotAnOption (Py.VInt <$> Py.range 1 7); EmptyInput]).
Proof.
  apply (get_valid_input_exhausted "> " TInt (Some (Py.VInt <$> Py.range 1 7))
           ["abc"; "9"; "  "]).
  repeat constructor.
Defined.

(** ** Stripping *)

Lemma lstrip_head (s : string) :
  match Py.lstrip s with
  | String c _ => Py.is_space c = false
  | EmptyString => True
  end.
Proof.
  induction s as [|c s IH]; [done|].
  simpl. by destruct (Py.is_space c) eqn:Hc; [|simpl].
Qed.

Lemma rstrip_head (c : ascii) (s : string) :
  Py.is_space c = false → ∃ s', Py.rstrip (String c s) = String c s'.
Proof.
  intros Hc. simpl. destruct (Py.rstrip s); [rewrite Hc|]; by eexists.
Qed.

Lemma rstrip_idemp (s : string) : Py.rstrip (Py.rstrip s) = Py.rstrip s.
Proof.
  induction s as [|c s IH]; [done|].
  simpl. destruct (Py.rstrip s) as [|d r] eqn:Hr.
  - destruct (Py.is_space c) eqn:Hc; [done|]. simpl. by rewrite Hc.
  - simpl. simpl in IH. by rewrite IH.
Qed.

Lemma lstrip_id (c : ascii) (s : string) :
  Py.is_space c = false → Py.lstrip (String c s) = String c s.
Proof. intros Hc. simpl. by rewrite Hc. Qed.

Lemma strip_idemp (s : string) : Py.strip (Py.strip s) = Py.strip s.
Proof.
  unfold Py.strip. pose proof (lstrip_head s) as Hhead.
  destruct (Py.lstrip s) as [|c r]; [done|].
  destruct (rstrip_head c r Hhead) as [s' Hs']. rewrite Hs'.
  rewrite lstrip_id by done. rewrite <- Hs'. apply rstrip_idemp.
Qed.

(** The first character of a stripped text is not white space, nor is the
    last. *)
Lemma rstrip_last (s : string) :
  ∀ pre c, Py.rstrip s = pre +:+ String c "" → Py.is_space c = false.
Proof.
  induction s as [|d s IH]; intros pre c; simpl.
  - by destruct pre.
  - destruct (Py.rstrip s) as [|e r] eqn:Hr.
    + destruct (Py.is_space d) eqn:Hd; [by destruct pre|].
      destruct pre as [|x [|??]]; [|done..]. by intros [= <-].
    + destruct pre as [|x pre].
      * done.
      * rewrite string_app_cons. intros [= <- Heq]. by eapply IH.
Qed.

Lemma returned_text_stripped prompt valid_options stdin rest (v : string) out :
  get_valid_input prompt TStr valid_options stdin = Done v rest out →
  v ≠ "" ∧ Py.strip v = v.
Proof.
  intros Hrun. apply get_valid_input_Done in Hrun as (es & Hreads & _).
  apply reads_accepted in Hreads as (line & _ & Hv).
  apply validate_inr in Hv as (Hne & Hconv & _).
  injection Hconv as <-. split; [done|apply strip_idemp].
Qed.

(** X3: a text that [get_valid_input] returns is not empty and has no white
    space at either end: stripping it again changes nothing, its first and
    its last character are not white space. *)
Theorem get_valid_input_text_stripped (prompt : string)
    (valid_options : option (list Py.value)) (stdin rest : list string)
    (v : string) (out : list event) :
  get_valid_input prompt TStr valid_options stdin = Done v rest out →
  v ≠ "" ∧ Py.strip v = v
  ∧ (∀ c s, v = String c s → Py.is_space c = false)
  ∧ (∀ pre c, v = pre +:+ String c "" → Py.is_space c = false).
Proof.
  intros Hrun. apply get_valid_input_Done in Hrun as (es & Hreads & _).
  apply reads_accepted in Hreads as (line & _ & Hv).
  apply validate_inr in Hv as (Hne & Hconv & _).
  injection Hconv as <-. split_and!; [done|apply strip_idemp|..].
  - intros c s Heq. unfold Py.strip in Heq.
    pose proof (lstrip_head line) as Hhead.
    destruct (Py.lstrip line) as [|d r]; [done|].
    destruct (rstrip_head d r Hhead) as [s' Hs']. rewrite Hs' in Heq.
    by injection Heq as <- _.
  - intros pre c Heq. by eapply rstrip_last.
Qed.

Lemma get_valid_input_text_stripped_witness :
  "Dune" ≠ "" ∧ Py.strip "Dune" = "Dune"
  ∧ (∀ c s, "Dune" = String c s → Py.is_space c = false)
  ∧ (∀ pre c, "Dune" = pre +:+ String c "" → Py.is_space c = false).
Proof.
  apply (get_valid_input_text_stripped "> " None [""; "  Dune  "; "x"] ["x"]
           "Dune" (transcript "> " [EmptyInput])).
  reflexivity.
Defined.

(** X4: with a range that is not empty as the restricted set, a line is
    accepted as an integer exactly when, once stripped, it is an integer
    literal whose value lies in the range. *)
Theorem validate_range (a b : Z) (line : string) (v : Z) :
  a < b →
  validate TInt (Some (Py.VInt <$> Py.range a b)) line = inr v ↔
  Py.int (Py.strip line) = Some v ∧ a ≤ v < b.
Proof.
  intros Hab. rewrite validate_inr, rejected_by_None. split.
  - intros (_ & Hconv & Hopt). simpl in Hconv.
    destruct (Py.int (Py.strip line)) as [z|]; [|done]. injection Hconv as ->.
    split; [done|]. apply contained_range, Hopt; [done|].
    intros Hnil. apply (f_equal length) in Hnil.
    rewrite length_fmap in Hnil. unfold Py.range in Hnil.
    rewrite length_fmap, length_seq in Hnil. simpl in Hnil. lia.
  - intros (Hint & Hv). split_and!.
    + intros Hempty. by rewrite Hempty in Hint.
    + simpl. by rewrite Hint.
    + intros options [= <-] _. by apply contained_range.
Qed.

Lemma validate_range_witness :
  validate TInt (Some (Py.VInt <$> Py.range 1 7)) " 6 " = inr 6.
Proof. apply (validate_range 1 7 " 6 " 6); [lia|]. split; [reflexivity|lia]. Defined.

(** ** Adding *)

Lemma add_book_five_lines (library : list book) (l1 l2 l3 l4 l5 : string)
    (y : Z) (rest : list string) :
  Py.strip l1 ≠ "" → Py.strip l2 ≠ "" →
  Py.int (Py.strip l3) = Some y →
  Py.strip l4 ≠ "" →
  Py.lower (Py.strip l5) ∈ ["yes"; "no"; "y"; "n"] →
  add_book library (l1 :: l2 :: l3 :: l4 :: l5 :: rest)
  = Done (library
            ++ [mkBook (Py.strip l1) (Py.strip l2) y (Py.strip l4)
                       (bool_decide (Py.lower (Py.strip l5) ∈ ["yes"; "y"]))])
         rest
         [Print (nl +:+ rule); Print "Add a New Book"; Print rule;
          Prompt "Enter the book title: "; Prompt "Enter the author: ";
          Prompt "Enter the publication year: "; Prompt "Enter the genre: ";
          Prompt "Have you read this book? (yes/no): ";
          Print (nl +:+ "Book added successfully!")].
Proof.
  intros H1 H2 H3 H4 H5.
  assert (Py.strip l3 ≠ "") as H3' by (intros Heq; by rewrite Heq in H3).
  assert (Py.strip l5 ≠ "") as H5'.
  { intros Heq. rewrite Heq in H5. simpl in H5.
    rewrite !elem_of_cons, elem_of_nil in H5.
    destruct H5 as [?|[?|[?|[?|[]]]]]; discriminate. }
  assert (∀ l, Py.strip l ≠ "" → validate TStr None l = inr (Py.strip l)) as Htext.
  { intros l Hl. unfold validate. by rewrite bool_decide_false. }
  assert (validate TInt None l3 = inr y) as Hyear.
  { unfold validate. rewrite bool_decide_false by done. simpl. by rewrite H3. }
  assert (validate TBool None l5
          = inr (bool_decide (Py.lower (Py.strip l5) ∈ ["yes"; "y"]))) as Hread.
  { unfold validate. rewrite bool_decide_false by done. simpl.
    by rewrite bool_decide_true. }
  unfold add_book. rewrite bind_run, banner_run. cbv beta iota.
  rewrite bind_run. cbn [get_valid_input]. rewrite (Htext l1 H1). cbv beta iota.
  rewrite bind_run. cbn [get_valid_input]. rewrite (Htext l2 H2). cbv beta iota.
  rewrite bind_run. cbn [get_valid_input]. rewrite Hyear. cbv beta iota.
  rewrite bind_run. cbn [get_valid_input]. rewrite (Htext l4 H4). cbv beta iota.
  rewrite bind_run. cbn [get_valid_input]. rewrite Hread. cbv beta iota.
  rewrite bind_run, print_run. reflexivity.
Qed.

(** X5: five lines that pass give the record made of them: the three texts
    stripped, the year as the integer that the line spells, the flag true for
    "yes" and "y"; the record goes to the end of the catalog and the lines
    after the fifth are left unread. *)
Theorem add_book_appends (library : list book) (l1 l2 l3 l4 l5 : string)
    (y : Z) (rest : list string) :
  Py.strip l1 ≠ "" → Py.strip l2 ≠ "" →
  Py.int (Py.strip l3) = Some y →
  Py.strip l4 ≠ "" →
  Py.lower (Py.strip l5) ∈ ["yes"; "no"; "y"; "n"] →
  add_book library (l1 :: l2 :: l3 :: l4 :: l5 :: rest)
  = Done (library
            ++ [mkBook (Py.strip l1) (Py.strip l2) y (Py.strip l4)
                       (bool_decide (Py.lower (Py.strip l5) ∈ ["yes"; "y"]))])
         rest
         [Print (nl +:+ rule); Print "Add a New Book"; Print rule;
          Prompt "Enter the book title: "; Prompt "Enter the author: ";
          Prompt "Enter the publication year: "; Prompt "Enter the genre: ";
          Prompt "Have you read this book? (yes/no): ";
          Print (nl +:+ "Book added successfully!")].
Proof. apply add_book_five_lines. Qed.

Lemma add_book_appends_witness :
  add_book [] (" Dune " :: "Frank Herbert" :: "1_965" :: "SF" :: "Y" :: ["next"])
  = Done ([] ++ [mkBook "Dune" "Frank Herbert" 1965 "SF" true]) ["next"]
         [Print (nl +:+ rule); Print "Add a New Book"; Print rule;
          Prompt "Enter the book title: "; Prompt "Enter the author: ";
          Prompt "Enter the publication year: "; Prompt "Enter the genre: ";
          Prompt "Have you read this book? (yes/no): ";
          Print (nl +:+ "Book added successfully!")].
Proof.
  apply (add_book_appends [] " Dune " "Frank Herbert" "1_965" "SF" "Y" 1965 ["next"]);
    try discriminate; try reflexivity.
  apply (bool_decide_unpack _). vm_compute. exact I.
Defined.

Lemma get_valid_input_length prompt ty valid_options stdin v rest out :
  get_valid_input prompt ty valid_options stdin = Done v rest out →
  (length rest < length stdin)%nat.
Proof.
  intros Hrun. apply get_valid_input_Done in Hrun as (es & Hreads & _).
  apply reads_split in Hreads as (rejected & line & -> & _).
  rewrite length_app. simpl. lia.
Qed.

(** X6: [add_book] either returns the catalog with one record more at its
    end, after reading at least five lines, or is left by [EOFError] when the
    input ends before the fifth answer; nothing else can happen, and the
    texts of the new record carry no white space at their ends. *)
Theorem add_book_outcome (library : list book) (stdin : list string) :
  match add_book library stdin with
  | Done library' rest _ =>
      (∃ book, library' = library ++ [book]
               ∧ Py.strip (title book) = title book
               ∧ Py.strip (author book) = author book
               ∧ Py.strip (genre book) = genre book)
      ∧ (length rest + 5 ≤ length stdin)%nat
  | Raised e _ => e = EOFError
  end.
Proof.
  unfold add_book. rewrite bind_run, banner_run. cbv beta iota.
  rewrite bind_run.
  destruct (get_valid_input _ TStr None stdin) as [t r1 o1|] eqn:Ht;
    [|by eapply get_valid_input_Raised].
  cbv beta iota. rewrite bind_run.
  destruct (get_valid_input _ TStr None r1) as [a r2 o2|] eqn:Ha;
    [|by eapply get_valid_input_Raised].
  cbv beta iota. rewrite bind_run.
  destruct (get_valid_input _ TInt None r2) as [y r3 o3|] eqn:Hy;
    [|by eapply get_valid_input_Raised].
  cbv beta iota. rewrite bind_run.
  destruct (get_valid_input _ TStr None r3) as [g r4 o4|] eqn:Hg;
    [|by eapply get_valid_input_Raised].
  cbv beta iota. rewrite bind_run.
  destruct (get_valid_input _ TBool None r4) as [r r5 o5|] eqn:Hr;
    [|by eapply get_valid_input_Raised].
  cbv beta iota. rewrite bind_run, print_run. simpl.
  split.
  - exists (mkBook t a y g r). simpl.
    apply returned_text_stripped in Ht as (_ & ?).
    apply returned_text_stripped in Ha as (_ & ?).
    apply returned_text_stripped in Hg as (_ & ?).
    done.
  - apply get_valid_input_length in Ht, Ha, Hy, Hg, Hr. lia.
Qed.

(** ** Removing *)

Lemma mret_run {A} (a : A) (stdin : list string) :
  (mret a : console A) stdin = Done a stdin [].
Proof. reflexivity. Qed.

Lemma filter_singleton {A} (P : A → Prop) `{∀ x, Decision (P x)} (l : list A) b :
  filter P l = [b] →
  ∃ i, l !! i = Some b ∧ P b ∧ ∀ j y, l !! j = Some y → P y → j = i.
Proof.
  induction l as [|x l IH]; [done|].
  rewrite filter_cons. case_decide as Hx.
  - intros [= -> Hnil]. exists 0%nat. split_and!; [done..|].
    intros [|j] y Hy Py; [done|]. simpl in Hy.
    apply filter_nil_iff in Hnil. rewrite Forall_forall in Hnil.
    destruct (Hnil y); [|done]. by eapply list_elem_of_lookup_2.
  - intros Hf. destruct (IH Hf) as (i & Hi & Pb & Huniq).
    exists (S i). split_and!; [done..|].
    intros [|j] y Hy Py; simpl in Hy.
    + by injection Hy as ->.
    + f_equal. by eapply Huniq.
Qed.

(** The run of [remove_book] when the entered title has one match. *)
Lemma remove_book_single_run library stdin rest title' out i b :
  get_valid_input title_prompt TStr None stdin = Done title' rest out →
  matches title' library = [b] →
  library !! i = Some b →
  (∀ j y, library !! j = Some y → Py.lower (title y) = Py.lower title' → j = i) →
  remove_book library stdin
  = Done (delete i library) rest
      ([Print (nl +:+ rule); Print "Remove a Book"; Print rule] ++ out
       ++ [Print (nl +:+ "Book removed successfully!")]).
Proof.
  intros Htitle Hm Hi Huniq.
  assert (library ≠ []) as Hne by (by destruct library).
  assert (Py.lower (title b) = Py.lower title') as Hb.
  { assert (b ∈ matches title' library) as Hin by (rewrite Hm; left).
    unfold matches in Hin. by apply list_elem_of_filter in Hin as [? _]. }
  assert (Py.remove b library = Some (delete i library)) as Hrem.
  { apply remove_Some. exists i. split_and!; [done| |done].
    intros j Hj Hlook. specialize (Huniq j b Hlook Hb). lia. }
  unfold remove_book. rewrite bool_decide_false by done.
  rewrite bind_run, banner_run. cbv beta iota.
  unfold title_prompt in Htitle. rewrite bind_run, Htitle. cbv beta iota.
  fold (matches title' library). rewrite Hm.
  rewrite bool_decide_false by done. rewrite bind_run.
  rewrite bool_decide_false by (simpl; lia).
  simpl (or_raise _ _ _). rewrite mret_run. cbv beta iota.
  rewrite bind_run, Hrem. simpl (or_raise _ _ _). rewrite mret_run.
  cbv beta iota.
  rewrite bind_run, print_run. reflexivity.
Qed.

(** X7: when exactly one record has the entered title up to case,
    [remove_book] deletes that record at its place, asks nothing more, and
    leaves all the others where they were. *)
Theorem remove_book_single_match (library : list book) (stdin rest : list string)
    (title' : string) (out : list event) (b : book) :
  get_valid_input "Enter the title of the book to remove: " TStr None stdin
    = Done title' rest out →
  matches title' library = [b] →
  ∃ i, library !! i = Some b
       ∧ (∀ j y, library !! j = Some y → j ≠ i →
                 Py.lower (title y) ≠ Py.lower title')
       ∧ remove_book library stdin
         = Done (delete i library) rest
             ([Print (nl +:+ rule); Print "Remove a Book"; Print rule] ++ out
              ++ [Print (nl +:+ "Book removed successfully!")])
       ∧ length (delete i library) = pred (length library).
Proof.
  intros Htitle Hm.
  destruct (filter_singleton _ _ _ Hm) as (i & Hi & Hb & Huniq).
  exists i. split_and!; [done| | |].
  - intros j y Hy Hne Hmatch. by apply Hne, (Huniq j y).
  - by eapply remove_book_single_run.
  - rewrite length_delete by by eexists. lia.
Qed.

Lemma remove_book_single_match_witness :
  let a := mkBook "Dune" "Frank Herbert" 1965 "SF" true in
  let b := mkBook "Emma" "Jane Austen" 1815 "Novel" false in
  ∃ i, [a; b; a] !! i = Some b
       ∧ remove_book [a; b; a] [" EMMA "; "x"]
         = Done (delete i [a; b; a]) ["x"]
             ([Print (nl +:+ rule); Print "Remove a Book"; Print rule]
              ++ [Prompt "Enter the title of the book to remove: "]
              ++ [Print (nl +:+ "Book removed successfully!")]).
Proof.
  intros a b.
  destruct (remove_book_single_match [a; b; a] [" EMMA "; "x"] ["x"] "EMMA"
              [Prompt "Enter the title of the book to remove: "] b)
    as (i & Hi & _ & Hrun & _); [reflexivity..|].
  by exists i.
Defined.

(** X8: a record that [remove_book] takes away has the entered title up to
    case; the catalog that is left holds the other records, each as often
    as before. *)
Theorem remove_book_removes_match (library : list book) (stdin rest : list string)
    (title' : string) (out : list event) :
  library ≠ [] →
  get_valid_input "Enter the title of the book to remove: " TStr None stdin
    = Done title' rest out →
  matches title' library ≠ [] →
  match remove_book library stdin with
  | Done library' _ _ =>
      ∃ b, Py.lower (title b) = Py.lower title' ∧ library ≡ₚ b :: library'
  | Raised e _ => e = EOFError
  end.
Proof.
  intros Hne Htitle Hsome.
  apply get_valid_input_Done in Htitle as (es & Hreads & _).
  pose proof (remove_book_found library stdin title' rest es Hne Hreads Hsome)
    as Hrun.
  destruct (remove_book library stdin) as [library' rest' out'|]; [|done].
  destruct Hrun as (k & b & Hk & Hrem & _).
  exists b. split.
  - apply list_elem_of_lookup_2 in Hk. unfold matches in Hk.
    by apply list_elem_of_filter in Hk as [? _].
  - apply remove_Some in Hrem as (i & Hi & _ & ->).
    by apply delete_Permutation.
Qed.

Lemma remove_book_removes_match_witness :
  let a := mkBook "Dune" "Frank Herbert" 1965 "SF" true in
  let b := mkBook "dune" "Brian Herbert" 1999 "SF" false in
  match remove_book [a; b] ["DUNE"; "2"] with
  | Done library' _ _ =>
      ∃ x, Py.lower (title x) = Py.lower "DUNE" ∧ [a; b] ≡ₚ x :: library'
  | Raised e _ => e = EOFError
  end.
Proof.
  intros a b.
  apply (remove_book_removes_match [a; b] ["DUNE"; "2"] ["2"] "DUNE"
           [Prompt "Enter the title of the book to remove: "]);
    [discriminate|reflexivity|discriminate].
Defined.

(** X9: adding a record and then removing it by its title, when no other
    record has that title up to case, gives the catalog back as it was. *)
Theorem add_then_remove (library : list book) (b : book) (line : string)
    (rest : list string) :
  Py.strip line ≠ "" →
  Py.lower (Py.strip line) = Py.lower (title b) →
  (∀ y, y ∈ library → Py.lower (title y) ≠ Py.lower (title b)) →
  remove_book (library ++ [b]) (line :: rest)
  = Done library rest
      [Print (nl +:+ rule); Print "Remove a Book"; Print rule;
       Prompt "Enter the title of the book to remove: ";
       Print (nl +:+ "Book removed successfully!")].
Proof.
  intros Hline Hlower Hfresh.
  assert (matches (Py.strip line) library = []) as Hnone.
  { apply filter_nil_iff, Forall_forall. intros y Hy. rewrite Hlower.
    by apply Hfresh. }
  assert (matches (Py.strip line) (library ++ [b]) = [b]) as Hm.
  { unfold matches in *. rewrite filter_app, Hnone, filter_cons.
    by rewrite decide_True. }
  assert (get_valid_input title_prompt TStr None (line :: rest)
          = Done (Py.strip line) rest [Prompt title_prompt]) as Htitle.
  { simpl. unfold validate. by rewrite bool_decide_false. }
  rewrite (remove_book_single_run _ _ _ _ _ (length library) b Htitle Hm).
  - rewrite delete_middle. by rewrite app_nil_r.
  - by rewrite list_lookup_middle.
  - intros j y Hy Hmatch.
    destruct (decide (j < length library)%nat) as [Hlt|Hge].
    + rewrite lookup_app_l in Hy by done.
      destruct (Hfresh y); [by eapply list_elem_of_lookup_2|congruence].
    + apply lookup_lt_Some in Hy. rewrite length_app in Hy. simpl in Hy. lia.
Qed.

Lemma add_then_remove_witness :
  remove_book ([mkBook "Emma" "Jane Austen" 1815 "Novel" false]
                 ++ [mkBook "Dune" "Frank Herbert" 1965 "SF" true])
              (" dune" :: ["x"])
  = Done [mkBook "Emma" "Jane Austen" 1815 "Novel" false] ["x"]
      [Print (nl +:+ rule); Print "Remove a Book"; Print rule;
       Prompt "Enter the title of the book to remove: ";
       Print (nl +:+ "Book removed successfully!")].
Proof.
  apply (add_then_remove [mkBook "Emma" "Jane Austen" 1815 "Novel" false]
           (mkBook "Dune" "Frank Herbert" 1965 "SF" true) " dune" ["x"]).
  - discriminate.
  - reflexivity.
  - intros y Hy. apply list_elem_of_singleton in Hy as ->. discriminate.
Defined.

(** ** Listing and searching *)

(** X10: [display_all_books] reads nothing and prints, after the heading,
    one line per record in catalog order: line [i] (from 0) is the summary
    of record [i] under the number [i + 1].  On an empty catalog it prints
    the one line that says so. *)
Theorem display_all_books_lines (library : list book) (stdin : list string) :
  display_all_books [] stdin
  = Done () stdin [Print (nl +:+ "Your library is empty!")]
  ∧ (library ≠ [] →
     ∃ lines,
       display_all_books library stdin
       = Done () stdin
           ([Print (nl +:+ rule); Print "Your Library"; Print rule]
            ++ (Print <$> lines))
       ∧ length lines = length library
       ∧ ∀ i b, library !! i = Some b →
                lines !! i = Some (summary_line (Z.of_nat i + 1) b)).
Proof.
  split; [done|]. intros Hne.
  exists (enumerate_from_1 summary_line library). split_and!.
  - unfold display_all_books. rewrite bool_decide_false by done.
    rewrite bind_run, banner_run. cbv beta iota. by rewrite print_all_run.
  - unfold enumerate_from_1. apply length_imap.
  - intros i b Hi. unfold enumerate_from_1. by rewrite list_lookup_imap, Hi.
Qed.

Lemma display_all_books_lines_witness :
  ∃ lines,
    display_all_books [mkBook "Dune" "Frank Herbert" 1965 "SF" true;
                       mkBook "Emma" "Jane Austen" 1815 "Novel" false] []
    = Done () []
        ([Print (nl +:+ rule); Print "Your Library"; Print rule]
         ++ (Print <$> lines))
    ∧ lines = ["1. Dune by Frank Herbert (1965) - SF - Read";
               "2. Emma by Jane Austen (1815) - Novel - Unread"].
Proof.
  destruct (proj2 (display_all_books_lines
                     [mkBook "Dune" "Frank Herbert" 1965 "SF" true;
                      mkBook "Emma" "Jane Austen" 1815 "Novel" false] []))
    as (lines & Hrun & Hlen & Hlines); [discriminate|].
  exists lines. split; [exact Hrun|].
  pose proof (Hlines 0%nat _ eq_refl) as H0.
  pose proof (Hlines 1%nat _ eq_refl) as H1.
  destruct lines as [|x [|y [|??]]]; try discriminate.
  by injection H0 as ->; injection H1 as ->.
Defined.

Lemma filter_sublist_mono {A} (P Q : A → Prop) `{∀ x, Decision (P x)}
    `{∀ x, Decision (Q x)} (l : list A) :
  (∀ x, P x → Q x) → filter P l `sublist_of` filter Q l.
Proof.
  intros HPQ. induction l as [|x l IH]; [done|].
  rewrite !filter_cons. destruct (decide (P x)) as [HP|HP].
  - rewrite decide_True by auto. by constructor.
  - destruct (decide (Q x)); [by constructor|done].
Qed.

Lemma string_app_empty_r (a : string) : a +:+ "" = a.
Proof. induction a as [|x a IH]; [done|]. by rewrite string_app_cons, IH. Qed.

(** X11: the records that [remove_book] would match for a text are all
    found by a search by title for the same text, in the same order; and a
    search never shows a record that the catalog does not hold. *)
Theorem search_covers_matches (choice : Z) (text : string) (library : list book) :
  matches text library `sublist_of` search_results 1 text library
  ∧ search_results choice text library `sublist_of` library.
Proof.
  split.
  - unfold matches, search_results. simpl.
    apply filter_sublist_mono. intros b Hb. apply Is_true_true.
    rewrite Hb. apply contains_spec. exists "", "".
    by rewrite string_app_empty_r.
  - unfold search_results. destruct (choice =? 1); apply sublist_filter.
Qed.

(** ** Counting *)

Lemma dict_get_set (d : Dict.t) (k k' : string) (v default : Z) :
  Dict.get (Dict.set d k v) k' default
  = if decide (k' = k) then v else Dict.get d k' default.
Proof.
  induction d as [|[k0 v0] d IH]; simpl.
  - destruct (decide (k = k')) as [->|]; [by rewrite decide_True|].
    by rewrite decide_False by congruence.
  - destruct (decide (k0 = k)) as [->|Hne]; simpl.
    + destruct (decide (k = k')) as [->|]; [by rewrite decide_True|].
      by rewrite decide_False by congruence.
    + destruct (decide (k0 = k')) as [->|]; [by rewrite decide_False|done].
Qed.

Lemma dict_keys_set (d : Dict.t) (k : string) (v : Z) :
  (Dict.set d k v).*1 = d.*1 ++ (if decide (k ∈ d.*1) then [] else [k]).
Proof.
  induction d as [|[k0 v0] d IH].
  { cbn. by rewrite (decide_False (P := k ∈ [])) by apply not_elem_of_nil. }
  cbn [Dict.set]. destruct (decide (k0 = k)) as [->|Hne].
  - rewrite !fmap_cons. cbn [fst].
    rewrite (decide_True (P := k ∈ k :: d.*1)) by left. by rewrite app_nil_r.
  - rewrite !fmap_cons, IH. cbn [fst]. rewrite <- app_comm_cons. do 2 f_equal.
    destruct (decide (k ∈ d.*1)).
    + by rewrite decide_True by (by right).
    + rewrite decide_False; [done|]. rewrite elem_of_cons. intros [->|?]; done.
Qed.

(** X12: counting a string once more adds one to its count and changes no
    other count; the strings seen before keep their order, and a new string
    goes last. *)
Theorem bump_counts (d : Dict.t) (k k' : string) :
  Dict.get (bump d k) k' 0
  = Dict.get d k' 0 + (if decide (k' = k) then 1 else 0)
  ∧ (bump d k).*1 = d.*1 ++ (if decide (k ∈ d.*1) then [] else [k]).
Proof.
  unfold bump. split.
  - rewrite dict_get_set. destruct (decide (k' = k)) as [->|]; lia.
  - apply dict_keys_set.
Qed.

Lemma dict_total_cons (k : string) (v : Z) (d : Dict.t) :
  dict_total ((k, v) :: d) = v + dict_total d.
Proof. reflexivity. Qed.

Lemma dict_total_set (d : Dict.t) (k : string) (v : Z) :
  dict_total (Dict.set d k v) = dict_total d - Dict.get d k 0 + v.
Proof.
  induction d as [|[k0 v0] d IH]; [cbn; lia|].
  cbn [Dict.set Dict.get]. destruct (decide (k0 = k)).
  - rewrite !dict_total_cons. lia.
  - rewrite !dict_total_cons, IH. lia.
Qed.

(** X13: the genre counts add up to the number of records, and so do the
    author counts: every record is counted once in each table. *)
Theorem count_groups_total (library : list book) :
  dict_total (count_groups library).1 = Z.of_nat (length library)
  ∧ dict_total (count_groups library).2 = Z.of_nat (length library).
Proof.
  induction library as [|book library [IH1 IH2]] using rev_ind; [done|].
  rewrite count_groups_snoc, length_app. simpl. unfold bump.
  rewrite !dict_total_set. lia.
Qed.

(** ** Percentage at the two ends *)

Lemma truediv_same (n : Z) : 0 < n → Float.truediv n n = Float.mk (2 ^ 52) (- 52).
Proof.
  intros Hn. unfold Float.truediv, Float.of_ratio.
  destruct (Z.eqb_spec n 0) as [->|_]; [lia|].
  cbv zeta. rewrite Z.sub_diag. cbn [fst snd].
  change (Z.max 0 (- (0 - 53))) with 53. change (Z.max 0 (0 - 53)) with 0.
  change (2 ^ 0) with 1. rewrite Z.mul_1_r.
  rewrite (Z.mul_comm (2 ^ 53) n), Z.leb_refl.
  change (0 - 53 + 1) with (-52).
  change (Z.max 0 (- -52)) with 52. change (Z.max 0 (-52)) with 0.
  change (2 ^ 0) with 1. rewrite Z.mul_1_r. f_equal.
  unfold Float.round_half_even.
  rewrite (Z.mul_comm n), Z.div_mul, Z.mod_mul by lia.
  destruct (Z.compare_spec (2 * 0) n); [lia|done|lia].
Qed.

(** X14: whatever the size of the catalog, the percentage line reads 0.0%
    when no record is read and 100.0% when all are. *)
Theorem percentage_extremes (library : list book) :
  library ≠ [] →
  (read_count library = 0 → percentage_line library = "Percentage read: 0.0%")
  ∧ (read_count library = total_count library →
     percentage_line library = "Percentage read: 100.0%").
Proof.
  intros Hne.
  assert (0 < total_count library) as Htotal.
  { unfold total_count. destruct library; [done|simpl; lia]. }
  unfold percentage_line, percentage_read.
  destruct (Z.ltb_spec 0 (total_count library)); [|lia].
  split; intros ->.
  - reflexivity.
  - by rewrite truediv_same.
Qed.

Lemma percentage_extremes_witness :
  percentage_line [mkBook "Dune" "Frank Herbert" 1965 "SF" true;
                   mkBook "Emma" "Jane Austen" 1815 "Novel" true;
                   mkBook "Solaris" "Stanislaw Lem" 1961 "SF" true]
  = "Percentage read: 100.0%".
Proof.
  apply (percentage_extremes [mkBook "Dune" "Frank Herbert" 1965 "SF" true;
                              mkBook "Emma" "Jane Austen" 1815 "Novel" true;
                              mkBook "Solaris" "Stanislaw Lem" 1961 "SF" true]);
    [discriminate|reflexivity].
Defined.

(** ** Saving *)

(** X15: a save writes to its own file only, and what it leaves in the
    store does not depend on what an earlier save put there: the file is
    written anew each time.  A save that cannot write the file reports the
    error and leaves the store as it was. *)
Theorem save_library_overwrites (library1 library2 : list book)
    (filename other : string) (fs : store) :
  save_library library2 filename (save_library library1 filename fs).1
  = save_library library2 filename fs
  ∧ (other ≠ filename →
     (save_library library1 filename fs).1 !! other = fs !! other)
  ∧ (∀ f, fs !! filename = Some f → writable f = false →
          save_library library1 filename fs = (fs, [PrintSaveError OSError])).
Proof.
  unfold save_library. split_and!.
  - destruct (fs !! filename) as [f|] eqn:Hf.
    + destruct (writable f) eqn:Hw; cbn [fst].
      * rewrite lookup_insert_eq. cbn [writable readable].
        by rewrite insert_insert_eq.
      * by rewrite Hf, Hw.
    + cbn [fst]. rewrite lookup_insert_eq. cbn [writable readable].
      by rewrite insert_insert_eq.
  - intros Hother. destruct (fs !! filename) as [f|]; [destruct (writable f)|];
      cbn [fst]; by rewrite ?lookup_insert_ne.
  - by intros f -> ->.
Qed.

Lemma save_library_overwrites_witness :
  (save_library [] "library.json"
     {[ "notes.txt" := mkFile "x" true true ]}).1 !! "notes.txt"
  = ({[ "notes.txt" := mkFile "x" true true ]} : store) !! "notes.txt"
  ∧ save_library [] "library.json" {[ "library.json" := mkFile "[1]" true false ]}
    = ({[ "library.json" := mkFile "[1]" true false ]}, [PrintSaveError OSError]).
Proof.
  split.
  - apply (proj1 (proj2 (save_library_overwrites [] [] "library.json" "notes.txt"
                           {[ "notes.txt" := mkFile "x" true true ]}))).
    discriminate.
  - apply (proj2 (proj2 (save_library_overwrites [] [] "library.json" "x"
                           {[ "library.json" := mkFile "[1]" true false ]}))
                 (mkFile "[1]" true false)); reflexivity.
Defined.

(** ** The text that is written *)

Lemma all_plain_app (a b : string) :
  all_plain (a +:+ b) = all_plain a && all_plain b.
Proof.
  induction a as [|c a IH]; [done|].
  rewrite string_app_cons. simpl. by rewrite IH, andb_assoc.
Qed.

Lemma escape_char_plain (c : ascii) : all_plain (Json.escape_char c) = true.
Proof. destruct c as [[] [] [] [] [] [] [] []]; reflexivity. Qed.

Lemma encode_string_plain (s : string) : all_plain (Json.encode_string s) = true.
Proof.
  unfold Json.encode_string. simpl. rewrite all_plain_app. simpl.
  rewrite andb_true_r. induction s as [|c s IH]; [done|].
  simpl. by rewrite all_plain_app, escape_char_plain, IH.
Qed.

Lemma string_of_uint_plain (d : Decimal.uint) :
  all_plain (NilEmpty.string_of_uint d) = true.
Proof. induction d; simpl; try done. Qed.

Lemma str_of_int_plain (z : Z) : all_plain (Py.str_of_int z) = true.
Proof.
  unfold Py.str_of_int, NilZero.string_of_int.
  destruct (Z.to_int z) as [d|d]; destruct d; simpl;
    try done; apply string_of_uint_plain.
Qed.

Lemma newline_indent_plain (level : nat) :
  all_plain (Json.newline_indent level) = true.
Proof.
  unfold Json.newline_indent. rewrite all_plain_app.
  induction (4 * level)%nat as [|n IH]; [done|]. simpl in *. done.
Qed.

Lemma encode_book_plain (b : book) :
  all_plain (Json.encode 1 (book_to_json b)) = true.
Proof.
  rewrite encode_book. unfold member_sep.
  rewrite !all_plain_app, !encode_string_plain, str_of_int_plain,
    !newline_indent_plain.
  by destruct (read b).
Qed.

Lemma concat_books_plain (books : list book) :
  all_plain (String.concat item_sep (encode_books books)) = true.
Proof.
  induction books as [|b [|b' books] IH]; [done|..].
  - cbn [encode_books fmap list_fmap map String.concat]. apply encode_book_plain.
  - change (encode_books (b :: b' :: books))
      with (Json.encode 1 (book_to_json b) :: Json.encode 1 (book_to_json b')
              :: encode_books books).
    rewrite concat_cons_cons, !all_plain_app, encode_book_plain.
    change (Json.encode 1 (book_to_json b') :: encode_books books)
      with (encode_books (b' :: books)).
    rewrite IH. unfold item_sep. by rewrite all_plain_app, newline_indent_plain.
Qed.

(** X16: the text that [save_library] writes for a catalog is plain ASCII,
    printable characters and line breaks only, whatever characters the
    records hold. *)
Theorem dumps_plain_ascii (library : list book) :
  all_plain (Json.dumps (library_to_json library)) = true.
Proof.
  destruct library as [|b books]; [done|].
  unfold Json.dumps, library_to_json. cbn [Json.encode].
  fold (encode_books (b :: books)). unfold Json.block.
  change (encode_books (b :: books))
    with (Json.encode 1 (book_to_json b) :: encode_books books) at 1.
  cbv iota. fold item_sep.
  change (Json.encode 1 (book_to_json b) :: encode_books books)
    with (encode_books (b :: books)).
  by rewrite !all_plain_app, !newline_indent_plain, concat_books_plain.
Qed.

(** ** Runs of the menu loop *)

Lemma forward_bind {A B} (m : console A) (k : A → console B) :
  forward m → (∀ a, forward (k a)) → forward (m ≫= k).
Proof.
  intros Hm Hk stdin b rest out. rewrite bind_run.
  destruct (m stdin) as [a r o|] eqn:Hrun; [|done].
  destruct (k a r) as [b' r' o'|] eqn:Hrun'; [|done].
  simpl. intros [= <- <- <-].
  apply Hm in Hrun. apply Hk in Hrun'. lia.
Qed.

Lemma eof_only_bind {A B} (m : console A) (k : A → console B) :
  eof_only m → (∀ a, eof_only (k a)) → eof_only (m ≫= k).
Proof.
  intros Hm Hk stdin e out. rewrite bind_run.
  destruct (m stdin) as [a r o|e' o] eqn:Hrun.
  - destruct (k a r) as [b' r' o'|e' o'] eqn:Hrun'; [done|].
    simpl. intros [= <- _]. by eapply Hk.
  - intros [= <- _]. by eapply Hm.
Qed.

Lemma forward_ret {A} (a : A) : forward (mret a : console A).
Proof. intros stdin a' rest out [= _ <- _]. done. Qed.

Lemma eof_only_ret {A} (a : A) : eof_only (mret a : console A).
Proof. by intros stdin e out. Qed.

Lemma forward_print s : forward (Console.print s).
Proof. intros stdin a' rest out [= _ <- _]. done. Qed.

Lemma eof_only_print s : eof_only (Console.print s).
Proof. by intros stdin e out. Qed.

Lemma forward_print_all lines : forward (print_all lines).
Proof. intros stdin a rest out. rewrite print_all_run. by intros [= _ <- _]. Qed.

Lemma eof_only_print_all lines : eof_only (print_all lines).
Proof. intros stdin e out. by rewrite print_all_run. Qed.

Lemma forward_get_valid_input prompt ty valid_options :
  forward (get_valid_input prompt ty valid_options).
Proof.
  intros stdin a rest out Hrun. apply get_valid_input_length in Hrun. lia.
Qed.

Lemma eof_only_get_valid_input prompt ty valid_options :
  eof_only (get_valid_input prompt ty valid_options).
Proof. intros stdin e out. apply get_valid_input_Raised. Qed.

Lemma forward_or_raise {A} e (o : option A) : forward (or_raise e o).
Proof. destruct o; [apply forward_ret|done]. Qed.

Lemma forward_input prompt : forward (input prompt).
Proof. intros [|l stdin] a rest out; [done|]. intros [= _ <- _]. simpl. lia. Qed.

Lemma eof_only_input prompt : eof_only (input prompt).
Proof. intros [|l stdin] e out; [|done]. by intros [= <- _]. Qed.

(** Both properties follow the shape of a computation. *)
Ltac forward_tac :=
  cbv zeta;
  first
    [ exact (forward_get_valid_input _ TStr _) | exact (forward_get_valid_input _ TInt _)
    | exact (forward_get_valid_input _ TBool _) | apply forward_ret | apply forward_print
    | apply forward_print_all | apply forward_or_raise | apply forward_input
    | apply forward_bind; [forward_tac | intros ?; forward_tac]
    | case_bool_decide; forward_tac
    | progress unfold banner, report_results; forward_tac ].

Ltac eof_only_tac :=
  cbv zeta;
  first
    [ exact (eof_only_get_valid_input _ TStr _) | exact (eof_only_get_valid_input _ TInt _)
    | exact (eof_only_get_valid_input _ TBool _) | apply eof_only_ret | apply eof_only_print
    | apply eof_only_print_all | apply eof_only_input
    | apply eof_only_bind; [eof_only_tac | intros ?; eof_only_tac]
    | case_bool_decide; eof_only_tac
    | progress unfold banner, report_results; eof_only_tac ].

Lemma forward_add_book library : forward (add_book library).
Proof. unfold add_book. forward_tac. Qed.

Lemma eof_only_add_book library : eof_only (add_book library).
Proof. unfold add_book. eof_only_tac. Qed.

Lemma forward_remove_book library : forward (remove_book library).
Proof. unfold remove_book. forward_tac. Qed.

Lemma eof_only_remove_book library : eof_only (remove_book library).
Proof.
  intros stdin e out Hrun. pose proof (remove_book_deletes library stdin) as H.
  by rewrite Hrun in H.
Qed.

Lemma forward_search_books library : forward (search_books library).
Proof. unfold search_books. forward_tac. Qed.

Lemma eof_only_search_books library : eof_only (search_books library).
Proof. unfold search_books. eof_only_tac. Qed.

Lemma forward_display_all_books library : forward (display_all_books library).
Proof. unfold display_all_books. forward_tac. Qed.

Lemma eof_only_display_all_books library : eof_only (display_all_books library).
Proof. unfold display_all_books. eof_only_tac. Qed.

Lemma forward_display_statistics library : forward (display_statistics library).
Proof.
  unfold display_statistics. destruct (count_groups library). forward_tac.
Qed.

Lemma eof_only_display_statistics library : eof_only (display_statistics library).
Proof.
  unfold display_statistics. destruct (count_groups library). eof_only_tac.
Qed.

Lemma forward_handle choice library : forward (handle choice library).
Proof.
  unfold handle.
  repeat (destruct (_ =? _);
          [first [apply forward_add_book | apply forward_remove_book
                 | apply forward_bind;
                   [first [apply forward_search_books
                          | apply forward_display_all_books
                          | apply forward_display_statistics]
                   | intros ?; apply forward_ret]]|]).
  apply forward_ret.
Qed.

Lemma eof_only_handle choice library : eof_only (handle choice library).
Proof.
  unfold handle.
  repeat (destruct (_ =? _);
          [first [apply eof_only_add_book | apply eof_only_remove_book
                 | apply eof_only_bind;
                   [first [apply eof_only_search_books
                          | apply eof_only_display_all_books
                          | apply eof_only_display_statistics]
                   | intros ?; apply eof_only_ret]]|]).
  apply eof_only_ret.
Qed.

(** *** One round *)

Lemma session_S fuel os_name fs library stdin :
  session (S fuel) os_name fs library stdin
  = let shown :=
      clear_screen os_name ++ (Screen <$> output (display_menu stdin)) in
    match get_valid_input (nl +:+ "Enter your choice: ") TInt
            (Some (Py.VInt <$> Py.range 1 7)) stdin with
    | Raised e out => Some (Uncaught e, shown ++ (Screen <$> out))
    | Done choice rest out =>
        if choice =? 6 then
          let saved := save_library library "library.json" fs in
          Some (Exit saved.1 rest,
                shown
                ++ (Screen <$> out ++ saved.2
                      ++ [Print (nl +:+ "Library saved to file. Goodbye!")]))
        else
          match (library ← handle choice library;
                 input (nl +:+ "Press Enter to continue...");;
                 mret library) rest with
          | Raised e out' => Some (Uncaught e, shown ++ (Screen <$> out ++ out'))
          | Done library rest out' =>
              add_trace (shown ++ (Screen <$> out ++ out'))
                <$> session fuel os_name fs library rest
          end
    end.
Proof. reflexivity. Qed.

Lemma forward_round choice library :
  forward (library ← handle choice library;
           input (nl +:+ "Press Enter to continue...");;
           mret library).
Proof.
  apply forward_bind; [apply forward_handle|]. intros ?. forward_tac.
Qed.

Lemma eof_only_round choice library :
  eof_only (library ← handle choice library;
            input (nl +:+ "Press Enter to continue...");;
            mret library).
Proof.
  apply eof_only_bind; [apply eof_only_handle|]. intros ?. eof_only_tac.
Qed.

(** Enough rounds: the result is there, and more rounds do not change it. *)
Lemma session_fuel fuel os_name fs library stdin :
  (length stdin < fuel)%nat →
  ∃ r, ∀ fuel', (fuel ≤ fuel')%nat →
                session fuel' os_name fs library stdin = Some r.
Proof.
  revert library stdin.
  induction fuel as [|fuel IH]; intros library stdin Hlen; [lia|].
  destruct (get_valid_input (nl +:+ "Enter your choice: ") TInt
              (Some (Py.VInt <$> Py.range 1 7)) stdin)
    as [choice rest out|e out] eqn:Hrun.
  - pose proof (get_valid_input_length _ _ _ _ _ _ _ Hrun) as Hrest.
    destruct (choice =? 6) eqn:Hsix.
    + eexists. intros [|fuel'] Hle; [lia|].
      rewrite session_S. cbv zeta. rewrite Hrun, Hsix. reflexivity.
    + destruct ((library ← handle choice library;
                 input (nl +:+ "Press Enter to continue...");;
                 mret library) rest) as [library' rest' out'|e out'] eqn:Hround.
      * apply forward_round in Hround as Hrest'.
        destruct (IH library' rest') as [r Hr]; [lia|].
        eexists. intros [|fuel'] Hle; [lia|].
        rewrite session_S. cbv zeta. rewrite Hrun, Hsix, Hround.
        rewrite Hr by lia. reflexivity.
      * eexists. intros [|fuel'] Hle; [lia|].
        rewrite session_S. cbv zeta. rewrite Hrun, Hsix, Hround. reflexivity.
  - eexists. intros [|fuel'] Hle; [lia|].
    rewrite session_S. cbv zeta. rewrite Hrun. reflexivity.
Qed.

(** How the loop can end: by the exit, after a save of some catalog to
    [library.json], or at the end of the input. *)
Lemma session_ending fuel os_name fs library stdin e t :
  session fuel os_name fs library stdin = Some (e, t) →
  match e with
  | Exit fs' rest =>
      (∃ library', fs' = (save_library library' "library.json" fs).1)
      ∧ (length rest < length stdin)%nat
      ∧ ∃ t0, t = t0 ++ [Screen (Print (nl +:+ "Library saved to file. Goodbye!"))]
  | Uncaught e => e = EOFError
  | Unshaped _ => False
  end.
Proof.
  revert library stdin t.
  induction fuel as [|fuel IH]; intros library stdin t; [done|].
  rewrite session_S. cbv zeta.
  destruct (get_valid_input (nl +:+ "Enter your choice: ") TInt
              (Some (Py.VInt <$> Py.range 1 7)) stdin)
    as [choice rest out|e' out] eqn:Hrun.
  - pose proof (get_valid_input_length _ _ _ _ _ _ _ Hrun) as Hrest.
    destruct (choice =? 6).
    + intros [= <- <-]. split_and!; [by eexists|done|].
      exists (clear_screen os_name ++ (Screen <$> output (display_menu stdin))
              ++ (Screen <$> out ++ (save_library library "library.json" fs).2)).
      rewrite !fmap_app, <- !app_assoc. reflexivity.
    + destruct ((library ← handle choice library;
                 input (nl +:+ "Press Enter to continue...");;
                 mret library) rest) as [library' rest' out'|e' out'] eqn:Hround.
      * apply forward_round in Hround as Hrest'.
        destruct (session fuel os_name fs library' rest') as [[e'' t'']|] eqn:Hs;
          [|done].
        simpl. intros [= <- <-]. apply IH in Hs.
        destruct e'' as [fs' rest''| |]; [|done..].
        destruct Hs as (? & ? & t0 & ->). split_and!; [done|lia|].
        exists ((clear_screen os_name ++ (Screen <$> output (display_menu stdin))
                 ++ (Screen <$> out ++ out')) ++ t0).
        rewrite <- !app_assoc. reflexivity.
      * intros [= <- _]. by eapply eof_only_round.
  - intros [= <- _]. by eapply eof_only_get_valid_input.
Qed.

(** X17: the loop ends once it is given more rounds than there are pending
    lines, and further rounds do not change the result; it ends by the exit
    or because the input has ended, and no other exception leaves it. *)
Theorem session_ends (fuel : nat) (os_name : string) (fs : store)
    (library : list book) (stdin : list string) :
  (length stdin < fuel)%nat →
  ∃ e t,
    (∀ fuel', (fuel ≤ fuel')%nat →
              session fuel' os_name fs library stdin = Some (e, t))
    ∧ ((∃ fs' rest, e = Exit fs' rest) ∨ e = Uncaught EOFError).
Proof.
  intros Hlen.
  destruct (session_fuel fuel os_name fs library stdin Hlen) as [[e t] Hr].
  exists e, t. split; [done|].
  pose proof (session_ending _ _ _ _ _ _ _ (Hr fuel (le_n _))) as Hend.
  destruct e as [fs' rest|e|v]; [left; by eexists _, _|right; by subst|done].
Qed.

Lemma session_ends_witness :
  ∃ e t,
    (∀ fuel', (3 ≤ fuel')%nat →
              session fuel' "posix" ∅ [] ["4"; ""] = Some (e, t))
    ∧ ((∃ fs' rest, e = Exit fs' rest) ∨ e = Uncaught EOFError).
Proof. apply (session_ends 3 "posix" ∅ [] ["4"; ""]). simpl. lia. Defined.


Lemma saved_book_to_json (b : book) : saved_book (book_to_json b) = Some b.
Proof. by destruct b. Qed.

Lemma saved_library_to_json (library : list book) :
  saved_library (library_to_json library) = Some library.
Proof.
  unfold saved_library, library_to_json.
  apply mapM_Some. induction library as [|b library IH]; [constructor|].
  rewrite fmap_cons. constructor; [apply saved_book_to_json|done].
Qed.

Lemma known_store_loads (fs : store) :
  known_store fs →
  ∃ library, saved_library (load_library "library.json" fs).1 = Some library.
Proof.
  unfold known_store, load_library.
  destruct (fs !! "library.json") as [f|]; [|by exists []].
  destruct (readable f); [|by exists []].
  intros [?|[Hparse|[library Hsaved]]]; [done| |].
  - rewrite Hparse. by exists [].
  - rewrite Hsaved, loads_dumps_library. exists library.
    apply saved_library_to_json.
Qed.

Lemma known_store_save (library : list book) (fs : store) :
  known_store fs → known_store (save_library library "library.json" fs).1.
Proof.
  intros Hknown. unfold save_library.
  destruct (fs !! "library.json") as [f|] eqn:Hf.
  - destruct (writable f); [|done].
    unfold known_store. cbn [fst]. rewrite lookup_insert_eq.
    right. right. by exists library.
  - unfold known_store. cbn [fst]. rewrite lookup_insert_eq.
    right. right. by exists library.
Qed.

(** X18: on a store that has no [library.json], or one that cannot be
    loaded, or one that holds a catalog as the program saves it, [main]
    comes to an end on every finite input: by the exit, which leaves a store
    of the same kind, or by [EOFError] at the end of the input, and by no
    other exception. *)
Theorem main_ends (os_name : string) (fs : store) (stdin : list string) :
  known_store fs →
  ∃ e t,
    main os_name fs stdin = Some (e, t)
    ∧ match e with
      | Exit fs' rest => known_store fs'
      | Uncaught e => e = EOFError
      | Unshaped _ => False
      end.
Proof.
  intros Hknown. unfold main. cbv zeta.
  destruct (known_store_loads fs Hknown) as [library ->].
  destruct (session_fuel (S (length stdin)) os_name fs library stdin)
    as [[e t] Hr]; [lia|].
  rewrite (Hr _ (le_n _)). eexists _, _. split; [done|].
  pose proof (session_ending _ _ _ _ _ _ _ (Hr _ (le_n _))) as Hend.
  destruct e as [fs' rest|e|v]; [|done..].
  destruct Hend as ((library' & ->) & _). by apply known_store_save.
Qed.

Lemma main_ends_witness :
  ∃ e t,
    main "posix" {[ "library.json" := mkFile "[{" true true ]}
      ["4"; ""; "1"; "Dune"] = Some (e, t)
    ∧ match e with
      | Exit fs' rest => known_store fs'
      | Uncaught e => e = EOFError
      | Unshaped _ => False
      end.
Proof.
  apply (main_ends "posix" {[ "library.json" := mkFile "[{" true true ]}
           ["4"; ""; "1"; "Dune"]).
  unfold known_store. rewrite lookup_singleton_eq. right. left. reflexivity.
Defined.



(** X20: the exit on a store that may not be written: the catalog in memory
    is lost, the store is as it was, and the screen shows the error followed
    by the line that says that the library was saved. *)
Theorem exit_save_fails (fuel : nat) (os_name : string) (fs : store)
    (library : list book) (f : file) (line : string) (rest : list string) :
  fs !! "library.json" = Some f → writable f = false →
  validate TInt (Some (Py.VInt <$> Py.range 1 7)) line = inr 6 →
  session (S fuel) os_name fs library (line :: rest)
  = Some (Exit fs rest,
          clear_screen os_name ++ (Screen <$> output (display_menu []))
          ++ [Screen (Prompt (nl +:+ "Enter your choice: "));
              Screen (PrintSaveError OSError);
              Screen (Print (nl +:+ "Library saved to file. Goodbye!"))]).
Proof.
  intros Hf Hw Hline. rewrite session_S. cbv zeta.
  cbn [get_valid_input]. rewrite Hline. cbv iota beta.
  change (6 =? 6) with true. cbv iota.
  unfold save_library. rewrite Hf, Hw. reflexivity.
Qed.

Lemma exit_save_fails_witness :
  let fs : store := {[ "library.json" := mkFile "[]" true false ]} in
  session 1 "posix" fs [mkBook "Dune" "Frank Herbert" 1965 "SF" true] [" 6 "]
  = Some (Exit fs [],
          clear_screen "posix" ++ (Screen <$> output (display_menu []))
          ++ [Screen (Prompt (nl +:+ "Enter your choice: "));
              Screen (PrintSaveError OSError);
              Screen (Print (nl +:+ "Library saved to file. Goodbye!"))]).
Proof.
  intros fs.
  apply (exit_save_fails 0 "posix" fs _ (mkFile "[]" true false) " 6 " []);
    reflexivity.
Defined.

(** X21: a line that is refused at the menu starts no operation and does not
    draw the menu again: the run is the run without that line, with the
    prompt and the complaint put after the first menu. *)
Theorem menu_choice_rejected (fuel : nat) (os_name : string) (fs : store)
    (library : list book) (line : string) (e : value_error)
    (stdin : list string) :
  validate TInt (Some (Py.VInt <$> Py.range 1 7)) line = inl e →
  session fuel os_name fs library (line :: stdin)
  = (λ r,
       (r.1,
        take 11 r.2
        ++ [Screen (Prompt (nl +:+ "Enter your choice: "));
            Screen (PrintInvalid e)]
        ++ drop 11 r.2))
    <$> session fuel os_name fs library stdin.
Proof.
  intros Hline. destruct fuel as [|fuel]; [done|].
  rewrite !session_S. cbv zeta. cbn [get_valid_input]. rewrite Hline.
  cbv iota beta.
  change (clear_screen os_name ++ (Screen <$> output (display_menu (line :: stdin))))
    with (clear_screen os_name ++ (Screen <$> output (display_menu stdin))).
  set (shown := clear_screen os_name ++ (Screen <$> output (display_menu stdin))).
  assert (∀ t, take 11 (shown ++ t) = shown) as Htake by done.
  assert (∀ t, drop 11 (shown ++ t) = t) as Hdrop by done.
  destruct (get_valid_input (nl +:+ "Enter your choice: ") TInt
              (Some (Py.VInt <$> Py.range 1 7)) stdin)
    as [choice rest out|e' out]; cbn [emit].
  - destruct (choice =? 6).
    + cbn [fmap option_fmap option_map fst snd]. by rewrite Htake, Hdrop.
    + destruct ((library ← handle choice library;
                 input (nl +:+ "Press Enter to continue...");;
                 mret library) rest) as [library' rest' out'|e' out'].
      * destruct (session fuel os_name fs library' rest') as [[e'' t'']|]; [|done].
        cbn [fmap option_fmap option_map fst snd add_trace].
        rewrite <- (app_assoc shown), Htake, Hdrop.
        by rewrite <- !app_assoc.
      * cbn [fmap option_fmap option_map fst snd]. by rewrite Htake, Hdrop.
  - cbn [fmap option_fmap option_map fst snd]. by rewrite Htake, Hdrop.
Qed.

Lemma menu_choice_rejected_witness :
  session 2 "posix" ∅ [] ["7"; "6"]
  = (λ r,
       (r.1,
        take 11 r.2
        ++ [Screen (Prompt (nl +:+ "Enter your choice: "));
            Screen (PrintInvalid (NotAnOption (Py.VInt <$> Py.range 1 7)))]
        ++ drop 11 r.2))
    <$> session 2 "posix" ∅ [] ["6"].
Proof.
  apply (menu_choice_rejected 2 "posix" ∅ [] "7"
           (NotAnOption (Py.VInt <$> Py.range 1 7)) ["6"]).
  reflexivity.
Defined.

Lemma load_saved_catalog library fs f :
  fs !! "library.json" = Some f → readable f = true →
  content f = Json.dumps (library_to_json library) →
  load_library "library.json" fs = (library_to_json library, []).
Proof.
  intros Hf Hr Hc. unfold load_library.
  by rewrite Hf, Hr, Hc, loads_dumps_library.
Qed.

(** X22: from the menu to the store and back.  On a store that holds a saved
    catalog, the lines "add", five answers that pass, Enter and "exit" end the
    run by the exit, and what [load_library] then finds in the store is the
    catalog with the new record at its end. *)
Theorem main_add_and_exit (os_name : string) (fs : store) (f : file)
    (library : list book) (c1 l1 l2 l3 l4 l5 enter c6 : string) (y : Z)
    (rest : list string) :
  fs !! "library.json" = Some f →
  readable f = true → writable f = true →
  content f = Json.dumps (library_to_json library) →
  validate TInt (Some (Py.VInt <$> Py.range 1 7)) c1 = inr 1 →
  Py.strip l1 ≠ "" → Py.strip l2 ≠ "" →
  Py.int (Py.strip l3) = Some y →
  Py.strip l4 ≠ "" →
  Py.lower (Py.strip l5) ∈ ["yes"; "no"; "y"; "n"] →
  validate TInt (Some (Py.VInt <$> Py.range 1 7)) c6 = inr 6 →
  ∃ fs' t,
    main os_name fs (c1 :: l1 :: l2 :: l3 :: l4 :: l5 :: enter :: c6 :: rest)
    = Some (Exit fs' rest, t)
    ∧ load_library "library.json" fs'
      = (library_to_json
           (library
              ++ [mkBook (Py.strip l1) (Py.strip l2) y (Py.strip l4)
                         (bool_decide (Py.lower (Py.strip l5) ∈ ["yes"; "y"]))]),
         []).
Proof.
  intros Hf Hr Hw Hc Hc1 H1 H2 H3 H4 H5 Hc6.
  unfold main. cbv zeta.
  rewrite (load_saved_catalog library fs f Hf Hr Hc). cbn [fst snd].
  rewrite saved_library_to_json.
  cbn [length]. rewrite session_S. cbv zeta.
  cbn [get_valid_input]. rewrite Hc1. cbv iota beta.
  change (1 =? 6) with false. cbv iota.
  change (handle 1 library) with (add_book library).
  rewrite bind_run, (add_book_five_lines library l1 l2 l3 l4 l5 y _ H1 H2 H3 H4 H5).
  cbv iota beta. rewrite bind_run. cbn [input]. cbv iota beta. cbn [emit].
  rewrite mret_run. cbn [emit]. cbv iota beta.
  rewrite session_S. cbv zeta.
  cbn [get_valid_input]. rewrite Hc6. cbv iota beta.
  change (6 =? 6) with true. cbv iota.
  unfold save_library at 1 2. rewrite Hf, Hw, Hr. cbn [fst snd].
  eexists _, _. split; [reflexivity|].
  eapply load_saved_catalog; [apply lookup_insert_eq|done..].
Qed.

Lemma main_add_and_exit_witness :
  let fs : store := {[ "library.json" := mkFile "[]" true true ]} in
  ∃ fs' t,
    main "posix" fs ["1"; " Dune "; "Frank Herbert"; "1965"; "SF"; "Y"; ""; "6"]
    = Some (Exit fs' [], t)
    ∧ load_library "library.json" fs'
      = (library_to_json
           ([] ++ [mkBook (Py.strip " Dune ") (Py.strip "Frank Herbert") 1965
                          (Py.strip "SF")
                          (bool_decide (Py.lower (Py.strip "Y") ∈ ["yes"; "y"]))]),
         []).
Proof.
  intros fs.
  apply (main_add_and_exit "posix" fs (mkFile "[]" true true) []
           "1" " Dune " "Frank Herbert" "1965" "SF" "Y" "" "6" 1965 []);
    try discriminate; try reflexivity.
  apply (bool_decide_unpack _). vm_compute. exact I.
Defined.

(** X23: a start followed at once by the exit.  A store that holds a saved
    catalog and may be read and written is left exactly as it was; a path
    that does not exist is created with the empty catalog, the text [[]]. *)
Theorem main_exit_at_once (os_name : string) (fs : store) (c6 : string)
    (rest : list string) :
  validate TInt (Some (Py.VInt <$> Py.range 1 7)) c6 = inr 6 →
  (∀ library,
     fs !! "library.json"
     = Some (mkFile (Json.dumps (library_to_json library)) true true) →
     ∃ t, main os_name fs (c6 :: rest) = Some (Exit fs rest, t))
  ∧ (fs !! "library.json" = None →
     ∃ t, main os_name fs (c6 :: rest)
          = Some (Exit (<["library.json" := mkFile "[]" true true]> fs) rest, t)).
Proof.
  intros Hc6. split.
  - intros library Hf. unfold main. cbv zeta.
    rewrite (load_saved_catalog library fs _ Hf eq_refl eq_refl). cbn [fst snd].
    rewrite saved_library_to_json.
    cbn [length]. rewrite session_S. cbv zeta.
    cbn [get_valid_input]. rewrite Hc6. cbv iota beta.
    change (6 =? 6) with true. cbv iota.
    unfold save_library at 1 2. rewrite Hf. cbn [writable readable fst snd].
    rewrite (insert_id fs _ _ Hf). by eexists.
  - intros Hf. unfold main, load_library. cbv zeta. rewrite Hf. cbn [fst snd].
    change (saved_library (Json.Arr [])) with (Some (@nil book)). cbv iota.
    cbn [length]. rewrite session_S. cbv zeta.
    cbn [get_valid_input]. rewrite Hc6. cbv iota beta.
    change (6 =? 6) with true. cbv iota.
    unfold save_library at 1 2. rewrite Hf. cbn [fst snd].
    by eexists.
Qed.

Lemma main_exit_at_once_witness :
  (∃ t, main "nt" {[ "library.json" := mkFile "[]" true true ]} ["6"; "x"]
        = Some (Exit {[ "library.json" := mkFile "[]" true true ]} ["x"], t))
  ∧ (∃ t, main "nt" ∅ ["6"; "x"]
          = Some (Exit (<["library.json" := mkFile "[]" true true]> ∅) ["x"], t)).
Proof.
  split.
  - apply (proj1 (main_exit_at_once "nt"
                    {[ "library.json" := mkFile "[]" true true ]} "6" ["x"]
                    eq_refl) []).
    reflexivity.
  - apply (proj2 (main_exit_at_once "nt" ∅ "6" ["x"] eq_refl)). reflexivity.
Defined.

(** X24: a store that cannot be read, or does not decode, is taken for the
    empty catalog: the error is shown first, and the exit writes the empty
    catalog over what the store held, when the store may be written. *)
Theorem main_replaces_unloadable (os_name : string) (fs : store) (f : file)
    (c6 : string) (rest : list string) :
  fs !! "library.json" = Some f →
  readable f = false ∨ Json.loads (content f) = None →
  writable f = true →
  validate TInt (Some (Py.VInt <$> Py.range 1 7)) c6 = inr 6 →
  ∃ e t,
    main os_name fs (c6 :: rest)
    = Some (Exit (<["library.json" := mkFile "[]" (readable f) true]> fs) rest,
            Screen (PrintLoadError e) :: t).
Proof.
  intros Hf Hbad Hw Hc6.
  assert (∃ e, load_library "library.json" fs = (Json.Arr [], [PrintLoadError e]))
    as [e Hload].
  { unfold load_library. rewrite Hf. destruct Hbad as [Hr|Hparse].
    - rewrite Hr. by eexists.
    - destruct (readable f); [rewrite Hparse|]; by eexists. }
  unfold main. cbv zeta. rewrite Hload. cbn [fst snd].
  change (saved_library (Json.Arr [])) with (Some (@nil book)). cbv iota.
  cbn [length]. rewrite session_S. cbv zeta.
  cbn [get_valid_input]. rewrite Hc6. cbv iota beta.
  change (6 =? 6) with true. cbv iota.
  unfold save_library at 1 2. rewrite Hf, Hw. cbn [fst snd].
  by eexists _, _.
Qed.

Lemma main_replaces_unloadable_witness :
  ∃ e t,
    main "posix" {[ "library.json" := mkFile "[{" true true ]} ["6"]
    = Some (Exit (<["library.json" := mkFile "[]" true true]>
                    {[ "library.json" := mkFile "[{" true true ]}) [],
            Screen (PrintLoadError e) :: t).
Proof.
  apply (main_replaces_unloadable "posix"
           {[ "library.json" := mkFile "[{" true true ]}
           (mkFile "[{" true true) "6" []); try reflexivity.
  right. reflexivity.
Defined.

(** X25: on the empty catalog the four operations that need a record all do
    the same: one line that says so, no question asked, no line read, and the
    catalog still empty. *)
Theorem handle_empty_catalog (choice : Z) (stdin : list string) :
  2 ≤ choice ≤ 5 →
  handle choice [] stdin
  = Done [] stdin [Print (nl +:+ "Your library is empty!")].
Proof.
  intros Hchoice.
  assert (choice = 2 ∨ choice = 3 ∨ choice = 4 ∨ choice = 5) as Hcases by lia.
  destruct Hcases as [Heq|[Heq|[Heq|Heq]]]; subst choice; reflexivity.
Qed.

Lemma handle_empty_catalog_witness :
  handle 3 [] ["1"; "x"]
  = Done [] ["1"; "x"] [Print (nl +:+ "Your library is empty!")].
Proof. apply (handle_empty_catalog 3 ["1"; "x"]). lia. Defined.
